(** * Hierarchical item codes, price aggregation and rollups of papa_funcional

    A shallow embedding of the budget tool's code-hierarchy logic
    ([funciones/crear_detallado.py], [funciones/crear_pdf.py]), its currency
    lookup ([funciones/monedas.py]), its project loader
    ([funciones/presupuesto_utils.py]) and the detail-table editing
    operations ([funciones/modificar_presupuesto.py]).

    Conventions of the model:
    - item and catalog codes are Python [str] values over ASCII, modelled as
      [string];
    - Python floats are modelled as exact rationals ([Q], compared with
      [==]); a float that may be NaN is an [option Q] with [None] for NaN;
    - a Python call that may raise returns an [option], [None] standing
      for the exception;
    - a table column that pandas may hold as text or as numbers carries
      its dtype next to the values [astype(str)] gives, and the cells of
      a column that an edit assigns to are typed ([Tables.cell]);
    - the repository pins no version of pandas: where pandas 2 and
      pandas 3 differ, the version is an argument ([Tables.pandas]). *)

From Stdlib Require Import String Ascii List ZArith QArith Bool Arith Lia.
From Stdlib Require Import Permutation Sorted Setoid Morphisms.
Import ListNotations.

Local Open Scope string_scope.
Local Open Scope list_scope.

(** ** Python string primitives *)

Module PyStr.

Definition dot : ascii := "."%char.

(** [s.split(sep)] for a one-character separator: never empty, the empty
    string splits into one empty segment. *)
Fixpoint split (sep : ascii) (s : string) : list string :=
  match s with
  | EmptyString => [EmptyString]
  | String c s' =>
      if Ascii.eqb c sep then EmptyString :: split sep s'
      else match split sep s' with
           | [] => [String c EmptyString]
           | seg :: rest => String c seg :: rest
           end
  end.

(** [s.count(c)] for a one-character needle. *)
Fixpoint count (c : ascii) (s : string) : nat :=
  match s with
  | EmptyString => 0
  | String a s' => (if Ascii.eqb a c then 1 else 0) + count c s'
  end.

(** [s.startswith(p)]. *)
Definition startswith (s p : string) : bool := String.prefix p s.

(** [sep.join(l)]. *)
Definition join (sep : string) (l : list string) : string := String.concat sep l.

(** [s.lstrip(c)] for a one-character set. *)
Fixpoint lstrip (c : ascii) (s : string) : string :=
  match s with
  | EmptyString => EmptyString
  | String a s' => if Ascii.eqb a c then lstrip c s' else s
  end.

Definition upper_char (c : ascii) : ascii :=
  let n := nat_of_ascii c in
  if (97 <=? n)%nat && (n <=? 122)%nat then ascii_of_nat (n - 32) else c.

(** [s.upper()] on ASCII text. *)
Fixpoint upper (s : string) : string :=
  match s with
  | EmptyString => EmptyString
  | String c s' => String (upper_char c) (upper s')
  end.

(** A code with a dot: [len(s.split(".")) >= 2]. *)
Definition dotted (s : string) : bool := (2 <=? length (split dot s))%nat.

(** [x or d] for a string [x]: the empty string is falsy. *)
Definition or_str (x d : string) : string :=
  match x with EmptyString => d | _ => x end.

(** *** [int(s)] in base 10

    CPython's [PyLong_FromString]: surrounding ASCII whitespace is skipped,
    one sign is allowed, digits may be grouped by single underscores (not
    leading, doubled or trailing), at least one digit is required, and more
    than [int_max_str_digits] digits raise [ValueError].  [None] stands for
    the [ValueError].

    This is [int] on ASCII text.  On other text Python's [int] also reads
    the decimal digits and skips the spaces of other scripts, which
    [int] below does not: what is proved about the values [int] returns
    is stated for text that satisfies [is_ascii]. *)

Definition is_ascii (c : ascii) : bool := (nat_of_ascii c <? 128)%nat.

Definition is_space (c : ascii) : bool :=
  let n := nat_of_ascii c in
  ((9 <=? n)%nat && (n <=? 13)%nat) || (n =? 32)%nat.

Definition is_digit (c : ascii) : bool :=
  let n := nat_of_ascii c in (48 <=? n)%nat && (n <=? 57)%nat.

Definition is_underscore (c : ascii) : bool := Ascii.eqb c "_"%char.

Definition digit_value (c : ascii) : Z := Z.of_nat (nat_of_ascii c - 48).

Fixpoint skip_spaces (s : string) : string :=
  match s with
  | EmptyString => EmptyString
  | String c s' => if is_space c then skip_spaces s' else s
  end.

(** The longest prefix of digits and underscores, and what follows it. *)
Fixpoint span_body (s : string) : string * string :=
  match s with
  | EmptyString => (EmptyString, EmptyString)
  | String c s' =>
      if is_digit c || is_underscore c then
        let '(b, r) := span_body s' in (String c b, r)
      else (EmptyString, s)
  end.

(** No doubled and no trailing underscore; [prev] tells whether the
    previous character was an underscore. *)
Fixpoint grouping_ok (prev : bool) (s : string) : bool :=
  match s with
  | EmptyString => negb prev
  | String c s' =>
      if is_underscore c then negb prev && grouping_ok true s'
      else grouping_ok false s'
  end.

Fixpoint count_digits (s : string) : nat :=
  match s with
  | EmptyString => 0
  | String c s' => (if is_digit c then 1 else 0) + count_digits s'
  end.

Fixpoint digits_value (acc : Z) (s : string) : Z :=
  match s with
  | EmptyString => acc
  | String c s' =>
      if is_digit c then digits_value (10 * acc + digit_value c) s'
      else digits_value acc s'
  end.

(** CPython's default [sys.int_info.default_max_str_digits]. *)
Definition int_max_str_digits : nat := 4300.

Definition int_unsigned (s : string) : option Z :=
  let '(body, rest) := span_body s in
  match body with
  | EmptyString => None
  | String c _ =>
      if is_underscore c then None
      else if negb (grouping_ok false body) then None
      else if (int_max_str_digits <? count_digits body)%nat then None
      else match skip_spaces rest with
           | EmptyString => Some (digits_value 0 body)
           | _ => None
           end
  end.

Definition int (s : string) : option Z :=
  match skip_spaces s with
  | EmptyString => None
  | String c s' =>
      if Ascii.eqb c "+"%char then int_unsigned s'
      else if Ascii.eqb c "-"%char then option_map Z.opp (int_unsigned s')
      else int_unsigned (String c s')
  end.

Fixpoint all_chars (p : ascii -> bool) (s : string) : bool :=
  match s with
  | EmptyString => true
  | String c s' => p c && all_chars p s'
  end.

End PyStr.

(** ** Python tuple ordering and [sorted] *)

Module PySort.

(** [a < b] on tuples of integers: lexicographic, a proper prefix is
    smaller. *)
Fixpoint tuple_lt (a b : list Z) : bool :=
  match a, b with
  | [], [] => false
  | [], _ :: _ => true
  | _ :: _, [] => false
  | x :: a', y :: b' =>
      if (x <? y)%Z then true
      else if (y <? x)%Z then false
      else tuple_lt a' b'
  end.

(** [a == b] on tuples of integers. *)
Fixpoint tuple_eqb (a b : list Z) : bool :=
  match a, b with
  | [], [] => true
  | x :: a', y :: b' => (x =? y)%Z && tuple_eqb a' b'
  | _, _ => false
  end.

Section Sorted.
Context {A K : Type}.
Variable lt : K -> K -> bool.
Variable key : A -> K.

(** [x] goes before the first element whose key is not smaller than
    its own, so equal keys keep their input order. *)
Fixpoint insert (x : A) (l : list A) : list A :=
  match l with
  | [] => [x]
  | y :: l' => if lt (key y) (key x) then y :: insert x l' else x :: y :: l'
  end.

(** [sorted(l, key=key)]: the stable sort of [l]. *)
Definition sorted (l : list A) : list A := fold_right insert [] l.

(** [a] may stand before [b] in a sorted list: the key of [b] is not
    smaller than the key of [a]. *)
Definition key_le (a b : A) : Prop := lt (key b) (key a) = false.
End Sorted.

(** Order of codes by an ordering key. *)
Definition by_key (key : string -> list Z) : string -> string -> Prop :=
  key_le tuple_lt key.

(** The distinct elements of a list in the order of first occurrence:
    the keys of a [dict] filled in that order, the groups of a [groupby],
    the elements of [set(l)].  Python leaves the iteration order of a set
    unspecified; once the set is passed to [sorted] that order only shows
    between elements whose keys are equal. *)
Fixpoint dedup_by {A : Type} (eqb : A -> A -> bool) (l : list A) : list A :=
  match l with
  | [] => []
  | x :: l' => x :: filter (fun y => negb (eqb x y)) (dedup_by eqb l')
  end.

Definition dedup : list string -> list string := dedup_by String.eqb.

End PySort.

(** ** Python floats and the loaded tables *)

Module Tables.

(** A float that may be NaN; [None] is NaN. *)
Definition pyfloat : Type := option Q.

Definition fadd (a b : pyfloat) : pyfloat :=
  match a, b with
  | Some x, Some y => Some (x + y)%Q
  | _, _ => None
  end.

Definition fmul (a b : pyfloat) : pyfloat :=
  match a, b with
  | Some x, Some y => Some (x * y)%Q
  | _, _ => None
  end.

(** Equality of floats up to the value of the rational; NaN only matches
    NaN (this is identity of results, not Python's [==]). *)
Definition feq (a b : pyfloat) : Prop :=
  match a, b with
  | Some x, Some y => (x == y)%Q
  | None, None => True
  | _, _ => False
  end.

(** [Series.fillna(d)] on one cell. *)
Definition fillna (d : Q) (x : pyfloat) : Q :=
  match x with Some q => q | None => d end.

(** [float(x or d)]: zero is falsy, NaN is truthy and stays NaN. *)
Definition or_float (x : pyfloat) (d : Q) : pyfloat :=
  match x with
  | Some q => if Qeq_bool q 0 then Some d else Some q
  | None => None
  end.

(** A row of [datos.csv] once loaded: [Item] is the value of
    [df["Item"].astype(str)], [cantidad_numero] the result of
    [pd.to_numeric(..., errors="coerce")] on its cell. *)
Record datos_row : Type := mk_datos {
  Item : string;
  Partida : string;
  cantidad_tipo : string;
  cantidad_numero : pyfloat;
  moneda : string
}.

(** How pandas holds the [Item] column: as Python strings ([object]) or
    as numbers ([int64], [float64]). *)
Inductive dtype : Type := ObjectDtype | Int64Dtype | Float64Dtype.

Definition is_object (d : dtype) : bool :=
  match d with ObjectDtype => true | _ => false end.

(** The repository pins no version of pandas, and the versions differ on
    an assignment that the column cannot hold (a [str] into a column of
    numbers, a fractional number into an [int64] column): pandas 2 warns
    and changes the column to a type that holds both, pandas 3 raises
    [TypeError]. *)
Inductive pandas : Type := Pandas2 | Pandas3.

(** A cell of a column of item codes in a [DataFrame]: a Python [str], a
    number (an [int64] or [float64] value, given by what [str()] prints
    for it), or a missing value. *)
Inductive cell : Type :=
  | Str (s : string)
  | Num (repr : string)
  | NaN.

(** [astype(str)] on one cell. *)
Definition astype_str (c : cell) : string :=
  match c with
  | Str s => s
  | Num repr => repr
  | NaN => "nan"
  end.

Definition isna (c : cell) : bool :=
  match c with NaN => true | _ => false end.

(** Whether two cells are the same value: a number and a string never
    are, whatever they print as. *)
Definition cell_eqb (a b : cell) : bool :=
  match a, b with
  | Str x, Str y => String.eqb x y
  | Num x, Num y => String.eqb x y
  | NaN, NaN => true
  | _, _ => false
  end.

(** Whether an [int64] column can take the float [v] as it is: [v] has
    no fractional part and is within the range of the type. *)
Definition int64_holds (v : Q) : bool :=
  (Z.modulo (Qnum v) (Z.pos (Qden v)) =? 0)%Z
  && (- 2 ^ 63 <=? Z.div (Qnum v) (Z.pos (Qden v)))%Z
  && (Z.div (Qnum v) (Z.pos (Qden v)) <=? 2 ^ 63 - 1)%Z.

(** Whether a column of numbers of dtype [dt] can take the float [v]
    without changing its dtype. *)
Definition holds_number (dt : dtype) (v : Q) : bool :=
  match dt with
  | Int64Dtype => int64_holds v
  | _ => true
  end.

(** A row of the file [detalle.csv]: the text of its [item] and
    [Codigo] cells, and its [cantidad] cell as
    [pd.to_numeric(..., errors="coerce")] reads it. *)
Record detalle_csv_row : Type := mk_detalle_csv {
  file_item : string;
  file_Codigo : string;
  file_cantidad : pyfloat
}.

(** A row of the detail table in memory.  [item] is a cell of whatever
    type the column has; [Codigo] holds catalog codes, which are text,
    [None] being a missing cell; [cantidad] is the cell after
    [pd.to_numeric(..., errors="coerce")]. *)
Record detalle_row : Type := mk_detalle {
  item : cell;
  Codigo : option string;
  cantidad : pyfloat
}.

(** [str(r["item"])] and [str(r["Codigo"])], the values of
    [astype(str)]. *)
Definition item_str (r : detalle_row) : string := astype_str (item r).

Definition codigo_str (r : detalle_row) : string :=
  match Codigo r with Some c => c | None => "nan" end.

(** A row of the catalog [construction_budget_data.csv], restricted to
    the columns the price computation selects. *)
Record maestro_row : Type := mk_maestro {
  m_Codigo : string;
  m_Pres : pyfloat
}.

(** [df.set_index("Item").loc[label]] selects every row carrying the
    label. *)
Definition loc (df : list datos_row) (label : string) : list datos_row :=
  filter (fun r => String.eqb (Item r) label) df.

(** A [dict] with string keys as an association list in insertion
    order. *)
Definition dict (V : Type) : Type := list (string * V).

Fixpoint dict_get {V : Type} (d : dict V) (k : string) (default : V) : V :=
  match d with
  | [] => default
  | (k', v) :: d' => if String.eqb k' k then v else dict_get d' k default
  end.

(** [d.setdefault(k, []).append(x)]. *)
Fixpoint setdefault_append (d : dict (list string)) (k x : string)
  : dict (list string) :=
  match d with
  | [] => [(k, [x])]
  | (k', v) :: d' =>
      if String.eqb k' k then (k', v ++ [x]) :: d'
      else (k', v) :: setdefault_append d' k x
  end.

(** Every key of the dictionary has at least one child. *)
Definition all_nonempty (d : dict (list string)) : Prop :=
  Forall (fun pc => (0 <? length (snd pc))%nat = true) d.

Definition Qsum (l : list Q) : Q := fold_right Qplus 0%Q l.

Definition fsum (l : list pyfloat) : pyfloat := fold_right fadd (Some 0%Q) l.

(** What the rows carrying one label add to a total. *)
Definition label_total (df : list datos_row) (f : datos_row -> pyfloat)
  (label : string) : pyfloat :=
  fsum (map f (loc df label)).

End Tables.

(** ** [funciones/presupuesto_utils.py]: how [pd.read_csv] holds the codes *)

Module PresupuestoUtils.
Import PyStr Tables.

(** What the text of a cell of the [Item] column is to the type
    inference of [pd.read_csv].  The model covers codes written with
    digits and dots: [KInt] and [KFloat] are plain decimal literals short
    enough to be held exactly ([int64]) or to print back in positional
    notation (at most 15 significant digits), [KText] has two dots or
    more, and [KOther] is every cell the model does not cover. *)
Inductive cell_kind : Type := KInt | KFloat | KText | KOther.

Fixpoint rstrip (c : ascii) (s : string) : string :=
  match s with
  | EmptyString => EmptyString
  | String a s' =>
      match rstrip c s' with
      | EmptyString => if Ascii.eqb a c then EmptyString else String a EmptyString
      | r => String a r
      end
  end.

(** Text before and after the first dot. *)
Fixpoint cut_dot (s : string) : string * string :=
  match s with
  | EmptyString => (EmptyString, EmptyString)
  | String c s' =>
      if Ascii.eqb c dot then (EmptyString, s')
      else let '(a, b) := cut_dot s' in (String c a, b)
  end.

(** Integer and fraction digits of a float literal without the zeros
    that do not change its value. *)
Definition float_digits (s : string) : string * string :=
  let '(ip, fp) := cut_dot s in (lstrip "0"%char ip, rstrip "0"%char fp).

Definition classify (s : string) : cell_kind :=
  if negb (all_chars (fun c => is_digit c || Ascii.eqb c dot) s) then KOther
  else match count dot s with
       | O => if (1 <=? String.length s)%nat
                 && (String.length (lstrip "0"%char s) <=? 15)%nat
              then KInt else KOther
       | S O =>
           let '(ip, fp) := float_digits s in
           if (2 <=? String.length s)%nat
              && (String.length ip + String.length fp <=? 15)%nat
              && ((1 <=? String.length ip)%nat
                  || (String.length fp =? 0)%nat
                  || (String.length fp - String.length (lstrip "0"%char fp) <=? 3)%nat)
           then KFloat else KOther
       | _ => KText
       end.

(** [str(int(s))]. *)
Definition int_repr (s : string) : string := or_str (lstrip "0"%char s) "0".

(** [repr(float(s))] for a literal within the model. *)
Definition float_repr (s : string) : string :=
  let '(ip, fp) := float_digits (if (count dot s =? 0)%nat then s ++ "." else s)%string in
  (or_str ip "0" ++ "." ++ or_str fp "0")%string.

Definition kind_eqb (a b : cell_kind) : bool :=
  match a, b with
  | KInt, KInt | KFloat, KFloat | KText, KText | KOther, KOther => true
  | _, _ => false
  end.

(** The [Item] column after [pd.read_csv(path)] with no [dtype]: its
    dtype and the values [astype(str)] (and [to_csv]) give back.  [None]
    when a cell is outside the model. *)
Definition read_csv_infer (cells : list string) : option (dtype * list string) :=
  let kinds := map classify cells in
  if existsb (kind_eqb KOther) kinds then None
  else if existsb (kind_eqb KText) kinds then Some (ObjectDtype, cells)
  else match cells with
       | [] => Some (ObjectDtype, [])
       | _ =>
           if forallb (kind_eqb KInt) kinds
           then Some (Int64Dtype, map int_repr cells)
           else Some (Float64Dtype, map float_repr cells)
       end.

(** The [Item] column after [pd.read_csv(path, dtype={"Item": str})]. *)
Definition read_csv_str (cells : list string) : dtype * list string :=
  (ObjectDtype, cells).

(** [load_presupuesto] on the [Item] column of [datos.csv]: no [dtype]
    is given.  [None] for the file stands for a missing [datos.csv]. *)
Definition load_presupuesto (datos_csv : option (list string))
  : option (dtype * list string) :=
  match datos_csv with
  | None => Some (ObjectDtype, [])
  | Some cells => read_csv_infer cells
  end.

(** What [save_presupuesto] writes for the column: [to_csv] prints each
    value as [astype(str)] does. *)
Definition save_presupuesto (col : dtype * list string) : list string := snd col.

(** A cell of a column of dtype [dt] whose [astype(str)] is [value]. *)
Definition cell_of (dt : dtype) (value : string) : cell :=
  if is_object dt then Str value else Num value.

(** The texts [pd.read_csv] takes for a missing value by default. *)
Definition na_values : list string :=
  [EmptyString; "#N/A"; "#N/A N/A"; "#NA"; "-1.#IND"; "-1.#QNAN"; "-NaN"; "-nan";
   "1.#IND"; "1.#QNAN"; "<NA>"; "N/A"; "NA"; "NULL"; "NaN"; "None"; "n/a";
   "nan"; "null"]%string.

(** A cell of the [Codigo] column, a column of catalog codes that pandas
    holds as strings (some code of the column has a letter): an empty
    field, or one of the other texts for a missing value, is a missing
    value. *)
Definition codigo_of (text : string) : option string :=
  if existsb (String.eqb text) na_values then None else Some text.

(** [pd.read_csv(path)] on [detalle.csv], as [load_presupuesto] and the
    price computation of the reports call it: no [dtype] is given, so
    the [item] column is held as pandas infers it.  The result is the
    dtype of that column and the rows; [None] when a cell of the column
    is outside the model of the inference. *)
Definition read_csv_detalle (file : list detalle_csv_row)
  : option (dtype * list detalle_row) :=
  match read_csv_infer (map file_item file) with
  | None => None
  | Some (dt, values) =>
      Some (dt,
            map (fun vr => mk_detalle (cell_of dt (fst vr))
                                      (codigo_of (file_Codigo (snd vr)))
                                      (file_cantidad (snd vr)))
                (combine values file))
  end.

(** What [to_csv] writes for a cell: a missing value is an empty
    field. *)
Definition to_csv_cell (c : cell) : string :=
  match c with
  | Str s => s
  | Num repr => repr
  | NaN => EmptyString
  end.

(** The rows [save_presupuesto] writes to [detalle.csv]. *)
Definition to_csv_detalle (df : list detalle_row) : list detalle_csv_row :=
  map (fun r => mk_detalle_csv (to_csv_cell (item r))
                               (match Codigo r with Some c => c | None => EmptyString end)
                               (cantidad r)) df.

End PresupuestoUtils.

(** ** Per-item unit prices (shared by both report generators) *)

Module Precios.
Import Tables.

(** The catalog rows whose [Codigo] is [code]. *)
Definition matches (df_maestro : list maestro_row) (code : string)
  : list maestro_row :=
  filter (fun m => String.eqb (m_Codigo m) code) df_maestro.

(** The rows a left join gives for one detail row: one per matching
    catalog row, and one with a missing [Pres] when nothing matches.
    Both [Codigo] columns went through [astype(str)]. *)
Definition joined (df_maestro : list maestro_row) (d : detalle_row)
  : list (detalle_row * pyfloat) :=
  match matches df_maestro (codigo_str d) with
  | [] => [(d, None)]
  | ms => map (fun m => (d, m_Pres m)) ms
  end.

(** [df_detalle.merge(df_maestro[["Codigo","Pres"]], on="Codigo",
    how="left")]. *)
Definition merge_left (df_detalle : list detalle_row)
  (df_maestro : list maestro_row) : list (detalle_row * pyfloat) :=
  flat_map (joined df_maestro) df_detalle.

(** The price a detail row is charged after the join: every matching
    catalog row counts, a missing price as 0. *)
Definition joined_price (df_maestro : list maestro_row) (code : string) : Q :=
  Qsum (map (fun m => fillna 0 (m_Pres m)) (matches df_maestro code)).

(** [cantidad * Pres] after both were passed through [fillna(0.0)]. *)
Definition subtotal_linea (r : detalle_row * pyfloat) : Q :=
  (fillna 0 (cantidad (fst r)) * fillna 0 (snd r))%Q.

(** [groupby("item")["subtotal_linea"].sum().to_dict()] on the column
    [astype(str)] has turned into strings: one entry per distinct item,
    holding the sum of its lines. *)
Definition groupby_item_sum (rows : list (detalle_row * pyfloat)) : dict Q :=
  map (fun k =>
         (k, Qsum (map subtotal_linea
                     (filter (fun r => String.eqb (item_str (fst r)) k) rows))))
      (PySort.dedup (map (fun r => item_str (fst r)) rows)).

(** [_compute_precio_unitario_por_item] from the check [df_detalle.empty]
    on: the dictionary computed from the table [pd.read_csv] returned. *)
Definition precios_de_tabla (df_detalle : list detalle_row)
  (df_maestro : list maestro_row) : dict Q :=
  match df_detalle with
  | [] => []
  | _ => groupby_item_sum (merge_left df_detalle df_maestro)
  end.

(** [_compute_precio_unitario_por_item].  [detalle_csv] is the content
    of [detalle.csv], [None] when the file does not exist; the function
    reads it with [pd.read_csv], giving no [dtype].  The result is
    [None] when a cell of the [item] column is outside the model of the
    inference. *)
Definition _compute_precio_unitario_por_item
  (detalle_csv : option (list detalle_csv_row)) (df_maestro : list maestro_row)
  : option (dict Q) :=
  match detalle_csv with
  | None => Some []
  | Some file =>
      match PresupuestoUtils.read_csv_detalle file with
      | None => None
      | Some (_, df_detalle) => Some (precios_de_tabla df_detalle df_maestro)
      end
  end.

(** [float(precios_item.get(str(child), 0.0))], the unit price the
    report loops read for an item. *)
Definition precio_unitario (detalle_csv : option (list detalle_csv_row))
  (df_maestro : list maestro_row) (child : string) : option Q :=
  match _compute_precio_unitario_por_item detalle_csv df_maestro with
  | None => None
  | Some precios_item => Some (dict_get precios_item child 0%Q)
  end.

(** The same lookup in the dictionary computed from a table in
    memory. *)
Definition precio_de_tabla (df_detalle : list detalle_row)
  (df_maestro : list maestro_row) (child : string) : Q :=
  dict_get (precios_de_tabla df_detalle df_maestro) child 0%Q.

End Precios.

(** ** [funciones/monedas.py] *)

Module Monedas.
Import PyStr Tables.

(** A row of [monedas.csv] as [pd.read_csv] yields it; [ValorCLP] has
    gone through [pd.to_numeric(..., errors="coerce")]. *)
Record moneda_csv_row : Type := mk_moneda_csv {
  csv_Codigo : string;
  csv_Nombre : string;
  csv_ValorCLP : pyfloat
}.

(** A row of the table [load_monedas] returns. *)
Record moneda_row : Type := mk_moneda {
  mo_Codigo : string;
  mo_Nombre : string;
  ValorCLP : Q
}.

Definition default_monedas : list moneda_csv_row :=
  [ mk_moneda_csv "CLP" "Peso Chileno" (Some 1%Q);
    mk_moneda_csv "UF" "Unidad de Fomento" (Some (3971889 # 100)%Q);
    mk_moneda_csv "USD" "Dólar Estadounidense" (Some (86207 # 100)%Q) ].

(** [load_monedas]; the argument is the content of [monedas.csv], [None]
    when the file does not exist. *)
Definition load_monedas (file : option (list moneda_csv_row)) : list moneda_row :=
  let df := match file with Some df => df | None => default_monedas end in
  map (fun r => mk_moneda (csv_Codigo r) (csv_Nombre r)
                          (fillna 1 (csv_ValorCLP r))) df.

(** [get_moneda_value]. *)
Definition get_moneda_value (file : option (list moneda_csv_row))
  (codigo : string) : Q :=
  let df := load_monedas file in
  let row := filter (fun r => String.eqb (upper (mo_Codigo r)) (upper codigo)) df in
  match row with
  | [] => 1%Q
  | r :: _ => ValorCLP r
  end.

(** Python's [a / b] on floats: [None] is [ZeroDivisionError]. *)
Definition py_div (a b : Q) : option Q :=
  if Qeq_bool b 0 then None else Some (a / b)%Q.

(** [convert_clp_to]; [None] would be a raised exception. *)
Definition convert_clp_to (file : option (list moneda_csv_row))
  (monto_clp : Q) (moneda_destino : string) : option Q :=
  let valor := get_moneda_value file moneda_destino in
  if Qeq_bool valor 0 then Some 0%Q
  else py_div monto_clp valor.

End Monedas.

(** ** [funciones/crear_detallado.py] *)

Module CrearDetallado.
Import PyStr PySort Tables.

(** The body of the loop of [_parse_key]: a segment [int] rejects
    counts as 0. *)
Definition parse_segment (seg : string) : Z :=
  match int seg with Some z => z | None => 0%Z end.

(** [_parse_key]. *)
Definition _parse_key (code : string) : list Z :=
  map parse_segment (split dot code).

(** The body of the loop of [_collect_parents]: only the top-level
    segment is a parent. *)
Definition add_item (d : dict (list string)) (it : string) : dict (list string) :=
  let segs := split dot it in
  if (2 <=? length segs)%nat
  then setdefault_append d (hd "" segs) it
  else d.

(** [_collect_parents]. *)
Definition _collect_parents (items : list string) : list string :=
  let children_by_parent := fold_left add_item items [] in
  let parents :=
    map fst (filter (fun pc => (0 <? length (snd pc))%nat) children_by_parent) in
  sorted tuple_lt _parse_key (dedup parents).

(** [_children_of_parent]: every code under the prefix. *)
Definition _children_of_parent (items : list string) (parent : string)
  : list string :=
  let pref := (parent ++ ".")%string in
  sorted tuple_lt _parse_key (filter (fun it => startswith it pref) items).

(** The price shown for a child: converted when the factor is positive. *)
Definition punit_of (precios_item : dict Q) (factor_conversion : Q)
  (child : string) : Q :=
  let punit_clp := dict_get precios_item child 0%Q in
  if negb (Qle_bool factor_conversion 0) then (punit_clp / factor_conversion)%Q
  else punit_clp.

(** [moneda_proyecto]: the currency of item 1.01, else of the first row,
    else CLP. *)
Definition moneda_proyecto (df_datos : list datos_row) : string :=
  match df_datos with
  | [] => "CLP"
  | first :: _ =>
      match filter (fun r => String.eqb (Item r) "1.01") df_datos with
      | r :: _ => or_str (moneda r) "CLP"
      | [] => or_str (moneda first) "CLP"
      end
  end.

(** [factor_conversion = get_moneda_value(moneda_proyecto)]. *)
Definition factor_conversion (monedas_csv : option (list Monedas.moneda_csv_row))
  (df_datos : list datos_row) : Q :=
  Monedas.get_moneda_value monedas_csv (moneda_proyecto df_datos).

(** [total_child] of a row of [datos.csv]. *)
Definition total_child (precios_item : dict Q) (factor_conversion : Q)
  (item_row : datos_row) : pyfloat :=
  let cant := or_float (cantidad_numero item_row) 0 in
  fmul (Some (punit_of precios_item factor_conversion (Item item_row))) cant.

(** The loop over the children of one parent.  The accumulator is
    [total_presupuesto]; [None] means that the loop raised, which is what
    happens when [df_datos_idx.loc[child]] selects several rows. *)
Definition loop_childs (df_datos : list datos_row) (precios_item : dict Q)
  (factor_conversion : Q) (childs : list string) (total : option pyfloat)
  : option pyfloat :=
  fold_left (fun acc child =>
    match acc with
    | None => None
    | Some t =>
        match loc df_datos child with
        | [] => Some t
        | [item_row] =>
            Some (fadd t (total_child precios_item factor_conversion item_row))
        | _ => None
        end
    end) childs total.

(** [total_presupuesto] as [generar_excel_detallado] accumulates it.
    [df_datos] was read with [dtype={"Item": str}]. *)
Definition total_presupuesto (df_datos : list datos_row)
  (precios_item : dict Q) (factor_conversion : Q) : option pyfloat :=
  let items := sorted tuple_lt _parse_key (map Item df_datos) in
  let parents := _collect_parents items in
  fold_left (fun acc parent =>
    let childs := _children_of_parent items parent in
    match childs with
    | [] => acc
    | _ => loop_childs df_datos precios_item factor_conversion childs acc
    end) parents (Some (Some 0%Q)).

End CrearDetallado.

(** ** [funciones/crear_pdf.py] *)

Module CrearPdf.
Import PyStr PySort Tables.

(** The body of the loop of [_parse_key]: a rejected segment is retried
    without its leading zeros before it counts as 0. *)
Definition parse_segment (seg : string) : Z :=
  match int seg with
  | Some z => z
  | None =>
      match int (or_str (lstrip "0"%char seg) "0") with
      | Some z => z
      | None => 0%Z
      end
  end.

(** [_parse_key]. *)
Definition _parse_key (code : string) : list Z :=
  map parse_segment (split dot code).

(** The body of the loop of [_collect_parents]: the code is filed under
    the code without its last segment and under its top-level segment. *)
Definition add_item (d : dict (list string)) (it : string) : dict (list string) :=
  let segs := split dot it in
  let d1 :=
    if (2 <=? length segs)%nat
    then setdefault_append d (join "." (removelast segs)) it
    else d in
  let top := hd "" segs in
  if negb (String.eqb top it) && startswith it (top ++ ".")%string
  then setdefault_append d1 top it
  else d1.

(** [_collect_parents]. *)
Definition _collect_parents (items : list string) : list string :=
  let children_by_parent := fold_left add_item items [] in
  let parents :=
    map fst (filter (fun pc => (0 <? length (snd pc))%nat) children_by_parent) in
  sorted tuple_lt _parse_key (dedup parents).

(** [_children_of_parent]: the codes under the prefix with exactly one
    more dot than the parent. *)
Definition _children_of_parent (items : list string) (parent : string)
  : list string :=
  let pref := (parent ++ ".")%string in
  sorted tuple_lt _parse_key
    (filter (fun it => startswith it pref
                       && (count dot it =? count dot parent + 1)%nat) items).

(** [label in df_datos_idx.index]: a string is never found in a numeric
    index. *)
Definition in_index (item_dtype : dtype) (df_datos : list datos_row)
  (label : string) : bool :=
  is_object item_dtype && existsb (fun r => String.eqb (Item r) label) df_datos.

Definition total_child (precios_item : dict Q) (row : datos_row) : pyfloat :=
  let cant_child := or_float (cantidad_numero row) 0 in
  let punit := dict_get precios_item (Item row) 0%Q in
  fmul (Some punit) cant_child.

(** The lookup of the first child for the parent's title row; it only
    matters here because it raises when the label is not unique. *)
Definition first_child_ok (item_dtype : dtype) (df_datos : list datos_row)
  (childs : list string) : bool :=
  match childs with
  | [] => true
  | c :: _ =>
      if in_index item_dtype df_datos c
      then (length (loc df_datos c) =? 1)%nat
      else true
  end.

(** [total_parent]: the inner loop, [None] when it raises. *)
Definition total_parent (item_dtype : dtype) (df_datos : list datos_row)
  (precios_item : dict Q) (childs : list string) : option pyfloat :=
  fold_left (fun acc child =>
    match acc with
    | None => None
    | Some t =>
        if negb (in_index item_dtype df_datos child) then Some t
        else match loc df_datos child with
             | [row] => Some (fadd t (total_child precios_item row))
             | _ => None
             end
    end) childs (Some (Some 0%Q)).

(** [total_presupuesto] as [generar_pdf_presupuesto] accumulates it.
    [df_datos] was read without a [dtype], so [item_dtype] is whatever
    pandas inferred for the column. *)
Definition total_presupuesto (item_dtype : dtype) (df_datos : list datos_row)
  (precios_item : dict Q) : option pyfloat :=
  let items := sorted tuple_lt _parse_key (map Item df_datos) in
  let parents := _collect_parents items in
  fold_left (fun acc parent =>
    match acc with
    | None => None
    | Some total =>
        let childs := _children_of_parent items parent in
        match childs with
        | [] => Some total
        | _ =>
            if negb (first_child_ok item_dtype df_datos childs) then None
            else match total_parent item_dtype df_datos precios_item childs with
                 | None => None
                 | Some tp => Some (fadd total tp)
                 end
        end
    end) parents (Some (Some 0%Q)).

End CrearPdf.

(** ** [funciones/modificar_presupuesto.py]: writes of [detalle.csv] *)

Module ModificarPresupuesto.
Import PyStr PySort Tables.

(** [re.findall(r"\d+", s)]: the maximal runs of digits. *)
Fixpoint findall_digits (s : string) : list string :=
  match s with
  | EmptyString => []
  | String c s' =>
      if is_digit c then
        match s' with
        | EmptyString => [String c EmptyString]
        | String c' _ =>
            if is_digit c' then
              match findall_digits s' with
              | r :: rs => String c r :: rs
              | [] => [String c EmptyString]
              end
            else String c EmptyString :: findall_digits s'
        end
      else findall_digits s'
  end.

Fixpoint zeros (n : nat) : string :=
  match n with
  | O => EmptyString
  | S n' => String "0"%char (zeros n')
  end.

(** [p.zfill(width)] for a run of digits. *)
Definition zfill (width : nat) (p : string) : string :=
  (zeros (width - String.length p) ++ p)%string.

(** [_norm_item_code] with its default [width]. *)
Definition _norm_item_code (code : string) : string :=
  match findall_digits code with
  | [] => code
  | parts => join "." (map (zfill 6) parts)
  end.

(** [<] on the cells of the [Codigo] column: [sort_values] and
    [groupby] put the codes in the order of their text, and
    [sort_values] puts the missing ones last. *)
Definition codigo_lt (a b : option string) : bool :=
  match a, b with
  | Some x, Some y => String.ltb x y
  | Some _, None => true
  | None, _ => false
  end.

Definition codigo_eqb (a b : option string) : bool :=
  match a, b with
  | Some x, Some y => String.eqb x y
  | None, None => true
  | _, _ => false
  end.

(** [<] on the pairs [sort_values(["__sort", "Codigo"])] orders the rows
    by. *)
Definition pair_lt (a b : string * option string) : bool :=
  String.ltb (fst a) (fst b)
  || (String.eqb (fst a) (fst b) && codigo_lt (snd a) (snd b)).

(** [_sort_detalle_by_item]. *)
Definition _sort_detalle_by_item (detalle_df : list detalle_row)
  : list detalle_row :=
  match detalle_df with
  | [] => []
  | _ => sorted pair_lt (fun r => (_norm_item_code (item_str r), Codigo r)) detalle_df
  end.

(** The pair a detail row is about, as [groupby(["item","Codigo"])]
    sees it: the cells themselves, not their text. *)
Definition key_of (r : detalle_row) : cell * option string := (item r, Codigo r).

Definition key_eqb (a b : cell * option string) : bool :=
  cell_eqb (fst a) (fst b) && codigo_eqb (snd a) (snd b).

(** [<] on two numbers given by what [str()] prints for them, positional
    notation without sign: first the integer parts, the shorter being
    the smaller, then the fraction digits. *)
Definition num_lt (a b : string) : bool :=
  let '(ia, fa) := PresupuestoUtils.cut_dot a in
  let '(ib, fb) := PresupuestoUtils.cut_dot b in
  (String.length ia <? String.length ib)%nat
  || ((String.length ia =? String.length ib)%nat
      && (String.ltb ia ib || (String.eqb ia ib && String.ltb fa fb))).

(** The order [groupby] puts the values of the [item] column in:
    numbers by value, strings by text, and in a column that holds both
    the numbers first. *)
Definition cell_lt (a b : cell) : bool :=
  match a, b with
  | Num x, Num y => num_lt x y
  | Num _, _ => true
  | Str x, Str y => String.ltb x y
  | Str _, NaN => true
  | _, _ => false
  end.

Definition key_lt (a b : cell * option string) : bool :=
  cell_lt (fst a) (fst b)
  || (cell_eqb (fst a) (fst b) && codigo_lt (snd a) (snd b)).

(** [pd.to_numeric(df["cantidad"], errors="coerce").fillna(0)]. *)
Definition fill_cantidad (df : list detalle_row) : list detalle_row :=
  map (fun r => mk_detalle (item r) (Codigo r) (Some (fillna 0 (cantidad r)))) df.

(** The quantities a table holds for one pair, added up. *)
Definition cantidad_of (df : list detalle_row) (k : cell * option string) : Q :=
  Qsum (map (fun r => fillna 0 (cantidad r))
            (filter (fun r => key_eqb (key_of r) k) df)).

(** The rows [groupby] keeps: with its default [dropna=True] a row whose
    [item] or [Codigo] is missing belongs to no group. *)
Definition dropna (df : list detalle_row) : list detalle_row :=
  filter (fun r => negb (isna (item r))
                   && match Codigo r with Some _ => true | None => false end) df.

(** [df.groupby(["item","Codigo"], as_index=False)["cantidad"].sum()
    .reset_index(drop=True)]: one row per pair, in the order of the
    pairs. *)
Definition groupby_sum (df : list detalle_row) : list detalle_row :=
  map (fun k => mk_detalle (fst k) (snd k) (Some (cantidad_of (dropna df) k)))
      (sorted key_lt (fun k => k) (dedup_by key_eqb (map key_of (dropna df)))).

Definition is_empty {A : Type} (l : list A) : bool :=
  match l with [] => true | _ => false end.

(** [df.loc[df["item"].astype(str) == old_item, "item"] = new_item].
    A column of strings takes the new code.  A column of numbers cannot
    hold a [str]: pandas 3 raises [TypeError], which is [None]; pandas 2
    changes the column to [object], where the renamed cells hold the
    string and the other cells keep their numbers. *)
Definition renamed (pd : pandas) (item_dtype : dtype) (df : list detalle_row)
  (old_item new_item : string) : option (list detalle_row) :=
  match pd, is_object item_dtype with
  | Pandas3, false => None
  | _, _ =>
      Some (map (fun r => if String.eqb (item_str r) old_item
                          then mk_detalle (Str new_item) (Codigo r) (cantidad r)
                          else r) df)
  end.

(** The [detalle.csv] half of [_rename_item_and_consolidate];
    [item_dtype] is the dtype of the [item] column of [detalle_df], and
    [None] is a raised [TypeError]. *)
Definition _rename_item_and_consolidate (pd : pandas) (item_dtype : dtype)
  (detalle_df : list detalle_row) (old_item new_item : string)
  : option (list detalle_row) :=
  let det_updated := detalle_df in
  if negb (String.eqb new_item old_item) && negb (is_empty det_updated) then
    match renamed pd item_dtype det_updated old_item new_item with
    | None => None
    | Some det_updated =>
        Some (_sort_detalle_by_item (groupby_sum (fill_cantidad det_updated)))
    end
  else Some (_sort_detalle_by_item det_updated).

(** The [detalle.csv] half of [_delete_item]. *)
Definition _delete_item (detalle_df : list detalle_row) (item_code : string)
  : list detalle_row :=
  let detalle_updated :=
    filter (fun r => negb (String.eqb (item_str r) item_code)) detalle_df in
  let detalle_updated :=
    if negb (is_empty detalle_updated)
    then groupby_sum (fill_cantidad detalle_updated)
    else detalle_updated in
  _sort_detalle_by_item detalle_updated.

(** The table the "Guardar cambios" button of
    [render_modificar_presupuesto] hands to [save_presupuesto];
    [qty_map] is the session's [{Codigo: cantidad}] in [items()] order. *)
Definition guardar_cambios (detalle_df : list detalle_row)
  (active_item : string) (qty_map : dict Q) : list detalle_row :=
  let positive :=
    filter (fun cq => negb (Qeq_bool (snd cq) 0) && negb (Qle_bool (snd cq) 0))
           qty_map in
  let new_det :=
    map (fun cq => mk_detalle (Str active_item) (Some (fst cq)) (Some (snd cq)))
        positive in
  let others :=
    if negb (is_empty detalle_df)
    then filter (fun r => negb (String.eqb (item_str r) active_item)) detalle_df
    else [] in
  let detalle_updated := others ++ new_det in
  if negb (is_empty detalle_updated)
  then _sort_detalle_by_item (groupby_sum (fill_cantidad detalle_updated))
  else detalle_updated.

(** A pair without a missing part, the pairs [groupby] makes groups
    of. *)
Definition present (k : cell * option string) : Prop :=
  isna (fst k) = false /\ snd k <> None.

(** What [to_csv] writes for the pair of a row. *)
Definition text_of_key (k : cell * option string) : string * string :=
  (PresupuestoUtils.to_csv_cell (fst k),
   match snd k with Some c => c | None => EmptyString end).

(** The invariant of the detail table, on the file: a pair of an item
    code and a catalog code is written in one row at most. *)
Definition detalle_invariant (file : list detalle_csv_row) : Prop :=
  NoDup (map (fun r => (file_item r, file_Codigo r)) file).

End ModificarPresupuesto.

(** ** The specification's reading of the hierarchy

    These definitions follow the words of the specification, to be
    compared with the code above. *)

Module Spec.
Import PyStr Tables.

(** Depth of a code: the number of its dot-separated segments. *)
Definition depth (code : string) : nat := length (split dot code).

(** [P] is a parent of [C]: [C] starts with [P + "."] and is exactly one
    level deeper. *)
Definition is_parent_of (P C : string) : bool :=
  startswith C (P ++ ".")%string && (depth C =? depth P + 1)%nat.

(** A leaf is an item with no children among the items. *)
Definition is_leaf (df_datos : list datos_row) (r : datos_row) : bool :=
  negb (existsb (fun c => is_parent_of (Item r) (Item c)) df_datos).

(** Line total of an item: unit price times item quantity. *)
Definition line_total (precios_item : dict Q) (r : datos_row) : pyfloat :=
  fmul (Some (dict_get precios_item (Item r) 0%Q)) (cantidad_numero r).

(** The sum of the line totals of all leaf items. *)
Definition leaf_total (df_datos : list datos_row) (precios_item : dict Q)
  : pyfloat :=
  fsum (map (line_total precios_item) (filter (is_leaf df_datos) df_datos)).

(** The catalog unit price of a code: 0 when the code is not in the
    catalog or its price is not a number. *)
Definition catalog_price (catalog : list maestro_row) (code : string) : Q :=
  match find (fun m => String.eqb (m_Codigo m) code) catalog with
  | Some m => fillna 0 (m_Pres m)
  | None => 0%Q
  end.

(** [unit_price]: the sum over the item's detail rows of quantity times
    catalog unit price. *)
Definition unit_price (item_code : string) (detail_rows : list detalle_csv_row)
  (catalog : list maestro_row) : Q :=
  Qsum (map (fun d => (fillna 0 (file_cantidad d)
                       * catalog_price catalog (file_Codigo d))%Q)
            (filter (fun d => String.eqb (file_item d) item_code) detail_rows)).

End Spec.
(** ** What a detail row is worth *)

Module Lineas.
Import Tables Precios.

(** [subtotal_linea] summed over the rows the join gives for one detail
    row: its quantity times the prices of the catalog rows it matches. *)
Definition line_value (df_maestro : list maestro_row) (d : detalle_row) : Q :=
  (fillna 0 (cantidad d) * joined_price df_maestro (codigo_str d))%Q.

(** The part of [line_value] that falls on item [k]. *)
Definition line_value_of (df_maestro : list maestro_row) (k : string)
  (d : detalle_row) : Q :=
  if String.eqb (item_str d) k then line_value df_maestro d else 0%Q.

End Lineas.

(** ** [str.strip()] *)

Module PyStrip.

(** The ASCII characters [str.isspace()] accepts, which are the ones
    [str.strip()] removes: tab to carriage return, the four separators
    [\x1c] to [\x1f], and the space. *)
Definition is_str_space (c : ascii) : bool :=
  let n := nat_of_ascii c in
  ((9 <=? n)%nat && (n <=? 13)%nat)
  || ((28 <=? n)%nat && (n <=? 31)%nat)
  || (n =? 32)%nat.

(** [s.lstrip()]. *)
Fixpoint lstrip (s : string) : string :=
  match s with
  | EmptyString => EmptyString
  | String c s' => if is_str_space c then lstrip s' else s
  end.

(** [s.rstrip()]. *)
Fixpoint rstrip (s : string) : string :=
  match s with
  | EmptyString => EmptyString
  | String c s' =>
      match rstrip s' with
      | EmptyString => if is_str_space c then EmptyString else String c EmptyString
      | r => String c r
      end
  end.

(** [s.strip()]. *)
Definition strip (s : string) : string := rstrip (lstrip s).

End PyStrip.

(** ** [funciones/modificar_presupuesto.py]: writes of [datos.csv] *)

Module ModificarDatos.
Import PyStr PySort Tables.

(** A row of the item table in memory with all its columns.  [f_Item]
    is a cell of whatever type the column has; the other text columns
    are given by their text; [load_presupuesto] passes [cantidad numero]
    and [moneda] through [pd.to_numeric]. *)
Record datos_fila : Type := mk_fila {
  f_Item : cell;
  f_Partida : string;
  f_Fecha : string;
  f_cantidad_tipo : string;
  f_cantidad_numero : pyfloat;
  f_moneda : pyfloat
}.

(** The dtypes of the columns [_upsert_item] assigns to; [Fecha] is left
    out, [load_presupuesto] has made it a column of strings. *)
Record datos_dtypes : Type := mk_dtypes {
  dt_Item : dtype;
  dt_Partida : dtype;
  dt_cantidad_tipo : dtype;
  dt_cantidad_numero : dtype;
  dt_moneda : dtype
}.

(** [str(r["Item"])]. *)
Definition f_Item_str (r : datos_fila) : string := astype_str (f_Item r).

(** Replaces the first element that satisfies [p], as
    [idx = datos.index[mask][0]] followed by [datos.at[idx, k] = v] for
    every column does. *)
Fixpoint replace_first {A : Type} (p : A -> bool) (new : A) (l : list A) : list A :=
  match l with
  | [] => []
  | x :: l' => if p x then new :: l' else x :: replace_first p new l'
  end.

(** Whether every column can hold the value [datos.at[idx, k] = v]
    assigns to it: the three columns of text must be columns of
    strings, and the two columns of numbers must take the float as it
    is. *)
Definition at_compatible (dtypes : datos_dtypes) (cant_num moneda : Q) : bool :=
  is_object (dt_Item dtypes)
  && is_object (dt_Partida dtypes)
  && is_object (dt_cantidad_tipo dtypes)
  && holds_number (dt_cantidad_numero dtypes) cant_num
  && holds_number (dt_moneda dtypes) moneda.

(** [_upsert_item].  When a row carries the code its cells are
    assigned one by one, which pandas 3 refuses with a [TypeError]
    ([None]) as soon as a column cannot hold its value; pandas 2 changes
    the type of the column.  When no row carries the code the row is
    appended by [pd.concat], which never raises. *)
Definition _upsert_item (pd : pandas) (dtypes : datos_dtypes)
  (datos_df : list datos_fila) (item_code partida fecha : string)
  (cant_tipo : string) (cant_num moneda : Q) : option (list datos_fila) :=
  let mask := fun r => String.eqb (f_Item_str r) item_code in
  let row := mk_fila (Str (PyStrip.strip item_code)) (PyStrip.strip partida)
                     (PyStrip.strip fecha) cant_tipo (Some cant_num) (Some moneda) in
  if existsb mask datos_df
  then match pd with
       | Pandas2 => Some (replace_first mask row datos_df)
       | Pandas3 =>
           if at_compatible dtypes cant_num moneda
           then Some (replace_first mask row datos_df)
           else None
       end
  else Some (datos_df ++ [row]).

(** [_sort_datos_by_item]: a stable sort on the normalised code. *)
Definition _sort_datos_by_item (datos_df : list datos_fila) : list datos_fila :=
  match datos_df with
  | [] => []
  | _ => sorted String.ltb
                (fun r => ModificarPresupuesto._norm_item_code (f_Item_str r)) datos_df
  end.

(** [_rename_item_and_consolidate]: both tables.  [dtypes] are the
    dtypes of the columns of [datos_df] and [item_dtype] is the dtype of
    the [item] column of [detalle_df]; [None] is a raised [TypeError]. *)
Definition _rename_item_and_consolidate (pd : pandas) (dtypes : datos_dtypes)
  (item_dtype : dtype) (datos_df : list datos_fila)
  (detalle_df : list detalle_row) (old_item new_item partida fecha_str : string)
  (cant_tipo : string) (cant_num moneda : Q)
  : option (list datos_fila * list detalle_row) :=
  match _upsert_item pd dtypes datos_df new_item partida fecha_str cant_tipo
                     cant_num moneda with
  | None => None
  | Some datos_updated =>
      let datos_updated :=
        if negb (String.eqb new_item old_item)
        then filter (fun r => negb (String.eqb (f_Item_str r) old_item)) datos_updated
        else datos_updated in
      match ModificarPresupuesto._rename_item_and_consolidate
              pd item_dtype detalle_df old_item new_item with
      | None => None
      | Some det_updated => Some (_sort_datos_by_item datos_updated, det_updated)
      end
  end.

(** [_delete_item]: both tables. *)
Definition _delete_item (datos_df : list datos_fila) (detalle_df : list detalle_row)
  (item_code : string) : list datos_fila * list detalle_row :=
  let datos_updated :=
    filter (fun r => negb (String.eqb (f_Item_str r) item_code)) datos_df in
  (_sort_datos_by_item datos_updated,
   ModificarPresupuesto._delete_item detalle_df item_code).

(** Every detail row belongs to an item of the item table: its item
    code is the code of a row of [datos_df]. *)
Definition detalle_referenced (datos_df : list datos_fila)
  (detalle_df : list detalle_row) : Prop :=
  forall d, In d detalle_df -> In (item_str d) (map f_Item_str datos_df).

End ModificarDatos.

(** ** [funciones/actualizar_monedas.py] and [funciones/gestionar_monedas.py] *)

Module ActualizarMonedas.
Import PyStr Tables Monedas.

(** [save_monedas] followed by the [pd.read_csv] of the next
    [load_monedas]: the file holds the three columns as they are. *)
Definition save_monedas (df : list moneda_row) : list moneda_csv_row :=
  map (fun r => mk_moneda_csv (mo_Codigo r) (mo_Nombre r) (Some (ValorCLP r))) df.

(** The rows after [df.loc[df["Codigo"] == code, "ValorCLP"] = valor]. *)
Definition set_valor (code : string) (valor : Q) (df : list moneda_row)
  : list moneda_row :=
  map (fun r => if String.eqb (mo_Codigo r) code
                then mk_moneda (mo_Codigo r) (mo_Nombre r) valor
                else r) df.

(** One of the two updates of [actualizar_indicadores]:
    [if mask.any(): df.loc[mask, "ValorCLP"] = valor] on a table whose
    [ValorCLP] column has dtype [valor_dtype].  The result is the dtype
    of the column afterwards and the rows; [None] is the [TypeError]
    pandas 3 raises when the column is [int64] and the value has a
    fractional part, where pandas 2 changes the column to [float64]. *)
Definition update_valor (pd : pandas) (code : string) (valor : Q)
  (df : dtype * list moneda_row) : option (dtype * list moneda_row) :=
  let '(valor_dtype, rows) := df in
  if existsb (fun r => String.eqb (mo_Codigo r) code) rows then
    if holds_number valor_dtype valor
    then Some (valor_dtype, set_valor code valor rows)
    else match pd with
         | Pandas2 => Some (Float64Dtype, set_valor code valor rows)
         | Pandas3 => None
         end
  else Some df.

(** [actualizar_indicadores] once both requests have answered with the
    values [valor_uf] and [valor_dolar]: the content it saves to
    [monedas.csv], or [None] when an update raised, in which case the
    [except] clause makes the function return [False] and nothing is
    saved.  [valor_dtype] is the dtype [load_monedas] leaves the
    [ValorCLP] column of the file with: [int64] when every value of the
    file is written as an integer, [float64] otherwise; the table built
    for a missing file is [float64]. *)
Definition actualizar_indicadores (pd : pandas) (valor_dtype : dtype)
  (file : option (list moneda_csv_row)) (valor_uf valor_dolar : Q)
  : option (list moneda_csv_row) :=
  let df := (match file with Some _ => valor_dtype | None => Float64Dtype end,
             load_monedas file) in
  match update_valor pd "UF" valor_uf df with
  | None => None
  | Some df =>
      match update_valor pd "USD" valor_dolar df with
      | None => None
      | Some df => Some (save_monedas (snd df))
      end
  end.

(** What [render_gestionar_monedas] saves for the table the editor
    returns: the value of every row whose code is CLP, whatever its
    case, is set to 1.0 first. *)
Definition guardar_monedas (edited_df : list moneda_csv_row) : list moneda_csv_row :=
  map (fun r => if String.eqb (upper (csv_Codigo r)) "CLP"
                then mk_moneda_csv (csv_Codigo r) (csv_Nombre r) (Some 1%Q)
                else r) edited_df.

End ActualizarMonedas.

(** * Properties *)

(** ** Sorting *)

Section SortFacts.
Context {A K : Type}.
Variable lt : K -> K -> bool.
Variable key : A -> K.

Lemma insert_perm (x : A) (l : list A) :
  Permutation (PySort.insert lt key x l) (x :: l).
Proof.
  induction l as [|y l IH]; simpl.
  - apply Permutation_refl.
  - destruct (lt (key y) (key x)).
    + rewrite IH. apply perm_swap.
    + apply Permutation_refl.
Qed.

Lemma sorted_perm (l : list A) : Permutation (PySort.sorted lt key l) l.
Proof.
  induction l as [|x l IH]; simpl.
  - constructor.
  - rewrite insert_perm. now constructor.
Qed.

Lemma sorted_In (l : list A) (x : A) :
  In x (PySort.sorted lt key l) <-> In x l.
Proof.
  split; apply Permutation_in; [|symmetry]; apply sorted_perm.
Qed.

Lemma sorted_NoDup (l : list A) : NoDup l -> NoDup (PySort.sorted lt key l).
Proof.
  intro H. eapply Permutation_NoDup; [symmetry; apply sorted_perm|exact H].
Qed.


Hypothesis lt_asym : forall a b, lt a b = true -> lt b a = false.
Hypothesis le_trans :
  forall a b c, lt b a = false -> lt c b = false -> lt c a = false.

Lemma insert_sorted (x : A) (l : list A) :
  StronglySorted (PySort.key_le lt key) l -> StronglySorted (PySort.key_le lt key) (PySort.insert lt key x l).
Proof.
  induction 1 as [|y l Hs IH Hall]; simpl.
  - constructor; [constructor|constructor].
  - destruct (lt (key y) (key x)) eqn:E.
    + constructor; [exact IH|].
      rewrite Forall_forall in *. intros z Hz.
      apply (Permutation_in _ (insert_perm x l)) in Hz.
      destruct Hz as [<-|Hz]; [|now apply Hall].
      unfold PySort.key_le. now apply lt_asym.
    + constructor; [now constructor|].
      constructor; [exact E|].
      rewrite Forall_forall in *. intros z Hz.
      unfold PySort.key_le. eapply le_trans; [exact E|]. now apply Hall.
Qed.

Lemma sorted_sorted (l : list A) : StronglySorted (PySort.key_le lt key) (PySort.sorted lt key l).
Proof.
  induction l as [|x l IH]; simpl; [constructor|now apply insert_sorted].
Qed.

(** Selecting from a sorted list and inserting commute. *)
Lemma filter_insert (p : A -> bool) (x : A) (l : list A) :
  StronglySorted (PySort.key_le lt key) l ->
  filter p (PySort.insert lt key x l)
  = if p x then PySort.insert lt key x (filter p l) else filter p l.
Proof.
  induction 1 as [|y l Hs IH Hall]; cbn [PySort.insert].
  - cbn [filter]. now destruct (p x).
  - destruct (lt (key y) (key x)) eqn:E.
    + cbn [filter]. rewrite IH.
      destruct (p x), (p y); cbn [PySort.insert]; rewrite ?E; reflexivity.
    + change (filter p (x :: y :: l))
        with (if p x then x :: filter p (y :: l) else filter p (y :: l)).
      destruct (p x); [|reflexivity].
      assert (forall z, In z (y :: l) -> lt (key z) (key x) = false) as Hge.
      { intros z [<-|Hz]; [exact E|].
        rewrite Forall_forall in Hall. eapply le_trans; [exact E|].
        now apply Hall. }
      assert (forall l', (forall z, In z l' -> lt (key z) (key x) = false) ->
                         PySort.insert lt key x l' = x :: l') as Hins.
      { intros [|z l'] H; [reflexivity|]. cbn [PySort.insert].
        now rewrite (H z (or_introl eq_refl)). }
      rewrite Hins; [reflexivity|].
      intros z Hz. apply filter_In in Hz. apply Hge. tauto.
Qed.

Lemma filter_sorted (p : A -> bool) (l : list A) :
  filter p (PySort.sorted lt key l) = PySort.sorted lt key (filter p l).
Proof.
  induction l as [|x l IH]; [reflexivity|].
  cbn [PySort.sorted fold_right filter].
  fold (PySort.sorted lt key l).
  rewrite filter_insert by apply sorted_sorted.
  rewrite IH. now destruct (p x).
Qed.
End SortFacts.

(** The sort is stable: the elements that share a key keep the order
    they have in the input. *)
Section StableFacts.
Context {A K : Type}.
Variable lt : K -> K -> bool.
Variable key : A -> K.
Variable keq : K -> K -> bool.
Hypothesis keq_spec : forall a b, keq a b = true <-> a = b.
Hypothesis lt_irrefl : forall a, lt a a = false.

Lemma insert_same_key (x : A) (l : list A) (k : K) :
  filter (fun y => keq (key y) k) (PySort.insert lt key x l)
  = if keq (key x) k then x :: filter (fun y => keq (key y) k) l
    else filter (fun y => keq (key y) k) l.
Proof.
  induction l as [|y l IH]; cbn [PySort.insert filter]; [reflexivity|].
  destruct (lt (key y) (key x)) eqn:E; cbn [filter]; [|reflexivity].
  rewrite IH.
  destruct (keq (key x) k) eqn:Ex, (keq (key y) k) eqn:Ey; try reflexivity.
  apply keq_spec in Ex, Ey. rewrite Ex, Ey, lt_irrefl in E. discriminate.
Qed.

Lemma sorted_same_key (l : list A) (k : K) :
  filter (fun y => keq (key y) k) (PySort.sorted lt key l)
  = filter (fun y => keq (key y) k) l.
Proof.
  induction l as [|x l IH]; [reflexivity|].
  cbn [PySort.sorted fold_right]. fold (PySort.sorted lt key l).
  rewrite insert_same_key, IH. reflexivity.
Qed.
End StableFacts.

Lemma tuple_lt_asym (a b : list Z) :
  PySort.tuple_lt a b = true -> PySort.tuple_lt b a = false.
Proof.
  revert b; induction a as [|x a IH]; intros [|y b]; simpl; try easy.
  destruct (x <? y)%Z eqn:E1, (y <? x)%Z eqn:E2; try easy.
  - apply Z.ltb_lt in E1, E2. lia.
  - apply IH.
Qed.

Lemma tuple_le_trans (a b c : list Z) :
  PySort.tuple_lt b a = false -> PySort.tuple_lt c b = false ->
  PySort.tuple_lt c a = false.
Proof.
  revert b c; induction a as [|x a IH]; intros [|y b] [|z c]; simpl; try easy.
  destruct (y <? x)%Z eqn:E1; [easy|].
  destruct (x <? y)%Z eqn:E2.
  - intros _. destruct (z <? y)%Z eqn:E3; [easy|].
    destruct (y <? z)%Z eqn:E4.
    + intros _. apply Z.ltb_lt in E2, E4.
      destruct (z <? x)%Z eqn:E5; [apply Z.ltb_lt in E5; lia|].
      destruct (x <? z)%Z eqn:E6; [easy|]. apply Z.ltb_ge in E6. lia.
    + apply Z.ltb_ge in E3, E4. assert (z = y) by lia. subst z.
      intros _. rewrite E1, E2. reflexivity.
  - apply Z.ltb_ge in E1, E2. assert (x = y) by lia. subst y.
    intros H1. destruct (z <? x)%Z eqn:E3; [easy|].
    destruct (x <? z)%Z eqn:E4; [easy|].
    intros H2. eapply IH; eassumption.
Qed.

Lemma tuple_lt_irrefl (a : list Z) : PySort.tuple_lt a a = false.
Proof.
  destruct (PySort.tuple_lt a a) eqn:E; [|reflexivity].
  now rewrite (tuple_lt_asym a a E) in E.
Qed.

Lemma tuple_eqb_eq (a b : list Z) : PySort.tuple_eqb a b = true <-> a = b.
Proof.
  revert b; induction a as [|x a IH]; intros [|y b]; simpl; try easy.
  rewrite andb_true_iff, Z.eqb_eq, IH. split.
  - now intros [-> ->].
  - now intros [= -> ->].
Qed.

(** ** Removing duplicates *)

Section DedupFacts.
Context {A : Type}.
Variable eqb : A -> A -> bool.
Hypothesis eqb_spec : forall x y, eqb x y = true <-> x = y.

Lemma dedup_by_In (l : list A) (x : A) :
  In x (PySort.dedup_by eqb l) <-> In x l.
Proof.
  induction l as [|y l IH]; simpl; [tauto|].
  rewrite filter_In, IH. split.
  - intros [H|[H _]]; auto.
  - intros [H|H]; auto.
    destruct (eqb y x) eqn:E.
    + left. now apply eqb_spec.
    + right. now split.
Qed.

Lemma dedup_by_NoDup (l : list A) : NoDup (PySort.dedup_by eqb l).
Proof.
  induction l as [|y l IH]; simpl; constructor.
  - rewrite filter_In. intros [_ H].
    assert (eqb y y = true) as E by now apply eqb_spec.
    now rewrite E in H.
  - now apply NoDup_filter.
Qed.
End DedupFacts.

Lemma dedup_In (l : list string) (x : string) :
  In x (PySort.dedup l) <-> In x l.
Proof. apply dedup_by_In, String.eqb_eq. Qed.

Lemma dedup_NoDup (l : list string) : NoDup (PySort.dedup l).
Proof. apply dedup_by_NoDup, String.eqb_eq. Qed.

(** ** Strings: [split], [startswith], [count] and [join] *)

Section StringFacts.
Import PyStr.
Local Open Scope string_scope.

Lemma startswith_iff (s p : string) :
  startswith s p = true <-> exists r, s = p ++ r.
Proof.
  unfold startswith. revert s; induction p as [|c p IH]; intros s; simpl.
  - split; [intros _; now exists s|intros _; now destruct s].
  - destruct s as [|d s]; simpl.
    + split; [discriminate|intros [r H]; discriminate].
    + destruct (ascii_dec c d) as [->|N].
      * rewrite IH. split; intros [r H]; exists r; congruence.
      * split; [discriminate|]. intros [r H]. congruence.
Qed.

Lemma append_assoc (a b c : string) : (a ++ b) ++ c = a ++ (b ++ c).
Proof. induction a as [|x a IH]; simpl; [reflexivity|now rewrite IH]. Qed.

Lemma count_app (c : ascii) (a b : string) :
  count c (a ++ b) = (count c a + count c b)%nat.
Proof. induction a as [|x a IH]; simpl; [reflexivity|rewrite IH; lia]. Qed.

Lemma split_not_nil (s : string) : split dot s <> [].
Proof.
  induction s as [|c s IH]; simpl; [discriminate|].
  destruct (Ascii.eqb c dot); [discriminate|].
  destruct (split dot s); [contradiction|discriminate].
Qed.

Lemma split_length (s : string) : length (split dot s) = S (count dot s).
Proof.
  induction s as [|c s IH]; simpl; [reflexivity|].
  destruct (Ascii.eqb c dot); simpl; [now rewrite IH|].
  destruct (split dot s) eqn:E; [now apply split_not_nil in E|].
  simpl in *. exact IH.
Qed.

Lemma split_no_dot (s : string) : count dot s = 0%nat -> split dot s = [s].
Proof.
  induction s as [|c s IH]; simpl; [reflexivity|].
  destruct (Ascii.eqb c dot); [discriminate|].
  simpl. intros H. now rewrite IH.
Qed.

Lemma split_segments_no_dot (s : string) :
  Forall (fun seg => count dot seg = 0%nat) (split dot s).
Proof.
  induction s as [|c s IH]; simpl; [repeat constructor|].
  destruct (Ascii.eqb c dot) eqn:E; [now constructor|].
  destruct (split dot s) as [|seg rest]; [repeat constructor; simpl; now rewrite E|].
  inversion IH; subst. constructor; [simpl; now rewrite E|assumption].
Qed.

Lemma split_app_dot (p r : string) :
  split dot (p ++ String dot r) = (split dot p ++ split dot r)%list.
Proof.
  induction p as [|c p IH]; simpl.
  - reflexivity.
  - destruct (Ascii.eqb c dot); [now rewrite IH|].
    rewrite IH. destruct (split dot p) eqn:E; [now apply split_not_nil in E|].
    reflexivity.
Qed.

Lemma join_split (s : string) : join "." (split dot s) = s.
Proof.
  unfold join. induction s as [|c s IH]; simpl; [reflexivity|].
  destruct (Ascii.eqb c dot) eqn:E.
  - apply Ascii.eqb_eq in E. subst c.
    destruct (split dot s) eqn:E2; [now apply split_not_nil in E2|].
    rewrite <- IH. reflexivity.
  - destruct (split dot s) as [|seg rest] eqn:E2; [now apply split_not_nil in E2|].
    rewrite <- IH. destruct rest; reflexivity.
Qed.

Lemma join_app_last (l : list string) (x : string) :
  l <> [] -> join "." (l ++ [x]) = join "." l ++ String dot x.
Proof.
  unfold join. induction l as [|y l IH]; [contradiction|]. intros _.
  destruct l as [|z l].
  - reflexivity.
  - change (String.concat "." ((y :: z :: l) ++ [x]))
      with (y ++ "." ++ String.concat "." ((z :: l) ++ [x])).
    rewrite IH by discriminate.
    change (String.concat "." (y :: z :: l))
      with (y ++ "." ++ String.concat "." (z :: l)).
    rewrite <- !append_assoc. reflexivity.
Qed.

(** A code with a dot is its top-level segment, a dot and a rest. *)
Lemma dotted_hd (x : string) :
  (2 <= length (split dot x))%nat ->
  exists r, x = hd "" (split dot x) ++ String dot r.
Proof.
  induction x as [|c x IH]; simpl; [lia|].
  destruct (Ascii.eqb c dot) eqn:E.
  - apply Ascii.eqb_eq in E. subst c. intros _. now exists x.
  - destruct (split dot x) as [|seg rest] eqn:E2; [simpl; lia|].
    simpl in *. intros H. destruct (IH H) as [r Hr].
    exists r. now rewrite Hr at 1.
Qed.

Lemma hd_split_no_dot (x : string) : count dot (hd "" (split dot x)) = 0%nat.
Proof.
  pose proof (split_segments_no_dot x) as H.
  destruct (split dot x); [reflexivity|]. now inversion H.
Qed.

(** The parent relation of [crear_detallado]: a dot-free prefix
    followed by a dot is the top-level segment. *)
Lemma top_parent_iff (p x : string) :
  count dot p = 0%nat ->
  (startswith x (p ++ ".") = true <->
   (2 <= length (split dot x))%nat /\ p = hd "" (split dot x)).
Proof.
  intros Hp. rewrite startswith_iff. split.
  - intros [r ->]. rewrite append_assoc. simpl.
    rewrite split_app_dot, (split_no_dot p Hp). simpl.
    pose proof (split_length r). split; [lia|reflexivity].
  - intros [H ->]. destruct (dotted_hd x H) as [r Hr].
    exists r. rewrite append_assoc. exact Hr.
Qed.

Lemma removelast_app_one {A : Type} (l : list A) (x : A) :
  removelast (l ++ [x]) = l.
Proof. rewrite removelast_app by discriminate. simpl. apply app_nil_r. Qed.

(** The parent relation of [crear_pdf]: a prefix followed by a dot,
    one dot less than the code, is the code without its last
    segment. *)
Lemma direct_parent_iff (p x : string) :
  (startswith x (p ++ ".") = true /\ count dot x = (count dot p + 1)%nat) <->
  ((2 <= length (split dot x))%nat /\ p = join "." (removelast (split dot x))).
Proof.
  rewrite startswith_iff. split.
  - intros [[r ->] Hc]. rewrite append_assoc in *. simpl in *.
    rewrite count_app in Hc. simpl in Hc.
    assert (count dot r = 0%nat) as Hr by lia.
    rewrite split_app_dot, (split_no_dot r Hr), removelast_app_one, join_split.
    rewrite length_app, split_length. simpl. split; [lia|reflexivity].
  - intros [H ->].
    pose proof (split_segments_no_dot x) as Hseg.
    pose proof (join_split x) as Hj.
    destruct (exists_last (split_not_nil x)) as (l & a & E).
    rewrite E in *. rewrite removelast_app_one.
    assert (l <> []) as Hl.
    { intro; subst l. simpl in H. lia. }
    rewrite join_app_last in Hj by assumption.
    apply Forall_app in Hseg. destruct Hseg as [_ Ha]. apply Forall_inv in Ha.
    split.
    + exists a. rewrite append_assoc. symmetry. exact Hj.
    + rewrite <- Hj at 1. rewrite count_app. simpl. lia.
Qed.
End StringFacts.

(** ** The dictionary of children and the parents it yields *)

Section ParentFacts.
Import PyStr PySort Tables.

Lemma setdefault_append_keys (d : dict (list string)) (k x p : string) :
  In p (map fst (setdefault_append d k x)) <-> p = k \/ In p (map fst d).
Proof.
  induction d as [|[k' v] d IH]; simpl.
  - intuition congruence.
  - destruct (String.eqb_spec k' k) as [->|N]; simpl.
    + intuition congruence.
    + rewrite IH. intuition congruence.
Qed.

Lemma setdefault_append_nonempty (d : dict (list string)) (k x : string) :
  all_nonempty d -> all_nonempty (setdefault_append d k x).
Proof.
  unfold all_nonempty. induction d as [|[k' v] d IH]; simpl; intros H.
  - repeat constructor.
  - inversion H; subst. destruct (String.eqb k' k).
    + constructor; [|assumption]. simpl. rewrite length_app. simpl.
      apply Nat.ltb_lt. lia.
    + constructor; [assumption|now apply IH].
Qed.

Lemma nonempty_parents (d : dict (list string)) :
  all_nonempty d ->
  map fst (filter (fun pc => (0 <? length (snd pc))%nat) d) = map fst d.
Proof.
  induction 1 as [|pc d H _ IH]; simpl; [reflexivity|].
  rewrite H. simpl. now rewrite IH.
Qed.

Lemma dotted_iff (x : string) : dotted x = true <-> (1 <= count dot x)%nat.
Proof. unfold dotted. rewrite Nat.leb_le, split_length. lia. Qed.

Lemma dotted_top_test (x : string) :
  negb (String.eqb (hd "" (split dot x)) x)
  && startswith x (hd "" (split dot x) ++ ".")%string = dotted x.
Proof.
  destruct (dotted x) eqn:D.
  - assert (startswith x (hd "" (split dot x) ++ ".")%string = true) as ->.
    { apply top_parent_iff; [apply hd_split_no_dot|].
      apply Nat.leb_le in D. now split. }
    rewrite andb_true_r. apply negb_true_iff, String.eqb_neq. intros E.
    apply dotted_iff in D. pose proof (hd_split_no_dot x) as H.
    rewrite E in H. lia.
  - apply andb_false_iff. right. apply not_true_is_false. intros H.
    apply top_parent_iff in H; [|apply hd_split_no_dot].
    destruct H as [H _]. apply Nat.leb_le in H. unfold dotted in D. congruence.
Qed.

Lemma detallado_dict_keys (items : list string) (d : dict (list string)) (p : string) :
  In p (map fst (fold_left CrearDetallado.add_item items d)) <->
  In p (map fst d) \/
  exists it, In it items /\ dotted it = true /\ p = hd "" (split dot it).
Proof.
  revert d; induction items as [|x items IH]; intros d; cbn [fold_left In].
  - split; [auto|]. intros [H|(it & [] & _)]. exact H.
  - rewrite IH. unfold CrearDetallado.add_item. cbv zeta.
    change (2 <=? length (split dot x))%nat with (dotted x).
    destruct (dotted x) eqn:D.
    + rewrite setdefault_append_keys. split.
      * intros [[->|H]|(it & Hin & Hd & ->)]; eauto 7.
      * intros [H|(it & [<-|Hin] & Hd & ->)]; eauto 7.
    + split.
      * intros [H|(it & Hin & Hd & ->)]; eauto 7.
      * intros [H|(it & [<-|Hin] & Hd & ->)]; eauto 7. congruence.
Qed.

Lemma detallado_dict_nonempty (items : list string) (d : dict (list string)) :
  all_nonempty d ->
  all_nonempty (fold_left CrearDetallado.add_item items d).
Proof.
  revert d; induction items as [|x items IH]; intros d H; cbn [fold_left]; [exact H|].
  apply IH. unfold CrearDetallado.add_item. cbv zeta.
  destruct (2 <=? length (split dot x))%nat;
    [now apply setdefault_append_nonempty|exact H].
Qed.

Lemma detallado_parents_In (items : list string) (p : string) :
  In p (CrearDetallado._collect_parents items) <->
  exists it, In it items /\ dotted it = true /\ p = hd "" (split dot it).
Proof.
  unfold CrearDetallado._collect_parents.
  rewrite sorted_In, dedup_In, nonempty_parents
    by (apply detallado_dict_nonempty; constructor).
  rewrite detallado_dict_keys. simpl. tauto.
Qed.

Lemma detallado_parents_NoDup (items : list string) :
  NoDup (CrearDetallado._collect_parents items).
Proof. apply sorted_NoDup, dedup_NoDup. Qed.

Lemma pdf_dict_keys (items : list string) (d : dict (list string)) (p : string) :
  In p (map fst (fold_left CrearPdf.add_item items d)) <->
  In p (map fst d) \/
  exists it, In it items /\ dotted it = true /\
             (p = join "." (removelast (split dot it)) \/ p = hd "" (split dot it)).
Proof.
  revert d; induction items as [|x items IH]; intros d; cbn [fold_left In].
  - split; [auto|]. intros [H|(it & [] & _)]. exact H.
  - rewrite IH. unfold CrearPdf.add_item. cbv zeta.
    rewrite dotted_top_test.
    change (2 <=? length (split dot x))%nat with (dotted x).
    destruct (dotted x) eqn:D.
    + rewrite !setdefault_append_keys. split.
      * intros [[->|[->|H]]|(it & Hin & Hd & Hp)]; eauto 8.
      * intros [H|(it & [<-|Hin] & Hd & Hp)]; eauto 8.
        destruct Hp as [->| ->]; auto.
    + split.
      * intros [H|(it & Hin & Hd & Hp)]; eauto 8.
      * intros [H|(it & [<-|Hin] & Hd & Hp)]; eauto 8. congruence.
Qed.

Lemma pdf_dict_nonempty (items : list string) (d : dict (list string)) :
  all_nonempty d -> all_nonempty (fold_left CrearPdf.add_item items d).
Proof.
  revert d; induction items as [|x items IH]; intros d H; cbn [fold_left]; [exact H|].
  apply IH. unfold CrearPdf.add_item. cbv zeta.
  destruct (negb _ && _); destruct (2 <=? length (split dot x))%nat;
    repeat apply setdefault_append_nonempty; exact H.
Qed.

Lemma pdf_parents_In (items : list string) (p : string) :
  In p (CrearPdf._collect_parents items) <->
  exists it, In it items /\ dotted it = true /\
             (p = join "." (removelast (split dot it)) \/ p = hd "" (split dot it)).
Proof.
  unfold CrearPdf._collect_parents.
  rewrite sorted_In, dedup_In, nonempty_parents
    by (apply pdf_dict_nonempty; constructor).
  rewrite pdf_dict_keys. simpl. tauto.
Qed.

Lemma pdf_parents_NoDup (items : list string) :
  NoDup (CrearPdf._collect_parents items).
Proof. apply sorted_NoDup, dedup_NoDup. Qed.
End ParentFacts.

(** ** [int] and the ordering key *)

Section ParseKeyFacts.
Import PyStr.

Lemma digits_value_nonneg (s : string) (acc : Z) :
  (0 <= acc)%Z -> (0 <= digits_value acc s)%Z.
Proof.
  revert acc; induction s as [|c s IH]; intros acc H; cbn [digits_value]; [exact H|].
  destruct (is_digit c); apply IH; [|exact H].
  unfold digit_value. pose proof (Nat2Z.is_nonneg (nat_of_ascii c - 48)). lia.
Qed.

Lemma int_unsigned_nonneg (s : string) (v : Z) :
  int_unsigned s = Some v -> (0 <= v)%Z.
Proof.
  unfold int_unsigned. destruct (span_body s) as [body rest].
  destruct body as [|c body]; [discriminate|].
  destruct (is_underscore c); [discriminate|].
  destruct (negb _); [discriminate|].
  destruct (_ <? _)%nat; [discriminate|].
  destruct (skip_spaces rest); [|discriminate].
  intros [= <-]. apply (digits_value_nonneg (String c body) 0). lia.
Qed.

Lemma is_digit_bounds (c : ascii) :
  is_digit c = true -> (48 <= nat_of_ascii c <= 57)%nat.
Proof.
  unfold is_digit. rewrite andb_true_iff, !Nat.leb_le. tauto.
Qed.

Lemma digit_not_space (c : ascii) : is_digit c = true -> is_space c = false.
Proof.
  intros H. apply is_digit_bounds in H. unfold is_space.
  apply orb_false_iff. split.
  - apply andb_false_iff. right. apply Nat.leb_gt. lia.
  - apply Nat.eqb_neq. lia.
Qed.

Lemma digit_not_char (c d : ascii) :
  is_digit c = true -> is_digit d = false -> Ascii.eqb c d = false.
Proof.
  intros Hc Hd. apply Ascii.eqb_neq. intros ->. congruence.
Qed.

Lemma int_all_digits_nonneg (s : string) (v : Z) :
  all_chars is_digit s = true -> int s = Some v -> (0 <= v)%Z.
Proof.
  destruct s as [|c s]; [discriminate|]. simpl.
  intros H. apply andb_true_iff in H. destruct H as [Hc _].
  unfold int. simpl. rewrite (digit_not_space c Hc).
  rewrite !(digit_not_char c) by (exact Hc || reflexivity).
  apply int_unsigned_nonneg.
Qed.

Lemma count_digits_skip_spaces (s : string) :
  count_digits s = 0%nat -> count_digits (skip_spaces s) = 0%nat.
Proof.
  induction s as [|c s IH]; simpl; [reflexivity|].
  destruct (is_space c); simpl; [|tauto]. intros H. apply IH. lia.
Qed.

Lemma int_unsigned_no_digits (s : string) :
  count_digits s = 0%nat -> int_unsigned s = None.
Proof.
  unfold int_unsigned. destruct s as [|c s]; simpl; [reflexivity|].
  destruct (is_digit c) eqn:D; [discriminate|]. simpl.
  destruct (is_underscore c) eqn:U; [|reflexivity].
  destruct (span_body s) as [b r]. now rewrite U.
Qed.

Lemma int_no_digits (s : string) : count_digits s = 0%nat -> int s = None.
Proof.
  intros H. apply count_digits_skip_spaces in H. unfold int.
  destruct (skip_spaces s) as [|c t]; [reflexivity|].
  simpl in H. assert (count_digits t = 0%nat) as Ht by lia.
  destruct (Ascii.eqb c "+"); [now apply int_unsigned_no_digits|].
  destruct (Ascii.eqb c "-").
  - now rewrite int_unsigned_no_digits.
  - now apply int_unsigned_no_digits.
Qed.

Lemma lstrip_all_digits (s : string) :
  all_chars is_digit s = true ->
  all_chars is_digit (or_str (lstrip "0"%char s) "0") = true.
Proof.
  induction s as [|c s IH]; [reflexivity|].
  intros H. simpl. destruct (Ascii.eqb c "0").
  - apply IH. simpl in H. now apply andb_true_iff in H.
  - exact H.
Qed.

Lemma lstrip_no_digits (s : string) :
  count_digits s = 0%nat ->
  lstrip "0"%char s = s.
Proof.
  destruct s as [|c s]; [reflexivity|]. simpl.
  destruct (Ascii.eqb_spec c "0") as [->|N]; [discriminate|reflexivity].
Qed.

Lemma pdf_entry_no_digits (seg : string) :
  count_digits seg = 0%nat -> CrearPdf.parse_segment seg = 0%Z.
Proof.
  intros H. unfold CrearPdf.parse_segment. rewrite (int_no_digits seg H).
  rewrite (lstrip_no_digits seg H).
  destruct seg as [|c seg]; [reflexivity|].
  cbn [or_str]. now rewrite (int_no_digits _ H).
Qed.

Lemma pdf_entry_all_digits (seg : string) :
  all_chars is_digit seg = true -> (0 <= CrearPdf.parse_segment seg)%Z.
Proof.
  intros H. unfold CrearPdf.parse_segment.
  destruct (int seg) as [v|] eqn:E; [now apply (int_all_digits_nonneg seg)|].
  destruct (int (or_str _ _)) as [v|] eqn:E2; [|lia].
  eapply int_all_digits_nonneg; [|exact E2]. now apply lstrip_all_digits.
Qed.

Lemma detallado_entry_all_digits (seg : string) :
  all_chars is_digit seg = true -> (0 <= CrearDetallado.parse_segment seg)%Z.
Proof.
  intros H. unfold CrearDetallado.parse_segment.
  destruct (int seg) as [v|] eqn:E; [now apply (int_all_digits_nonneg seg)|lia].
Qed.

Lemma Forall2_map_fun {A B : Type} (R : A -> B -> Prop) (f : A -> B) (l : list A) :
  (forall x, R x (f x)) -> Forall2 R l (map f l).
Proof. intros H. induction l; simpl; constructor; auto. Qed.
End ParseKeyFacts.

(** C6 (as the code has it).  [_parse_key] is total in both report
    generators: its result has one entry per dot-separated segment, so it
    is never the empty tuple and the empty string maps to [(0,)].  For a
    code of ASCII characters each entry is fixed by its segment: in
    [crear_detallado] it is what [int] reads from the segment, and 0 when
    [int] rejects it; in [crear_pdf] it is what [int] reads from the
    segment, else what [int] reads from the segment without its leading
    zeros (["0"] when nothing is left), and 0 when [int] rejects that
    too.  A segment without a digit gives 0 and a segment of digits only
    gives a non-negative entry; ["abc.3"] maps to [(0, 3)], ["5"] to
    [(5,)] and ["1a"] to [(0,)], and ["0 1"] maps to [(0,)] in
    [crear_detallado] and, through the retry, to [(1,)] in
    [crear_pdf]. *)
Theorem parse_key_defined (code : string) :
  length (CrearDetallado._parse_key code) = S (PyStr.count PyStr.dot code)
  /\ length (CrearPdf._parse_key code) = S (PyStr.count PyStr.dot code)
  /\ (PyStr.all_chars PyStr.is_ascii code = true ->
      Forall2 (fun seg z =>
                 z = match PyStr.int seg with Some v => v | None => 0%Z end
                 /\ (PyStr.all_chars PyStr.is_digit seg = true -> (0 <= z)%Z))
              (PyStr.split PyStr.dot code) (CrearDetallado._parse_key code)
      /\ Forall2 (fun seg z =>
                    (forall v, PyStr.int seg = Some v -> z = v)
                    /\ (PyStr.int seg = None ->
                        forall v,
                          PyStr.int (PyStr.or_str (PyStr.lstrip "0"%char seg) "0")
                          = Some v -> z = v)
                    /\ (PyStr.int seg = None ->
                        PyStr.int (PyStr.or_str (PyStr.lstrip "0"%char seg) "0")
                        = None -> z = 0%Z)
                    /\ (PyStr.count_digits seg = 0%nat -> z = 0%Z)
                    /\ (PyStr.all_chars PyStr.is_digit seg = true -> (0 <= z)%Z))
                 (PyStr.split PyStr.dot code) (CrearPdf._parse_key code))
  /\ CrearDetallado._parse_key "abc.3" = [0%Z; 3%Z]
  /\ CrearPdf._parse_key "abc.3" = [0%Z; 3%Z]
  /\ CrearDetallado._parse_key "" = [0%Z]
  /\ CrearPdf._parse_key "" = [0%Z]
  /\ CrearDetallado._parse_key "5" = [5%Z]
  /\ CrearPdf._parse_key "5" = [5%Z]
  /\ CrearDetallado._parse_key "1a" = [0%Z]
  /\ CrearPdf._parse_key "1a" = [0%Z]
  /\ CrearDetallado._parse_key "0 1" = [0%Z]
  /\ CrearPdf._parse_key "0 1" = [1%Z].
Proof.
  unfold CrearDetallado._parse_key, CrearPdf._parse_key.
  rewrite !length_map, split_length.
  split; [reflexivity|]. split; [reflexivity|].
  split; [|repeat split; reflexivity].
  intros _. split.
  - apply Forall2_map_fun. intros seg. split; [reflexivity|].
    apply detallado_entry_all_digits.
  - apply Forall2_map_fun. intros seg. unfold CrearPdf.parse_segment.
    split; [intros v E; now rewrite E|].
    split; [intros E v E2; now rewrite E, E2|].
    split; [intros E E2; now rewrite E, E2|].
    split; [apply pdf_entry_no_digits|apply pdf_entry_all_digits].
Qed.

(** C6 as stated fails: the empty string does not map to the empty
    tuple, and a signed segment gives a negative entry. *)
Lemma parse_key_empty_string_counterexample :
  CrearDetallado._parse_key "" <> []
  /\ CrearPdf._parse_key "" <> []
  /\ CrearDetallado._parse_key "-5" = [(-5)%Z]
  /\ CrearPdf._parse_key "-5" = [(-5)%Z].
Proof. repeat split; discriminate. Qed.

(** ** Parents and children *)

Section HierarchyFacts.
Import PyStr PySort.

Lemma sorted_by_key (key : string -> list Z) (l : list string) :
  StronglySorted (by_key key) (sorted tuple_lt key l).
Proof.
  apply sorted_sorted; [apply tuple_lt_asym|apply tuple_le_trans].
Qed.

Lemma depth_count (x : string) : Spec.depth x = S (count dot x).
Proof. apply split_length. Qed.

Lemma detallado_parents_prefix (items : list string) (p : string) :
  In p (CrearDetallado._collect_parents items) <->
  count dot p = 0%nat /\
  exists c, In c items /\ startswith c (p ++ ".")%string = true.
Proof.
  rewrite detallado_parents_In. split.
  - intros (it & Hin & Hd & ->). split; [apply hd_split_no_dot|].
    exists it. split; [exact Hin|].
    apply top_parent_iff; [apply hd_split_no_dot|].
    apply Nat.leb_le in Hd. now split.
  - intros (Hp & c & Hin & Hs). apply (top_parent_iff p c Hp) in Hs.
    destruct Hs as [H ->]. exists c. repeat split; [exact Hin|].
    now apply Nat.leb_le.
Qed.

Lemma pdf_parents_prefix (items : list string) (p : string) :
  In p (CrearPdf._collect_parents items) <->
  exists c, In c items /\ startswith c (p ++ ".")%string = true /\
            (Spec.depth c = (Spec.depth p + 1)%nat \/ Spec.depth p = 1%nat).
Proof.
  rewrite pdf_parents_In. rewrite !depth_count. split.
  - intros (it & Hin & Hd & Hp). exists it. split; [exact Hin|].
    apply Nat.leb_le in Hd. destruct Hp as [-> | ->].
    + destruct (proj2 (direct_parent_iff _ it) (conj Hd eq_refl)) as [H1 H2].
      split; [exact H1|]. left. rewrite depth_count. lia.
    + split.
      * apply top_parent_iff; [apply hd_split_no_dot|]. now split.
      * right. now rewrite hd_split_no_dot.
  - intros (c & Hin & Hs & Hd). exists c. split; [exact Hin|].
    destruct Hd as [Hd|Hd].
    + rewrite depth_count in Hd.
      destruct (proj1 (direct_parent_iff p c)) as [H1 H2]; [split; [exact Hs|lia]|].
      split; [now apply Nat.leb_le|now left].
    + assert (count dot p = 0%nat) as Hp by lia.
      apply (top_parent_iff p c Hp) in Hs. destruct Hs as [H ->].
      split; [now apply Nat.leb_le|now right].
Qed.
End HierarchyFacts.

(** C2 (as the code has it).  [_collect_parents] of [crear_detallado]
    returns exactly the dot-free codes [P] such that a code of the list
    starts with [P + "."], at any depth below; [_collect_parents] of
    [crear_pdf] returns exactly the codes [P] such that a code [C] of the
    list starts with [P + "."] and is one level deeper than [P] or [P] is
    a top-level segment.  Both results are free of duplicates and sorted
    by the ordering key, and both give [["1","2"]] on
    [{"1.01","1.02","2.01"}]. *)
Theorem collect_parents_characterised (items : list string) :
  (forall P, In P (CrearDetallado._collect_parents items) <->
             PyStr.count PyStr.dot P = 0%nat /\
             exists C, In C items /\ PyStr.startswith C (P ++ ".")%string = true)
  /\ (forall P, In P (CrearPdf._collect_parents items) <->
                exists C, In C items /\
                          PyStr.startswith C (P ++ ".")%string = true /\
                          (Spec.depth C = (Spec.depth P + 1)%nat \/
                           Spec.depth P = 1%nat))
  /\ NoDup (CrearDetallado._collect_parents items)
  /\ NoDup (CrearPdf._collect_parents items)
  /\ StronglySorted (PySort.by_key CrearDetallado._parse_key)
                    (CrearDetallado._collect_parents items)
  /\ StronglySorted (PySort.by_key CrearPdf._parse_key)
                    (CrearPdf._collect_parents items)
  /\ CrearDetallado._collect_parents ["1.01"; "1.02"; "2.01"] = ["1"; "2"]
  /\ CrearPdf._collect_parents ["1.01"; "1.02"; "2.01"] = ["1"; "2"].
Proof.
  split; [intro; apply detallado_parents_prefix|].
  split; [intro; apply pdf_parents_prefix|].
  split; [apply detallado_parents_NoDup|].
  split; [apply pdf_parents_NoDup|].
  split; [apply sorted_by_key|].
  split; [apply sorted_by_key|].
  split; reflexivity.
Qed.

(** C2 as stated fails in both generators: on [{"1.01.01"}] the code
    ["1"] is returned although no code of the set is one level below it,
    and [crear_detallado] leaves out ["1.01"], the parent of
    ["1.01.01"]. *)
Lemma collect_parents_counterexample :
  ~ (forall items P,
       In P (CrearDetallado._collect_parents items) <->
       exists C, In C items /\ Spec.is_parent_of P C = true)
  /\ ~ (forall items P,
          In P (CrearPdf._collect_parents items) <->
          exists C, In C items /\ Spec.is_parent_of P C = true).
Proof.
  split; intros H; specialize (H ["1.01.01"] "1");
    destruct H as [H _];
    (destruct H as (C & [<-|[]] & HC); [simpl; auto|discriminate]).
Qed.

Lemma pdf_child_test (parent c : string) :
  PyStr.startswith c (parent ++ ".")%string
  && (PyStr.count PyStr.dot c =? PyStr.count PyStr.dot parent + 1)%nat
  = Spec.is_parent_of parent c.
Proof.
  unfold Spec.is_parent_of. rewrite !depth_count. reflexivity.
Qed.

(** C4 (as the code has it).  Neither generator has a flag.  The direct
    children of [parent] are the codes of the list that start with
    [parent + "."] and are exactly one level below it.
    [_children_of_parent] of [crear_pdf] returns exactly these: each as
    often as it occurs in the list, in the order of the ordering key, and
    codes with equal keys in the order they have in the list (the sort
    is stable).  The direct children that [_children_of_parent] of
    [crear_detallado] returns are the same codes, as often, and in the
    order of that module's key, equal keys in the order of the list.  On
    [{"1.01","1.02","2.01"}] both give [["1.01","1.02"]] for parent
    ["1"] and [["2.01"]] for parent ["2"]. *)
Theorem children_of_parent_characterised (items : list string) (parent : string) :
  Permutation (CrearPdf._children_of_parent items parent)
              (filter (Spec.is_parent_of parent) items)
  /\ (forall c, In c (CrearPdf._children_of_parent items parent) <->
                In c items /\ PyStr.startswith c (parent ++ ".")%string = true
                /\ Spec.depth c = (Spec.depth parent + 1)%nat)
  /\ StronglySorted (PySort.by_key CrearPdf._parse_key)
                    (CrearPdf._children_of_parent items parent)
  /\ (forall k,
        filter (fun c => PySort.tuple_eqb (CrearPdf._parse_key c) k)
               (CrearPdf._children_of_parent items parent)
        = filter (fun c => PySort.tuple_eqb (CrearPdf._parse_key c) k)
                 (filter (Spec.is_parent_of parent) items))
  /\ Permutation (filter (Spec.is_parent_of parent)
                         (CrearDetallado._children_of_parent items parent))
                 (filter (Spec.is_parent_of parent) items)
  /\ (forall c, Spec.is_parent_of parent c = true ->
                (In c (CrearDetallado._children_of_parent items parent) <-> In c items))
  /\ StronglySorted (PySort.by_key CrearDetallado._parse_key)
                    (filter (Spec.is_parent_of parent)
                            (CrearDetallado._children_of_parent items parent))
  /\ (forall k,
        filter (fun c => PySort.tuple_eqb (CrearDetallado._parse_key c) k)
               (filter (Spec.is_parent_of parent)
                       (CrearDetallado._children_of_parent items parent))
        = filter (fun c => PySort.tuple_eqb (CrearDetallado._parse_key c) k)
                 (filter (Spec.is_parent_of parent) items))
  /\ CrearDetallado._children_of_parent ["1.01"; "1.02"; "2.01"] "1" = ["1.01"; "1.02"]
  /\ CrearPdf._children_of_parent ["1.01"; "1.02"; "2.01"] "1" = ["1.01"; "1.02"]
  /\ CrearDetallado._children_of_parent ["1.01"; "1.02"; "2.01"] "2" = ["2.01"]
  /\ CrearPdf._children_of_parent ["1.01"; "1.02"; "2.01"] "2" = ["2.01"].
Proof.
  assert (filter (Spec.is_parent_of parent)
                 (CrearDetallado._children_of_parent items parent)
          = PySort.sorted PySort.tuple_lt CrearDetallado._parse_key
              (filter (Spec.is_parent_of parent) items)) as Hdirect.
  { unfold CrearDetallado._children_of_parent. cbv zeta.
    rewrite (filter_sorted _ _ tuple_lt_asym tuple_le_trans). f_equal.
    induction items as [|c items IH]; [reflexivity|]. cbn [filter].
    unfold Spec.is_parent_of at 2.
    destruct (PyStr.startswith c (parent ++ ".")) eqn:E; cbn [filter andb].
    - unfold Spec.is_parent_of at 1. rewrite E. cbn [andb].
      now rewrite IH.
    - exact IH. }
  unfold CrearPdf._children_of_parent. cbv zeta.
  rewrite (filter_ext _ _ (pdf_child_test parent)).
  split; [apply sorted_perm|].
  split.
  { intro c. rewrite sorted_In, filter_In. unfold Spec.is_parent_of.
    rewrite andb_true_iff, Nat.eqb_eq. tauto. }
  split; [apply sorted_by_key|].
  split.
  { intro k. apply (sorted_same_key _ _ _ tuple_eqb_eq tuple_lt_irrefl). }
  split; [rewrite Hdirect; apply sorted_perm|].
  split.
  { intros c Hc. unfold CrearDetallado._children_of_parent. cbv zeta.
    rewrite sorted_In, filter_In. unfold Spec.is_parent_of in Hc.
    apply andb_true_iff in Hc. tauto. }
  split; [rewrite Hdirect; apply sorted_by_key|].
  split.
  { intro k. rewrite Hdirect.
    apply (sorted_same_key _ _ _ tuple_eqb_eq tuple_lt_irrefl). }
  repeat split; reflexivity.
Qed.

(** C4 as stated fails: [crear_pdf]'s function does not return every
    code under the prefix, only the direct children, and nothing selects
    another mode. *)
Lemma children_of_parent_counterexample :
  ~ (forall items parent c,
       In c (CrearPdf._children_of_parent items parent) <->
       In c items /\ PyStr.startswith c (parent ++ ".")%string = true)
  /\ CrearPdf._children_of_parent ["1.01.01"] "1" = [].
Proof.
  split; [|reflexivity]. intros H.
  destruct (proj2 (H ["1.01.01"] "1" "1.01.01")); simpl; auto.
Qed.

(** ** Sums of rationals *)

Section SumFacts.
Import Tables.
Local Open Scope Q_scope.

Lemma Qsum_app (a b : list Q) : Qsum (a ++ b) == Qsum a + Qsum b.
Proof.
  induction a as [|x a IH]; simpl.
  - now rewrite Qplus_0_l.
  - rewrite IH. apply Qplus_assoc.
Qed.

Lemma Qsum_perm (a b : list Q) : Permutation a b -> Qsum a == Qsum b.
Proof.
  induction 1; simpl.
  - reflexivity.
  - now rewrite IHPermutation.
  - rewrite !Qplus_assoc. now rewrite (Qplus_comm y x).
  - now rewrite IHPermutation1.
Qed.

Lemma Qsum_scale {A : Type} (c : Q) (f : A -> Q) (l : list A) :
  Qsum (map (fun x => c * f x) l) == c * Qsum (map f l).
Proof.
  induction l as [|x l IH]; simpl.
  - now rewrite Qmult_0_r.
  - rewrite IH. now rewrite Qmult_plus_distr_r.
Qed.


Lemma Qsum_map_ext {A : Type} (f g : A -> Q) (l : list A) :
  (forall x, In x l -> f x == g x) -> Qsum (map f l) == Qsum (map g l).
Proof.
  induction l as [|x l IH]; intros H; simpl; [reflexivity|].
  rewrite (H x) by now left. rewrite IH; [reflexivity|].
  intros y Hy. apply H. now right.
Qed.
End SumFacts.

(** ** Unit prices *)

Section PrecioFacts.
Import Tables Precios.
Local Open Scope Q_scope.

Lemma dict_get_map_keys (f : string -> Q) (ks : list string) (k : string) (d : Q) :
  dict_get (map (fun k => (k, f k)) ks) k d
  = if existsb (String.eqb k) ks then f k else d.
Proof.
  induction ks as [|k' ks IH]; simpl; [reflexivity|].
  rewrite (String.eqb_sym k k').
  destruct (String.eqb_spec k' k) as [->|N]; [reflexivity|exact IH].
Qed.

Lemma filter_flat_map {A B : Type} (p : B -> bool) (f : A -> list B) (l : list A) :
  filter p (flat_map f l) = flat_map (fun x => filter p (f x)) l.
Proof.
  induction l as [|x l IH]; simpl; [reflexivity|].
  now rewrite filter_app, IH.
Qed.

Lemma joined_item (df_maestro : list maestro_row) (d : detalle_row) :
  Forall (fun r => fst r = d) (joined df_maestro d).
Proof.
  unfold joined. destruct (matches df_maestro (codigo_str d)) as [|m ms].
  - repeat constructor.
  - apply Forall_forall. intros r Hr. apply in_map_iff in Hr.
    destruct Hr as (x & <- & _). reflexivity.
Qed.

Lemma joined_sum (df_maestro : list maestro_row) (d : detalle_row) :
  Qsum (map subtotal_linea (joined df_maestro d))
  == fillna 0 (cantidad d) * joined_price df_maestro (codigo_str d).
Proof.
  unfold joined, joined_price.
  destruct (matches df_maestro (codigo_str d)) as [|m ms] eqn:E.
  - simpl. unfold subtotal_linea. simpl. ring.
  - rewrite map_map. unfold subtotal_linea. cbn [fst snd].
    apply (Qsum_scale (fillna 0 (cantidad d)) (fun m => fillna 0 (m_Pres m))).
Qed.

Lemma filter_all {A : Type} (p : A -> bool) (l : list A) :
  Forall (fun x => p x = true) l -> filter p l = l.
Proof.
  induction 1 as [|x l H _ IH]; simpl; [reflexivity|]. now rewrite H, IH.
Qed.

Lemma filter_none {A : Type} (p : A -> bool) (l : list A) :
  Forall (fun x => p x = false) l -> filter p l = [].
Proof.
  induction 1 as [|x l H _ IH]; simpl; [reflexivity|]. now rewrite H, IH.
Qed.

Lemma filter_joined (df_maestro : list maestro_row) (d : detalle_row) (k : string) :
  filter (fun r => String.eqb (item_str (fst r)) k) (joined df_maestro d)
  = if String.eqb (item_str d) k then joined df_maestro d else [].
Proof.
  pose proof (joined_item df_maestro d) as H.
  destruct (String.eqb (item_str d) k) eqn:E.
  - apply filter_all. eapply Forall_impl; [|exact H].
    intros r ->. exact E.
  - apply filter_none. eapply Forall_impl; [|exact H].
    intros r ->. exact E.
Qed.

Lemma groupby_get (rows : list (detalle_row * pyfloat)) (k : string) :
  dict_get (groupby_item_sum rows) k 0
  = Qsum (map subtotal_linea
              (filter (fun r => String.eqb (item_str (fst r)) k) rows)).
Proof.
  unfold groupby_item_sum.
  rewrite (dict_get_map_keys
             (fun k => Qsum (map subtotal_linea
                (filter (fun r => String.eqb (item_str (fst r)) k) rows)))).
  destruct (existsb _ _) eqn:E; [reflexivity|].
  rewrite filter_none; [reflexivity|].
  apply Forall_forall. intros r Hr.
  destruct (String.eqb_spec (item_str (fst r)) k) as [<-|]; [|reflexivity].
  exfalso. rewrite <- not_true_iff_false in E. apply E. apply existsb_exists.
  exists (item_str (fst r)). split; [|apply String.eqb_refl].
  apply dedup_In, in_map_iff. now exists r.
Qed.

(** The unit price of an item in terms of its detail rows. *)
Lemma precio_de_tabla_sum (det : list detalle_row)
  (df_maestro : list maestro_row) (k : string) :
  precio_de_tabla det df_maestro k
  == Qsum (map (fun d => fillna 0 (cantidad d) * joined_price df_maestro (codigo_str d))
               (filter (fun d => String.eqb (item_str d) k) det)).
Proof.
  unfold precio_de_tabla, precios_de_tabla.
  destruct det as [|d0 det0]; [reflexivity|].
  set (det := d0 :: det0). rewrite groupby_get.
  unfold merge_left.
  rewrite filter_flat_map. clearbody det. clear d0 det0.
  induction det as [|d det IH]; simpl; [reflexivity|].
  rewrite filter_joined, map_app, Qsum_app, IH.
  destruct (String.eqb (item_str d) k); simpl.
  - now rewrite joined_sum.
  - now rewrite Qplus_0_l.
Qed.

Lemma matches_NoDup (df_maestro : list maestro_row) (code : string) :
  NoDup (map m_Codigo df_maestro) ->
  joined_price df_maestro code == Spec.catalog_price df_maestro code.
Proof.
  unfold joined_price, matches, Spec.catalog_price.
  induction df_maestro as [|m ms IH]; simpl; intros H; [reflexivity|].
  inversion H as [|? ? Hnot Hnd]; subst.
  destruct (String.eqb_spec (m_Codigo m) code) as [E|N].
  - simpl. rewrite filter_none; [simpl; ring|].
    apply Forall_forall. intros x Hx. apply String.eqb_neq. intros E2.
    apply Hnot. rewrite E, <- E2. now apply in_map.
  - now apply IH.
Qed.
End PrecioFacts.

(** What [pd.read_csv] makes of a column it holds as strings: the cells
    as they are written. *)
Lemma read_csv_infer_object (cells values : list string) (dt : Tables.dtype) :
  PresupuestoUtils.read_csv_infer cells = Some (dt, values) ->
  Tables.is_object dt = true -> values = cells.
Proof.
  unfold PresupuestoUtils.read_csv_infer.
  destruct (existsb _ _); [discriminate|].
  destruct (existsb _ _); [now intros [= <- <-]|].
  destruct cells as [|c cells]; [now intros [= <- <-]|].
  destruct (forallb _ _); intros [= <- <-]; discriminate.
Qed.

Lemma combine_map_self {A B : Type} (f : A -> B) (l : list A) :
  combine (map f l) l = map (fun x => (f x, x)) l.
Proof. induction l as [|x l IH]; simpl; [reflexivity|now rewrite IH]. Qed.

(** The table [pd.read_csv] returns for a [detalle.csv] whose [item]
    column it holds as strings. *)
Lemma read_csv_detalle_object (file : list Tables.detalle_csv_row)
  (dt : Tables.dtype) (df : list Tables.detalle_row) :
  PresupuestoUtils.read_csv_detalle file = Some (dt, df) ->
  Tables.is_object dt = true ->
  df = map (fun r => Tables.mk_detalle (Tables.Str (Tables.file_item r))
                       (PresupuestoUtils.codigo_of (Tables.file_Codigo r))
                       (Tables.file_cantidad r)) file.
Proof.
  unfold PresupuestoUtils.read_csv_detalle.
  destruct (PresupuestoUtils.read_csv_infer _) as [[dt' values]|] eqn:E;
    [|discriminate].
  intros [= -> <-] Hobj.
  rewrite (read_csv_infer_object _ _ _ E Hobj), combine_map_self, map_map.
  apply map_ext. intros r. cbn [fst snd].
  unfold PresupuestoUtils.cell_of. now rewrite Hobj.
Qed.

(** C5 (where the code departs from it).  The unit price the reports
    read for an item is not always the sum over the item's detail rows:
    [_compute_precio_unitario_por_item] reads [detalle.csv] without a
    dtype, so when every item code of the file looks like a number the
    dictionary is keyed by the numbers as they print.  The three cases
    of the claim come out right for the code ["1.01"] (0 without detail,
    300 for quantity 3 at price 100, 500 with a second row of quantity
    2), but for the stored code ["1.10"] the only key is ["1.1"] and for
    ["01.01"] it is ["1.01"]: the price read for the stored code is 0
    where its rows add up to 300. *)
Theorem unit_price_misses_coerced_codes :
  Precios.precio_unitario None [Tables.mk_maestro "X" (Some 100%Q)] "1.01"
  = Some 0%Q
  /\ Precios.precio_unitario (Some []) [Tables.mk_maestro "X" (Some 100%Q)] "1.01"
     = Some 0%Q
  /\ (exists v,
        Precios.precio_unitario
          (Some [Tables.mk_detalle_csv "1.01" "X" (Some 3%Q)])
          [Tables.mk_maestro "X" (Some 100%Q)] "1.01" = Some v
        /\ (v == 300)%Q)
  /\ (exists v,
        Precios.precio_unitario
          (Some [Tables.mk_detalle_csv "1.01" "X" (Some 3%Q);
                 Tables.mk_detalle_csv "1.01" "X" (Some 2%Q)])
          [Tables.mk_maestro "X" (Some 100%Q)] "1.01" = Some v
        /\ (v == 500)%Q)
  /\ (exists v,
        Precios._compute_precio_unitario_por_item
          (Some [Tables.mk_detalle_csv "1.10" "X" (Some 3%Q)])
          [Tables.mk_maestro "X" (Some 100%Q)] = Some [("1.1", v)]
        /\ (v == 300)%Q)
  /\ Precios.precio_unitario
       (Some [Tables.mk_detalle_csv "1.10" "X" (Some 3%Q)])
       [Tables.mk_maestro "X" (Some 100%Q)] "1.10" = Some 0%Q
  /\ (Spec.unit_price "1.10" [Tables.mk_detalle_csv "1.10" "X" (Some 3%Q)]
                      [Tables.mk_maestro "X" (Some 100%Q)] == 300)%Q
  /\ (exists v,
        Precios._compute_precio_unitario_por_item
          (Some [Tables.mk_detalle_csv "01.01" "X" (Some 3%Q)])
          [Tables.mk_maestro "X" (Some 100%Q)] = Some [("1.01", v)]
        /\ (v == 300)%Q)
  /\ Precios.precio_unitario
       (Some [Tables.mk_detalle_csv "01.01" "X" (Some 3%Q)])
       [Tables.mk_maestro "X" (Some 100%Q)] "01.01" = Some 0%Q.
Proof.
  repeat split; try reflexivity;
    eexists; (split; [vm_compute; reflexivity|reflexivity]).
Qed.

(** C8.  The price computation is a total function, and bad reference
    data contribute nothing: a detail row whose catalog code matches no
    catalog row, whose quantity is missing or not a number, or whose
    matching catalog rows have no numeric price, leaves the unit price of
    every item as it is without the row.  This holds of the table the
    function has read, and so of the files: when the row of the file
    that [d] was read from is taken out and the other rows are read as
    before, the unit prices read are the same. *)
Theorem unit_price_ignores_bad_rows (det1 det2 : list Tables.detalle_row)
  (d : Tables.detalle_row) (df_maestro : list Tables.maestro_row)
  (item_code : string)
  (Hbad : Precios.matches df_maestro (Tables.codigo_str d) = []
          \/ Tables.cantidad d = None
          \/ Forall (fun m => Tables.m_Pres m = None)
                    (Precios.matches df_maestro (Tables.codigo_str d))) :
  (Precios.precio_de_tabla (det1 ++ d :: det2) df_maestro item_code
   == Precios.precio_de_tabla (det1 ++ det2) df_maestro item_code)%Q
  /\ (forall file1 file2 row dt dt',
        PresupuestoUtils.read_csv_detalle (file1 ++ row :: file2)
        = Some (dt, det1 ++ d :: det2) ->
        PresupuestoUtils.read_csv_detalle (file1 ++ file2)
        = Some (dt', det1 ++ det2) ->
        exists v v',
          Precios.precio_unitario (Some (file1 ++ row :: file2)) df_maestro item_code
          = Some v
          /\ Precios.precio_unitario (Some (file1 ++ file2)) df_maestro item_code
             = Some v'
          /\ (v == v')%Q).
Proof.
  assert (Precios.precio_de_tabla (det1 ++ d :: det2) df_maestro item_code
          == Precios.precio_de_tabla (det1 ++ det2) df_maestro item_code)%Q as H.
  { rewrite !precio_de_tabla_sum, !filter_app, !map_app, !Qsum_app.
    apply Qplus_inj_l. simpl.
    destruct (String.eqb (Tables.item_str d) item_code); [|reflexivity].
    simpl.
    assert (Tables.fillna 0 (Tables.cantidad d)
            * Precios.joined_price df_maestro (Tables.codigo_str d) == 0)%Q as ->.
    { destruct Hbad as [H|[H|H]].
      - unfold Precios.joined_price. rewrite H. simpl. ring.
      - rewrite H. simpl. ring.
      - unfold Precios.joined_price.
        induction H as [|m ms Hm _ IH]; simpl; [ring|].
        rewrite Hm. simpl. rewrite Qplus_0_l. exact IH. }
    apply Qplus_0_l. }
  split; [exact H|].
  intros file1 file2 row dt dt' H1 H2.
  unfold Precios.precio_unitario, Precios._compute_precio_unitario_por_item.
  rewrite H1, H2. eexists. eexists.
  split; [reflexivity|]. split; [reflexivity|]. exact H.
Qed.

Lemma unit_price_ignores_bad_rows_witness :
  (Precios.precio_de_tabla
     ([Tables.mk_detalle (Tables.Num "1.01") (Some "X") (Some 3%Q)]
      ++ Tables.mk_detalle (Tables.Num "1.01") (Some "GONE") (Some 4%Q)
      :: [Tables.mk_detalle (Tables.Num "1.01") (Some "Y") None])
     [Tables.mk_maestro "X" (Some 100%Q); Tables.mk_maestro "Y" (Some 7%Q)] "1.01"
   == Precios.precio_de_tabla
        ([Tables.mk_detalle (Tables.Num "1.01") (Some "X") (Some 3%Q)]
         ++ [Tables.mk_detalle (Tables.Num "1.01") (Some "Y") None])
        [Tables.mk_maestro "X" (Some 100%Q); Tables.mk_maestro "Y" (Some 7%Q)] "1.01")%Q.
Proof.
  refine (proj1 (unit_price_ignores_bad_rows _ _ _ _ "1.01" _)).
  left. reflexivity.
Defined.

(** ** Currency lookup and conversion *)

Section MonedaFacts.
Import PyStr Tables Monedas.
Local Open Scope Q_scope.

Lemma convert_clp_to_value (file : option (list moneda_csv_row))
  (monto : Q) (moneda_destino : string) :
  convert_clp_to file monto moneda_destino
  = Some (if Qeq_bool (get_moneda_value file moneda_destino) 0 then 0
          else monto / get_moneda_value file moneda_destino).
Proof.
  unfold convert_clp_to, py_div.
  now destruct (Qeq_bool (get_moneda_value file moneda_destino) 0).
Qed.

Lemma get_moneda_value_upper (file : option (list moneda_csv_row))
  (c1 c2 : string) :
  upper c1 = upper c2 -> get_moneda_value file c1 = get_moneda_value file c2.
Proof. unfold get_moneda_value. now intros ->. Qed.

Lemma get_moneda_value_no_row (file : option (list moneda_csv_row))
  (codigo : string) :
  Forall (fun r => upper (mo_Codigo r) <> upper codigo) (load_monedas file) ->
  get_moneda_value file codigo = 1.
Proof.
  intros H. unfold get_moneda_value. rewrite filter_none; [reflexivity|].
  eapply Forall_impl; [|exact H]. intros r Hr. now apply String.eqb_neq.
Qed.
(** The value [get_moneda_value] reads in a loaded table. *)
Lemma valor_in_rows (df : list moneda_row) (codigo : string) (l1 l2 : list moneda_row)
  (r : moneda_row) :
df = l1 ++ r :: l2 ->
Forall (fun x => upper (mo_Codigo x) <> upper codigo) l1 ->
upper (mo_Codigo r) = upper codigo ->
match filter (fun x => String.eqb (upper (mo_Codigo x)) (upper codigo)) df with
| [] => 1
| x :: _ => ValorCLP x
end = ValorCLP r.
Proof.
intros -> H1 Hr. rewrite filter_app, filter_none.
- simpl. now rewrite Hr, String.eqb_refl.
- eapply Forall_impl; [|exact H1]. intros x Hx. now apply String.eqb_neq.
Qed.

Lemma get_moneda_value_row (l1 l2 : list moneda_csv_row) (r : moneda_csv_row)
  (codigo : string) :
  Forall (fun x => upper (csv_Codigo x) <> upper codigo) l1 ->
  upper (csv_Codigo r) = upper codigo ->
  get_moneda_value (Some (l1 ++ r :: l2)) codigo = fillna 1 (csv_ValorCLP r).
Proof.
  intros Hbefore Hrow. unfold get_moneda_value, load_monedas. cbv zeta.
  rewrite map_app. cbn [map].
  rewrite (valor_in_rows _ codigo _ _ _ eq_refl); [reflexivity| |exact Hrow].
  apply Forall_map. eapply Forall_impl; [|exact Hbefore]. now intros x Hx.
Qed.
End MonedaFacts.

(** C7 (as the code has it).  [convert_clp_to] never raises and never
    divides by zero: it returns 0.0 when the rate is zero and the amount
    divided by the rate otherwise, so an amount equal to the rate
    converts to 1, as 39718.89 CLP do into UF with the default table.
    The 0.0 of a zero rate is an ordinary amount, not a sentinel.  A
    currency that is missing from the table has rate 1.0, and the amount
    comes back unchanged.  The inline conversion of [crear_detallado]
    divides the price by the factor when the factor is positive and
    keeps the price as it is otherwise, so it does not divide by zero
    either. *)
Theorem convert_clp_to_never_raises (file : option (list Monedas.moneda_csv_row))
  (monto : Q) (moneda_destino : string) :
  (exists r, Monedas.convert_clp_to file monto moneda_destino = Some r
     /\ (Monedas.get_moneda_value file moneda_destino == 0 -> r == 0)%Q
     /\ (~ Monedas.get_moneda_value file moneda_destino == 0 ->
         r == monto / Monedas.get_moneda_value file moneda_destino)%Q
     /\ (~ Monedas.get_moneda_value file moneda_destino == 0 ->
         monto == Monedas.get_moneda_value file moneda_destino -> r == 1)%Q)
  /\ (exists r, Monedas.convert_clp_to None (3971889 # 100) "UF" = Some r
                /\ (r == 1)%Q)
  /\ (Forall (fun x => PyStr.upper (Monedas.mo_Codigo x) <> PyStr.upper moneda_destino)
             (Monedas.load_monedas file) ->
      Monedas.get_moneda_value file moneda_destino = 1%Q
      /\ exists r, Monedas.convert_clp_to file monto moneda_destino = Some r
                   /\ (r == monto)%Q)
  /\ (forall precios factor child,
        ((factor <= 0)%Q ->
         CrearDetallado.punit_of precios factor child
         = Tables.dict_get precios child 0%Q)
        /\ ((0 < factor)%Q ->
            CrearDetallado.punit_of precios factor child
            = (Tables.dict_get precios child 0 / factor)%Q))
  /\ (CrearDetallado.punit_of [("1.01", (3971889 # 100)%Q)] (3971889 # 100) "1.01"
      == 1)%Q.
Proof.
  split; [|split; [|split; [|split]]].
  - rewrite convert_clp_to_value. eexists. split; [reflexivity|].
    destruct (Qeq_bool _ 0) eqn:E.
    + apply Qeq_bool_iff in E. repeat split; intros; try reflexivity; contradiction.
    + apply Qeq_bool_neq in E. repeat split; intros; try reflexivity; try contradiction.
      rewrite H0. now apply Qmult_inv_r.
  - eexists. split; [reflexivity|]. reflexivity.
  - intros Hno. pose proof (get_moneda_value_no_row file moneda_destino Hno) as H.
    split; [exact H|]. rewrite convert_clp_to_value, H. simpl.
    eexists. split; [reflexivity|]. field.
  - intros precios factor child. unfold CrearDetallado.punit_of. cbv zeta. split.
    + intros H. apply Qle_bool_iff in H. now rewrite H.
    + intros H. destruct (Qle_bool factor 0) eqn:E; [|reflexivity].
      apply Qle_bool_iff in E. exfalso. exact (Qlt_not_le _ _ H E).
  - reflexivity.
Qed.

(** C7 as stated fails: no value marks an unavailable rate.  A zero
    rate yields the same result as converting nothing, and a missing
    currency converts at rate 1. *)
Lemma convert_clp_to_sentinel_counterexample :
  ~ (exists unavailable : option Q,
       (forall file monto c,
          (Monedas.get_moneda_value file c == 0)%Q ->
          Monedas.convert_clp_to file monto c = unavailable)
       /\ (forall file monto c,
             ~ (Monedas.get_moneda_value file c == 0)%Q ->
             Monedas.convert_clp_to file monto c <> unavailable))
  /\ Monedas.convert_clp_to (Some [Monedas.mk_moneda_csv "XX" "sin valor" (Some 0%Q)])
                            5 "XX" = Some 0%Q
  /\ Monedas.convert_clp_to None 5 "EUR" = Some 5%Q.
Proof.
  split; [|split; reflexivity].
  intros (u & Hz & Hnz).
  pose proof (Hz (Some [Monedas.mk_moneda_csv "XX" "sin valor" (Some 0%Q)])
                 5%Q "XX") as H1.
  pose proof (Hnz None 0%Q "CLP") as H2.
  apply H2; [discriminate|]. rewrite <- H1; reflexivity.
Qed.

(** C10.  [get_moneda_value] compares the requested code and the codes
    of the table through [upper()] on both sides: the answer is the
    value of the first row whose code equals the requested one up to
    case (a value that is not a number counting as 1.0), so a row written
    ["uf"] answers to ["UF"] and the other way round.  A code that
    matches no row of the table has value 1.0, so [convert_clp_to]
    returns the amount unchanged and signals nothing. *)
Theorem get_moneda_value_unknown_code (file : option (list Monedas.moneda_csv_row))
  (codigo : string) (monto : Q)
  (Hno : Forall (fun r => PyStr.upper (Monedas.mo_Codigo r) <> PyStr.upper codigo)
                (Monedas.load_monedas file)) :
  Monedas.get_moneda_value file codigo = 1%Q
  /\ (exists r, Monedas.convert_clp_to file monto codigo = Some r /\ (r == monto)%Q)
  /\ (forall c1 c2, PyStr.upper c1 = PyStr.upper c2 ->
                    Monedas.get_moneda_value file c1 = Monedas.get_moneda_value file c2)
  /\ (forall l1 r l2 c,
        Forall (fun x => PyStr.upper (Monedas.csv_Codigo x) <> PyStr.upper c) l1 ->
        PyStr.upper (Monedas.csv_Codigo r) = PyStr.upper c ->
        Monedas.get_moneda_value (Some (l1 ++ r :: l2)) c
        = Tables.fillna 1 (Monedas.csv_ValorCLP r))
  /\ Monedas.get_moneda_value None "uf" = (3971889 # 100)%Q
  /\ Monedas.get_moneda_value
       (Some [Monedas.mk_moneda_csv "clp" "Peso Chileno" (Some 1%Q);
              Monedas.mk_moneda_csv "uf" "Unidad de Fomento" (Some 39000%Q)])
       "UF" = 39000%Q.
Proof.
  pose proof (get_moneda_value_no_row file codigo Hno) as H.
  split; [exact H|]. split; [|split; [apply get_moneda_value_upper|]].
  - rewrite convert_clp_to_value, H. simpl. eexists. split; [reflexivity|].
    field.
  - split; [|split; reflexivity].
    intros l1 r l2 c. apply get_moneda_value_row.
Qed.

Lemma get_moneda_value_unknown_code_witness :
  Monedas.get_moneda_value None "eur" = 1%Q
  /\ (exists r, Monedas.convert_clp_to None 5 "eur" = Some r /\ (r == 5)%Q).
Proof.
  assert (Forall (fun r => PyStr.upper (Monedas.mo_Codigo r) <> PyStr.upper "eur")
                 (Monedas.load_monedas None)) as H.
  { repeat constructor; discriminate. }
  pose proof (get_moneda_value_unknown_code None "eur" 5 H) as (H1 & H2 & _).
  exact (conj H1 H2).
Defined.

Lemma filter_map_swap {A B : Type} (p : B -> bool) (q : A -> bool) (f : A -> B)
  (l : list A) :
  (forall x, p (f x) = q x) -> filter p (map f l) = map f (filter q l).
Proof.
  intros H. induction l as [|x l IH]; simpl; [reflexivity|].
  rewrite H. destruct (q x); simpl; now rewrite IH.
Qed.

(** ** Writes of the detail table *)

Section DetalleFacts.
Import PySort Tables ModificarPresupuesto.
Local Open Scope Q_scope.

Lemma cell_eqb_eq (a b : cell) : cell_eqb a b = true <-> a = b.
Proof.
  destruct a as [x|x|], b as [y|y|]; simpl; try easy;
    rewrite String.eqb_eq; split; congruence.
Qed.

Lemma codigo_eqb_eq (a b : option string) : codigo_eqb a b = true <-> a = b.
Proof.
  destruct a as [x|], b as [y|]; simpl; try easy.
  rewrite String.eqb_eq. split; congruence.
Qed.

Lemma key_eqb_eq (a b : cell * option string) : key_eqb a b = true <-> a = b.
Proof.
  destruct a as [a1 a2], b as [b1 b2]. unfold key_eqb. simpl.
  rewrite andb_true_iff, cell_eqb_eq, codigo_eqb_eq.
  split; [intros [-> ->]|intros [= -> ->]]; auto.
Qed.

Lemma filter_perm {A : Type} (p : A -> bool) (l l' : list A) :
  Permutation l l' -> Permutation (filter p l) (filter p l').
Proof.
  induction 1 as [|x l l' _ IH|x y l|l l' l'' _ IH1 _ IH2]; simpl.
  - constructor.
  - destruct (p x); [now constructor|exact IH].
  - destruct (p x), (p y); try apply Permutation_refl. apply perm_swap.
  - now transitivity (filter p l').
Qed.


Lemma sort_detalle_perm (df : list detalle_row) :
  Permutation (_sort_detalle_by_item df) df.
Proof.
  unfold _sort_detalle_by_item. destruct df; [constructor|apply sorted_perm].
Qed.

Lemma groupby_sum_keys (df : list detalle_row) :
  map key_of (groupby_sum df)
  = sorted key_lt (fun k => k) (dedup_by key_eqb (map key_of (dropna df))).
Proof.
  unfold groupby_sum. rewrite map_map.
  rewrite (map_ext _ (fun k => k)); [apply map_id|].
  now intros [a b].
Qed.


Lemma groupby_sum_key_In (df : list detalle_row) (k : cell * option string) :
  In k (map key_of (groupby_sum df)) <-> In k (map key_of (dropna df)).
Proof.
  rewrite groupby_sum_keys, sorted_In. apply dedup_by_In, key_eqb_eq.
Qed.




Lemma dropna_fill_cantidad (df : list detalle_row) :
  dropna (fill_cantidad df) = fill_cantidad (dropna df).
Proof.
  unfold dropna, fill_cantidad. now apply filter_map_swap.
Qed.

Lemma dropna_In (df : list detalle_row) (r : detalle_row) :
  In r (dropna df) <-> In r df /\ present (key_of r).
Proof.
  unfold dropna, present, key_of. rewrite filter_In, andb_true_iff, negb_true_iff.
  cbn [fst snd]. destruct (Codigo r); intuition congruence.
Qed.



Lemma is_empty_true_nil {A : Type} (l : list A) :
  is_empty l = true -> l = [].
Proof. now destruct l. Qed.

(** *** The pairs a table writes to the file *)

Lemma to_csv_keys (df : list detalle_row) :
  map (fun r => (file_item r, file_Codigo r)) (PresupuestoUtils.to_csv_detalle df)
  = map text_of_key (map key_of df).
Proof.
  unfold PresupuestoUtils.to_csv_detalle. rewrite !map_map. reflexivity.
Qed.


Lemma NoDup_map_eq {A B : Type} (f : A -> B) (l : list A) (a b : A) :
  NoDup (map f l) -> In a l -> In b l -> f a = f b -> a = b.
Proof.
  induction l as [|x l IH]; simpl; [easy|].
  intros H. inversion H as [|? ? Hx Hnd]; subst.
  intros [<-|Ha] [<-|Hb] E; auto.
  - exfalso. apply Hx. rewrite E. now apply in_map.
  - exfalso. apply Hx. rewrite <- E. now apply in_map.
Qed.




(** In a table that writes each pair once, rows with the same written
    pair are the same row. *)
Lemma invariant_rows (df : list detalle_row) (a b : detalle_row) :
  detalle_invariant (PresupuestoUtils.to_csv_detalle df) ->
  In a df -> In b df ->
  text_of_key (key_of a) = text_of_key (key_of b) -> a = b.
Proof.
  unfold detalle_invariant. rewrite to_csv_keys, map_map. intros H.
  now apply (NoDup_map_eq (fun r => text_of_key (key_of r))).
Qed.

(** The pairs of two rows that hold strings print as they are. *)
Lemma text_of_key_str (a b : detalle_row) :
  present (key_of a) -> present (key_of b) ->
  (forall repr, item a <> Num repr) -> (forall repr, item b <> Num repr) ->
  text_of_key (key_of a) = text_of_key (key_of b) -> key_of a = key_of b.
Proof.
  unfold present, key_of, text_of_key. cbn [fst snd].
  destruct (item a) as [x|x|], (item b) as [y|y|], (Codigo a), (Codigo b);
    cbn [isna PresupuestoUtils.to_csv_cell];
    intros [Ha1 Ha2] [Hb1 Hb2] Na Nb E;
    try congruence; try discriminate;
    exfalso; solve [now apply (Nb y) | now apply (Na x)].
Qed.
End DetalleFacts.

(** C9 (where the code departs from it).  A rename does not always
    leave one row per pair.  [load_presupuesto] reads [detalle.csv]
    without a dtype, so the item codes ["1.01"] and ["1.02"] are held as
    numbers.  Renaming item ["1.02"] to ["1.01"] assigns the string
    ["1.01"] into that column: pandas 3 raises [TypeError] and nothing
    is written; pandas 2 keeps the number 1.01 and the string ["1.01"]
    side by side, [groupby] takes them for two different items, and the
    file that is written has the pair (1.01, A) in two rows, although
    the file that was read had each pair once. *)
Theorem rename_breaks_detalle_invariant :
  ModificarPresupuesto.detalle_invariant
    [Tables.mk_detalle_csv "1.01" "A" (Some 1%Q);
     Tables.mk_detalle_csv "1.02" "A" (Some 2%Q)]
  /\ PresupuestoUtils.read_csv_detalle
       [Tables.mk_detalle_csv "1.01" "A" (Some 1%Q);
        Tables.mk_detalle_csv "1.02" "A" (Some 2%Q)]
     = Some (Tables.Float64Dtype,
             [Tables.mk_detalle (Tables.Num "1.01") (Some "A") (Some 1%Q);
              Tables.mk_detalle (Tables.Num "1.02") (Some "A") (Some 2%Q)])
  /\ ModificarPresupuesto._rename_item_and_consolidate
       Tables.Pandas3 Tables.Float64Dtype
       [Tables.mk_detalle (Tables.Num "1.01") (Some "A") (Some 1%Q);
        Tables.mk_detalle (Tables.Num "1.02") (Some "A") (Some 2%Q)]
       "1.02" "1.01"
     = None
  /\ (exists det_updated,
        ModificarPresupuesto._rename_item_and_consolidate
          Tables.Pandas2 Tables.Float64Dtype
          [Tables.mk_detalle (Tables.Num "1.01") (Some "A") (Some 1%Q);
           Tables.mk_detalle (Tables.Num "1.02") (Some "A") (Some 2%Q)]
          "1.02" "1.01"
        = Some det_updated
        /\ map Tables.item det_updated = [Tables.Num "1.01"; Tables.Str "1.01"]
        /\ map (fun r => (Tables.file_item r, Tables.file_Codigo r))
               (PresupuestoUtils.to_csv_detalle det_updated)
           = [("1.01", "A"); ("1.01", "A")]
        /\ ~ ModificarPresupuesto.detalle_invariant
               (PresupuestoUtils.to_csv_detalle det_updated)).
Proof.
  split; [|split; [reflexivity|split; [reflexivity|]]].
  - unfold ModificarPresupuesto.detalle_invariant. simpl.
    repeat constructor; simpl; intuition discriminate.
  - eexists. split; [vm_compute; reflexivity|].
    split; [reflexivity|]. split; [reflexivity|].
    unfold ModificarPresupuesto.detalle_invariant. simpl.
    intros H. inversion H as [|? ? Hnot _]. apply Hnot. now left.
Qed.

(** ** Codes through the loader *)

(** C3 (where the code departs from it).  [crear_detallado] pins the
    [Item] column to strings and gives every code back as it was stored.
    [load_presupuesto] and [crear_pdf] read the column without a dtype:
    a table whose codes all look like numbers is held as numbers, so
    ["1.01"] is kept as the float 1.01 and the stored code ["1.10"]
    comes back as ["1.1"], ["2.00"] as ["2.0"] and ["01"] as ["1"]. *)
Theorem load_presupuesto_coerces_codes :
  (forall cells,
      PresupuestoUtils.save_presupuesto (PresupuestoUtils.read_csv_str cells) = cells)
  /\ PresupuestoUtils.load_presupuesto (Some ["1.01"])
     = Some (Tables.Float64Dtype, ["1.01"])
  /\ PresupuestoUtils.load_presupuesto (Some ["1.10"])
     = Some (Tables.Float64Dtype, ["1.1"])
  /\ option_map PresupuestoUtils.save_presupuesto
       (PresupuestoUtils.load_presupuesto (Some ["1.10"; "2.00"]))
     = Some ["1.1"; "2.0"]
  /\ option_map PresupuestoUtils.save_presupuesto
       (PresupuestoUtils.load_presupuesto (Some ["01"; "2"]))
     = Some ["1"; "2"]
  /\ option_map PresupuestoUtils.save_presupuesto
       (PresupuestoUtils.load_presupuesto (Some ["1.10"; "1.10.01"]))
     = Some ["1.10"; "1.10.01"].
Proof. repeat split; reflexivity. Qed.

(** ** Grouping a list under owners *)

Section GroupingFacts.
Context {A B : Type}.
Variable rel : B -> A -> bool.

Lemma flat_map_pointwise_perm (f g : B -> list A) (ps : list B) :
  (forall p, Permutation (f p) (g p)) ->
  Permutation (flat_map f ps) (flat_map g ps).
Proof.
  intros H. induction ps as [|p ps IH]; simpl; [constructor|].
  now apply Permutation_app.
Qed.

Lemma flat_map_no_owner (x : A) (ps : list B) :
  (forall p, In p ps -> rel p x = false) ->
  flat_map (fun p => if rel p x then [x] else []) ps = []
  /\ existsb (fun p => rel p x) ps = false.
Proof.
  induction ps as [|p ps IH]; intros H; simpl; [split; reflexivity|].
  rewrite (H p) by now left. simpl. apply IH. intros q Hq. apply H. now right.
Qed.

Lemma flat_map_one_owner (x : A) (ps : list B) (o : B) :
  NoDup ps ->
  (forall p, In p ps -> rel p x = true -> p = o) ->
  flat_map (fun p => if rel p x then [x] else []) ps
  = if existsb (fun p => rel p x) ps then [x] else [].
Proof.
  induction 1 as [|p ps Hnot Hnd IH]; intros H; simpl; [reflexivity|].
  destruct (rel p x) eqn:E; simpl.
  - assert (p = o) as -> by (apply H; [now left|exact E]).
    destruct (flat_map_no_owner x ps) as [-> _]; [|reflexivity].
    intros q Hq. apply not_true_is_false. intros Eq.
    apply Hnot. rewrite <- (H q); [exact Hq|now right|exact Eq].
  - apply IH. intros q Hq. apply H. now right.
Qed.

Lemma flat_map_filter_cons (x : A) (xs : list A) (ps : list B) :
  Permutation (flat_map (fun p => filter (rel p) (x :: xs)) ps)
              (flat_map (fun p => if rel p x then [x] else []) ps
               ++ flat_map (fun p => filter (rel p) xs) ps).
Proof.
  induction ps as [|p ps IH]; simpl; [constructor|].
  rewrite IH. destruct (rel p x); simpl.
  - apply perm_skip. apply Permutation_app_swap_app.
  - apply Permutation_app_swap_app.
Qed.

Variable sel : A -> bool.
Variable owner : A -> B.

(** When every selected element has exactly one owner in [ps], and
    nothing else has one, listing the elements owner by owner is a
    rearrangement of the selected elements. *)
Lemma grouped_perm (ps : list B) (xs : list A) :
  NoDup ps ->
  (forall x, In x xs -> sel x = true ->
             In (owner x) ps /\ rel (owner x) x = true) ->
  (forall p x, In p ps -> In x xs -> rel p x = true ->
               sel x = true /\ p = owner x) ->
  Permutation (flat_map (fun p => filter (rel p) xs) ps) (filter sel xs).
Proof.
  intros Hnd. induction xs as [|x xs IH]; intros Hsel Hrel.
  - simpl. clear. induction ps; simpl; [constructor|assumption].
  - rewrite flat_map_filter_cons.
    rewrite (flat_map_one_owner x ps (owner x) Hnd).
    2:{ intros p Hp E. now apply (Hrel p x Hp (or_introl eq_refl)). }
    assert (existsb (fun p => rel p x) ps = sel x) as ->.
    { destruct (sel x) eqn:S.
      - apply existsb_exists. exists (owner x).
        now apply Hsel; [left|].
      - apply not_true_is_false. intros E. apply existsb_exists in E.
        destruct E as (p & Hp & E).
        destruct (Hrel p x Hp (or_introl eq_refl) E). congruence. }
    simpl. rewrite IH.
    + destruct (sel x); reflexivity.
    + intros y Hy. apply Hsel. now right.
    + intros p y Hp Hy. apply Hrel; [exact Hp|now right].
Qed.
End GroupingFacts.

(** ** Floats that may be NaN *)

Section FloatFacts.
Import Tables.
Local Open Scope Q_scope.

Lemma feq_refl (a : pyfloat) : feq a a.
Proof. destruct a; simpl; [reflexivity|exact I]. Qed.

Lemma feq_sym (a b : pyfloat) : feq a b -> feq b a.
Proof. destruct a, b; simpl; auto. intros H. now symmetry. Qed.

Lemma feq_trans (a b c : pyfloat) : feq a b -> feq b c -> feq a c.
Proof.
  destruct a, b, c; simpl; auto; try contradiction.
  intros H1 H2. now transitivity q0.
Qed.

#[local] Instance feq_equiv : Equivalence feq.
Proof. split; [exact feq_refl|exact feq_sym|exact feq_trans]. Qed.

#[local] Instance fadd_proper : Proper (feq ==> feq ==> feq) fadd.
Proof.
  intros [a|] [b|] H1 [c|] [d|] H2; simpl in *; auto; try contradiction.
  now rewrite H1, H2.
Qed.

Lemma fadd_comm (a b : pyfloat) : feq (fadd a b) (fadd b a).
Proof. destruct a, b; simpl; auto. apply Qplus_comm. Qed.

Lemma fadd_assoc (a b c : pyfloat) : feq (fadd a (fadd b c)) (fadd (fadd a b) c).
Proof. destruct a, b, c; simpl; auto. apply Qplus_assoc. Qed.

Lemma fadd_0_r (a : pyfloat) : feq (fadd a (Some 0)) a.
Proof. destruct a; simpl; auto. apply Qplus_0_r. Qed.

Lemma fadd_0_l (a : pyfloat) : feq (fadd (Some 0) a) a.
Proof. destruct a; simpl; auto. apply Qplus_0_l. Qed.

Lemma fsum_cons (a : pyfloat) (l : list pyfloat) :
  fsum (a :: l) = fadd a (fsum l).
Proof. reflexivity. Qed.

Lemma fsum_app (a b : list pyfloat) : feq (fsum (a ++ b)) (fadd (fsum a) (fsum b)).
Proof.
  induction a as [|x a IH]; simpl.
  - symmetry. apply fadd_0_l.
  - unfold fsum in *. rewrite IH. apply fadd_assoc.
Qed.

Lemma fsum_perm (a b : list pyfloat) : Permutation a b -> feq (fsum a) (fsum b).
Proof.
  unfold fsum. induction 1; simpl.
  - reflexivity.
  - now rewrite IHPermutation.
  - rewrite !fadd_assoc. now rewrite (fadd_comm y x).
  - now transitivity (fold_right fadd (Some 0) l').
Qed.

Lemma fsum_map_ext {X : Type} (f g : X -> pyfloat) (l : list X) :
  (forall x, In x l -> feq (f x) (g x)) -> feq (fsum (map f l)) (fsum (map g l)).
Proof.
  unfold fsum. induction l as [|x l IH]; intros H; simpl; [reflexivity|].
  rewrite (H x) by now left. rewrite IH; [reflexivity|].
  intros y Hy. apply H. now right.
Qed.


Lemma or_float_feq (x : pyfloat) : feq (or_float x 0) x.
Proof.
  destruct x as [q|]; simpl; [|exact I].
  destruct (Qeq_bool q 0) eqn:E; simpl; [|reflexivity].
  apply Qeq_bool_iff in E. now symmetry.
Qed.
End FloatFacts.

(** ** The grand total of the reports *)

Section RollupFacts.
Import PyStr PySort Tables.
Local Open Scope Q_scope.
Existing Instance feq_equiv.
Existing Instance fadd_proper.

Variable df_datos : list datos_row.
Variable precios_item : dict Q.
Hypothesis Hnd : NoDup (map Item df_datos).

Lemma loc_not_in (df : list datos_row) (child : string) :
  ~ In child (map Item df) -> loc df child = [].
Proof.
  intros H. apply filter_none, Forall_forall. intros r Hr.
  apply String.eqb_neq. intros E. apply H. rewrite <- E. now apply in_map.
Qed.

Lemma loc_unique (child : string) :
  loc df_datos child = []
  \/ exists r, loc df_datos child = [r] /\ In r df_datos /\ Item r = child.
Proof.
  induction df_datos as [|r df IH]; [now left|].
  inversion Hnd as [|? ? Hnot Hnd']; subst. simpl.
  destruct (String.eqb_spec (Item r) child) as [E|N].
  - right. exists r. rewrite loc_not_in by now rewrite <- E.
    repeat split; auto.
  - destruct (IH Hnd') as [H|(r' & H1 & H2 & H3)]; [now left|].
    right. exists r'. repeat split; auto.
Qed.

Lemma loc_row (r : datos_row) : In r df_datos -> loc df_datos (Item r) = [r].
Proof.
  intros Hr. assert (In r (loc df_datos (Item r))) as Hin.
  { apply filter_In. split; [exact Hr|apply String.eqb_refl]. }
  destruct (loc_unique (Item r)) as [H|(r' & H & _)]; rewrite H in Hin.
  - contradiction.
  - destruct Hin as [<-|[]]. exact H.
Qed.

Lemma in_index_loc (child : string) :
  CrearPdf.in_index ObjectDtype df_datos child = false ->
  loc df_datos child = [].
Proof.
  unfold CrearPdf.in_index. simpl. intros H.
  apply filter_none, Forall_forall. intros r Hr.
  apply not_true_is_false. intros E.
  rewrite <- not_true_iff_false in H. apply H.
  apply existsb_exists. now exists r.
Qed.

Lemma in_index_true_loc (child : string) :
  CrearPdf.in_index ObjectDtype df_datos child = true ->
  exists r, loc df_datos child = [r].
Proof.
  unfold CrearPdf.in_index. simpl. intros H.
  apply existsb_exists in H. destruct H as (r & Hr & E).
  apply String.eqb_eq in E. subst child. exists r. now apply loc_row.
Qed.

Lemma label_total_row (f : datos_row -> pyfloat) (r : datos_row) :
  In r df_datos -> feq (label_total df_datos f (Item r)) (f r).
Proof.
  intros Hr. unfold label_total. rewrite (loc_row r Hr). simpl.
  apply fadd_0_r.
Qed.

Lemma detallado_loop_sum (factor : Q) (childs : list string) (t : pyfloat) :
  exists t',
    CrearDetallado.loop_childs df_datos precios_item factor childs (Some t) = Some t'
    /\ feq t' (fadd t (fsum (map (label_total df_datos
                 (CrearDetallado.total_child precios_item factor)) childs))).
Proof.
  revert t. induction childs as [|c cs IH]; intros t.
  - exists t. split; [reflexivity|]. simpl. symmetry. apply fadd_0_r.
  - unfold CrearDetallado.loop_childs in *. cbn [fold_left map].
    unfold label_total at 1.
    rewrite fsum_cons.
    destruct (loc_unique c) as [H|(r & H & _)]; rewrite H.
    + destruct (IH t) as (t' & E & F). exists t'. split; [exact E|].
      change (fsum (map _ [])) with (Some 0). now rewrite fadd_0_l.
    + destruct (IH (fadd t (CrearDetallado.total_child precios_item factor r)))
        as (t' & E & F).
      exists t'. split; [exact E|]. rewrite F.
      change (fsum (map ?f [r])) with (fadd (f r) (Some 0)).
      rewrite fadd_0_r. symmetry. apply fadd_assoc.
Qed.

Lemma pdf_parent_sum (childs : list string) (t : pyfloat) :
  exists t',
    fold_left (fun acc child =>
      match acc with
      | None => None
      | Some t =>
          if negb (CrearPdf.in_index ObjectDtype df_datos child) then Some t
          else match loc df_datos child with
               | [row] => Some (fadd t (CrearPdf.total_child precios_item row))
               | _ => None
               end
      end) childs (Some t) = Some t'
    /\ feq t' (fadd t (fsum (map (label_total df_datos
                 (CrearPdf.total_child precios_item)) childs))).
Proof.
  revert t. induction childs as [|c cs IH]; intros t.
  - exists t. split; [reflexivity|]. simpl. symmetry. apply fadd_0_r.
  - cbn [fold_left map]. unfold label_total at 1. rewrite fsum_cons.
    destruct (CrearPdf.in_index ObjectDtype df_datos c) eqn:I; cbn [negb].
    + destruct (in_index_true_loc c I) as (r & H). rewrite H.
      destruct (IH (fadd t (CrearPdf.total_child precios_item r)))
        as (t' & E & F).
      exists t'. split; [exact E|]. rewrite F.
      change (fsum (map ?f [r])) with (fadd (f r) (Some 0)).
      rewrite fadd_0_r. symmetry. apply fadd_assoc.
    + rewrite (in_index_loc c I).
      destruct (IH t) as (t' & E & F). exists t'. split; [exact E|].
      change (fsum (map _ [])) with (Some 0). now rewrite fadd_0_l.
Qed.

Lemma pdf_total_parent_sum (childs : list string) :
  exists tp,
    CrearPdf.total_parent ObjectDtype df_datos precios_item childs = Some tp
    /\ feq tp (fsum (map (label_total df_datos (CrearPdf.total_child precios_item)) childs)).
Proof.
  destruct (pdf_parent_sum childs (Some 0)) as (tp & E & F).
  exists tp. split; [exact E|]. rewrite F. apply fadd_0_l.
Qed.

Lemma pdf_first_child_ok (childs : list string) :
  CrearPdf.first_child_ok ObjectDtype df_datos childs = true.
Proof.
  destruct childs as [|c cs]; [reflexivity|]. simpl.
  destruct (CrearPdf.in_index ObjectDtype df_datos c) eqn:I; [|reflexivity].
  destruct (in_index_true_loc c I) as (r & ->). reflexivity.
Qed.
End RollupFacts.

Section RollupTotals.
Import PyStr PySort Tables.
Local Open Scope Q_scope.
Existing Instance feq_equiv.
Existing Instance fadd_proper.

Variable df_datos : list datos_row.
Variable precios_item : dict Q.
Hypothesis Hnd : NoDup (map Item df_datos).

Lemma detallado_outer_sum (factor : Q) (items parents : list string) (t : pyfloat) :
  exists t',
    fold_left (fun acc parent =>
      let childs := CrearDetallado._children_of_parent items parent in
      match childs with
      | [] => acc
      | _ => CrearDetallado.loop_childs df_datos precios_item factor childs acc
      end) parents (Some t) = Some t'
    /\ feq t' (fadd t (fsum (map (label_total df_datos
                                    (CrearDetallado.total_child precios_item factor))
                                 (flat_map (CrearDetallado._children_of_parent items)
                                           parents)))).
Proof.
  revert t. induction parents as [|p ps IH]; intros t.
  - exists t. split; [reflexivity|]. symmetry. apply fadd_0_r.
  - cbn [fold_left flat_map]. cbv zeta.
    assert (forall acc,
               match CrearDetallado._children_of_parent items p with
               | [] => acc
               | _ :: _ => CrearDetallado.loop_childs df_datos precios_item factor
                             (CrearDetallado._children_of_parent items p) acc
               end
               = CrearDetallado.loop_childs df_datos precios_item factor
                   (CrearDetallado._children_of_parent items p) acc) as ->.
    { intros acc. now destruct (CrearDetallado._children_of_parent items p). }
    destruct (detallado_loop_sum df_datos precios_item Hnd factor
                (CrearDetallado._children_of_parent items p) t) as (t1 & E1 & F1).
    rewrite E1. destruct (IH t1) as (t' & E & F).
    exists t'. split; [exact E|].
    rewrite F, F1, map_app, fsum_app. symmetry. apply fadd_assoc.
Qed.

Lemma pdf_outer_sum (items parents : list string) (t : pyfloat) :
  exists t',
    fold_left (fun acc parent =>
      match acc with
      | None => None
      | Some total =>
          let childs := CrearPdf._children_of_parent items parent in
          match childs with
          | [] => Some total
          | _ =>
              if negb (CrearPdf.first_child_ok ObjectDtype df_datos childs) then None
              else match CrearPdf.total_parent ObjectDtype df_datos precios_item childs with
                   | None => None
                   | Some tp => Some (fadd total tp)
                   end
          end
      end) parents (Some t) = Some t'
    /\ feq t' (fadd t (fsum (map (label_total df_datos
                                    (CrearPdf.total_child precios_item))
                                 (flat_map (CrearPdf._children_of_parent items)
                                           parents)))).
Proof.
  revert t. induction parents as [|p ps IH]; intros t.
  - exists t. split; [reflexivity|]. symmetry. apply fadd_0_r.
  - cbn [fold_left flat_map]. cbv zeta.
    destruct (CrearPdf._children_of_parent items p) as [|c cs] eqn:C.
    + destruct (IH t) as (t' & E & F). exists t'. split; [exact E|].
      exact F.
    + rewrite (pdf_first_child_ok df_datos Hnd). cbn [negb].
      destruct (pdf_total_parent_sum df_datos precios_item Hnd (c :: cs))
        as (tp & Ep & Fp).
      rewrite Ep. destruct (IH (fadd t tp)) as (t' & E & F).
      exists t'. split; [exact E|].
      rewrite F, Fp, map_app, fsum_app. symmetry. apply fadd_assoc.
Qed.

Lemma detallado_grouping (items : list string) :
  Permutation (flat_map (CrearDetallado._children_of_parent items)
                        (CrearDetallado._collect_parents items))
              (filter dotted items).
Proof.
  etransitivity.
  - apply flat_map_pointwise_perm. intros p.
    unfold CrearDetallado._children_of_parent. cbv zeta. apply sorted_perm.
  - apply (grouped_perm (fun p it => startswith it (p ++ ".")%string)
                        dotted (fun it => hd "" (split dot it))).
    + apply detallado_parents_NoDup.
    + intros x Hx D. split.
      * apply detallado_parents_In. now exists x.
      * apply top_parent_iff; [apply hd_split_no_dot|].
        apply Nat.leb_le in D. now split.
    + intros p x Hp Hx R. apply detallado_parents_prefix in Hp.
      destruct Hp as [Hp _]. apply (top_parent_iff p x Hp) in R.
      destruct R as [R ->]. split; [now apply Nat.leb_le|reflexivity].
Qed.

Lemma pdf_grouping (items : list string) :
  Permutation (flat_map (CrearPdf._children_of_parent items)
                        (CrearPdf._collect_parents items))
              (filter dotted items).
Proof.
  etransitivity.
  - apply flat_map_pointwise_perm. intros p.
    unfold CrearPdf._children_of_parent. cbv zeta. apply sorted_perm.
  - apply (grouped_perm
             (fun p it => startswith it (p ++ ".")%string
                          && (count dot it =? count dot p + 1)%nat)
             dotted (fun it => join "." (removelast (split dot it)))).
    + apply pdf_parents_NoDup.
    + intros x Hx D. split.
      * apply pdf_parents_In. exists x. auto.
      * apply Nat.leb_le in D.
        destruct (proj2 (direct_parent_iff _ x) (conj D eq_refl)) as [H1 H2].
        rewrite H1. now apply Nat.eqb_eq.
    + intros p x Hp Hx R. apply andb_true_iff in R. destruct R as [R1 R2].
      apply Nat.eqb_eq in R2.
      destruct (proj1 (direct_parent_iff p x) (conj R1 R2)) as [H1 H2].
      split; [now apply Nat.leb_le|exact H2].
Qed.

(** Summing label by label over the dotted codes is summing row by row
    over the rows with a dotted code. *)
Lemma dotted_rows_sum (key : string -> list Z) (f : datos_row -> pyfloat) :
  feq (fsum (map (label_total df_datos f)
                 (filter dotted (sorted tuple_lt key (map Item df_datos)))))
      (fsum (map f (filter (fun r => dotted (Item r)) df_datos))).
Proof.
  rewrite (fsum_perm _ (map (label_total df_datos f)
                            (filter dotted (map Item df_datos)))).
  2:{ apply Permutation_map, filter_perm, sorted_perm. }
  rewrite (filter_map_swap dotted (fun r => dotted (Item r))) by reflexivity.
  rewrite map_map. apply fsum_map_ext. intros r Hr.
  apply filter_In in Hr. now apply label_total_row.
Qed.
End RollupTotals.

Lemma fmul_feq_r (a : Tables.pyfloat) (b c : Tables.pyfloat) :
  Tables.feq b c -> Tables.feq (Tables.fmul a b) (Tables.fmul a c).
Proof.
  destruct a, b, c; simpl; auto. intros H. now rewrite H.
Qed.

(** C1 (as the code has it).  With unique item codes held as strings,
    the grand total of both reports is the sum, over every item whose
    code contains a dot, of unit price times item quantity, whether the
    item has children or not; an item whose code has no dot is never
    added.  [crear_detallado] adds the converted unit price times the
    quantity, [crear_pdf] the unit price times the quantity. *)
Theorem total_presupuesto_sums_dotted_items (df_datos : list Tables.datos_row)
  (precios_item : Tables.dict Q) (factor_conversion : Q)
  (Hnd : NoDup (map Tables.Item df_datos)) :
  (exists t,
      CrearDetallado.total_presupuesto df_datos precios_item factor_conversion = Some t
      /\ Tables.feq t
           (Tables.fsum
              (map (fun r =>
                      Tables.fmul
                        (Some (CrearDetallado.punit_of precios_item factor_conversion
                                                       (Tables.Item r)))
                        (Tables.cantidad_numero r))
                   (filter (fun r => PyStr.dotted (Tables.Item r)) df_datos))))
  /\ (exists t,
         CrearPdf.total_presupuesto Tables.ObjectDtype df_datos precios_item = Some t
         /\ Tables.feq t
              (Tables.fsum
                 (map (Spec.line_total precios_item)
                      (filter (fun r => PyStr.dotted (Tables.Item r)) df_datos)))).
Proof.
  split.
  - unfold CrearDetallado.total_presupuesto. cbv zeta.
    destruct (detallado_outer_sum df_datos precios_item Hnd factor_conversion
                (PySort.sorted PySort.tuple_lt CrearDetallado._parse_key
                               (map Tables.Item df_datos))
                (CrearDetallado._collect_parents
                   (PySort.sorted PySort.tuple_lt CrearDetallado._parse_key
                                  (map Tables.Item df_datos)))
                (Some 0%Q)) as (t & E & F).
    exists t. split; [exact E|].
    eapply feq_trans; [exact F|].
    eapply feq_trans; [apply fadd_0_l|].
    eapply feq_trans;
      [apply fsum_perm, Permutation_map, detallado_grouping|].
    eapply feq_trans; [apply (dotted_rows_sum df_datos Hnd)|].
    apply fsum_map_ext. intros r _. unfold CrearDetallado.total_child.
    apply fmul_feq_r, or_float_feq.
  - unfold CrearPdf.total_presupuesto. cbv zeta.
    destruct (pdf_outer_sum df_datos precios_item Hnd
                (PySort.sorted PySort.tuple_lt CrearPdf._parse_key
                               (map Tables.Item df_datos))
                (CrearPdf._collect_parents
                   (PySort.sorted PySort.tuple_lt CrearPdf._parse_key
                                  (map Tables.Item df_datos)))
                (Some 0%Q)) as (t & E & F).
    exists t. split; [exact E|].
    eapply feq_trans; [exact F|].
    eapply feq_trans; [apply fadd_0_l|].
    eapply feq_trans;
      [apply fsum_perm, Permutation_map, pdf_grouping|].
    eapply feq_trans; [apply (dotted_rows_sum df_datos Hnd)|].
    apply fsum_map_ext. intros r _. unfold CrearPdf.total_child, Spec.line_total.
    apply fmul_feq_r, or_float_feq.
Qed.

Lemma total_presupuesto_sums_dotted_items_witness :
  NoDup (map Tables.Item
           [Tables.mk_datos "1.01" "Trazado" "GL" (Some 1%Q) "CLP";
            Tables.mk_datos "1.02" "Excavacion" "m3" (Some 1%Q) "CLP";
            Tables.mk_datos "2.01" "Hormigon" "m3" (Some 1%Q) "CLP"])
  /\ exists t,
      CrearDetallado.total_presupuesto
        [Tables.mk_datos "1.01" "Trazado" "GL" (Some 1%Q) "CLP";
         Tables.mk_datos "1.02" "Excavacion" "m3" (Some 1%Q) "CLP";
         Tables.mk_datos "2.01" "Hormigon" "m3" (Some 1%Q) "CLP"]
        [("1.01", 1000%Q); ("1.02", 2000%Q); ("2.01", 3000%Q)] 1 = Some t
      /\ Tables.feq t (Some 6000%Q).
Proof.
  assert (NoDup (map Tables.Item
           [Tables.mk_datos "1.01" "Trazado" "GL" (Some 1%Q) "CLP";
            Tables.mk_datos "1.02" "Excavacion" "m3" (Some 1%Q) "CLP";
            Tables.mk_datos "2.01" "Hormigon" "m3" (Some 1%Q) "CLP"])) as H.
  { simpl. repeat constructor; simpl; intuition discriminate. }
  split; [exact H|].
  destruct (proj1 (total_presupuesto_sums_dotted_items _
                     [("1.01", 1000%Q); ("1.02", 2000%Q); ("2.01", 3000%Q)] 1 H))
    as (t & E & F).
  exists t. split; [exact E|]. eapply feq_trans; [exact F|]. reflexivity.
Defined.

(** C1 as stated fails: an item without a dot is a leaf that the totals
    leave out, and an item with children is added although it is not a
    leaf.  Here the leaves ["1.01.01"] and ["3"] have line totals 100 and
    200, and both reports total 200 from ["1.01"] and ["1.01.01"]. *)
Lemma total_presupuesto_leaf_counterexample :
  let df_datos :=
    [Tables.mk_datos "1.01" "Obra gruesa" "GL" (Some 1%Q) "CLP";
     Tables.mk_datos "1.01.01" "Hormigon" "m3" (Some 1%Q) "CLP";
     Tables.mk_datos "3" "Aseo final" "GL" (Some 1%Q) "CLP"] in
  exists precios_item,
    Precios._compute_precio_unitario_por_item
      (Some [Tables.mk_detalle_csv "1.01" "X" (Some 1%Q);
             Tables.mk_detalle_csv "1.01.01" "X" (Some 1%Q);
             Tables.mk_detalle_csv "3" "X" (Some 2%Q)])
      [Tables.mk_maestro "X" (Some 100%Q)] = Some precios_item
    /\ CrearDetallado.total_presupuesto df_datos precios_item 1 = Some (Some 200%Q)
    /\ CrearPdf.total_presupuesto Tables.ObjectDtype df_datos precios_item
       = Some (Some 200%Q)
    /\ Spec.leaf_total df_datos precios_item = Some 300%Q
    /\ ~ Tables.feq (Some 200%Q) (Some 300%Q).
Proof.
  cbv zeta. eexists. split; [vm_compute; reflexivity|].
  repeat split; try reflexivity. simpl. discriminate.
Qed.

(** With the [Item] column held as numbers, as [pd.read_csv] without a
    dtype holds the codes of the specification's scenario, no child is
    found in the index and the PDF totals 0. *)
Example pdf_total_with_numeric_index :
  PresupuestoUtils.read_csv_infer ["1.01"; "1.02"; "2.01"]
  = Some (Tables.Float64Dtype, ["1.01"; "1.02"; "2.01"])
  /\ CrearPdf.total_presupuesto Tables.Float64Dtype
       [Tables.mk_datos "1.01" "Trazado" "GL" (Some 1%Q) "CLP";
        Tables.mk_datos "1.02" "Excavacion" "m3" (Some 1%Q) "CLP";
        Tables.mk_datos "2.01" "Hormigon" "m3" (Some 1%Q) "CLP"]
       [("1.01", 1000%Q); ("1.02", 2000%Q); ("2.01", 3000%Q)]
     = Some (Some 0%Q)
  /\ CrearDetallado.total_presupuesto
       [Tables.mk_datos "1.01" "Trazado" "GL" (Some 1%Q) "CLP";
        Tables.mk_datos "1.02" "Excavacion" "m3" (Some 1%Q) "CLP";
        Tables.mk_datos "2.01" "Hormigon" "m3" (Some 1%Q) "CLP"]
       [("1.01", 1000%Q); ("1.02", 2000%Q); ("2.01", 3000%Q)] 1
     = Some (Some 6000%Q).
Proof. repeat split; reflexivity. Qed.

(** * Further properties of the code *)

(** ** Order of a code and the codes below it *)

Section KeyOrderFacts.
Import PyStr PySort.

Lemma tuple_lt_app (a b : list Z) : b <> [] -> tuple_lt a (a ++ b) = true.
Proof.
induction a as [|x a IH]; intros Hb; simpl.
- destruct b; [contradiction|reflexivity].
- rewrite Z.ltb_irrefl. now apply IH.
Qed.

Lemma map_split_app (f : string -> Z) (p r : string) :
map f (split dot (p ++ String dot r)) = map f (split dot p) ++ map f (split dot r).
Proof. now rewrite split_app_dot, map_app. Qed.

Lemma key_of_descendant (f : string -> Z) (p c : string) :
startswith c (p ++ ".")%string = true ->
exists r, map f (split dot c) = map f (split dot p) ++ map f (split dot r).
Proof.
intros H. apply startswith_iff in H. destruct H as [r ->].
exists r. rewrite append_assoc. apply map_split_app.
Qed.

Lemma map_split_not_nil (f : string -> Z) (r : string) : map f (split dot r) <> [].
Proof.
intros H. apply map_eq_nil in H. now apply split_not_nil in H.
Qed.
End KeyOrderFacts.

(** X1.  In both report generators the ordering key of a code is a
    proper prefix of the key of every code that starts with it and a
    dot, so a code always sorts strictly before everything below it. *)
Theorem parse_key_parent_before_descendants (parent code : string)
  (Hpre : PyStr.startswith code (parent ++ ".")%string = true) :
  (exists k, k <> [] /\
             CrearDetallado._parse_key code = CrearDetallado._parse_key parent ++ k)
  /\ (exists k, k <> [] /\
                CrearPdf._parse_key code = CrearPdf._parse_key parent ++ k)
  /\ PySort.tuple_lt (CrearDetallado._parse_key parent)
                     (CrearDetallado._parse_key code) = true
  /\ PySort.tuple_lt (CrearPdf._parse_key parent) (CrearPdf._parse_key code) = true
  /\ PySort.tuple_lt (CrearDetallado._parse_key code)
                     (CrearDetallado._parse_key parent) = false
  /\ PySort.tuple_lt (CrearPdf._parse_key code) (CrearPdf._parse_key parent) = false.
Proof.
  unfold CrearDetallado._parse_key, CrearPdf._parse_key.
  destruct (key_of_descendant CrearDetallado.parse_segment parent code Hpre)
    as [r1 E1].
  destruct (key_of_descendant CrearPdf.parse_segment parent code Hpre)
    as [r2 E2].
  rewrite E1, E2.
  pose proof (map_split_not_nil CrearDetallado.parse_segment r1) as N1.
  pose proof (map_split_not_nil CrearPdf.parse_segment r2) as N2.
  repeat split; eauto using tuple_lt_app, tuple_lt_asym.
Qed.

Lemma parse_key_parent_before_descendants_witness :
  PySort.tuple_lt (CrearDetallado._parse_key "2.01")
                  (CrearDetallado._parse_key "2.01.03") = true
  /\ PySort.tuple_lt (CrearPdf._parse_key "2.01") (CrearPdf._parse_key "2.01.03") = true.
Proof.
  pose proof (parse_key_parent_before_descendants "2.01" "2.01.03" eq_refl)
    as (_ & _ & H1 & H2 & _).
  exact (conj H1 H2).
Defined.

(** ** The two ordering keys *)

Section KeyAgreementFacts.
Import PyStr PySort.

Lemma insert_key_ext {A K : Type} (lt : K -> K -> bool) (key1 key2 : A -> K)
  (x : A) (l : list A) :
key1 x = key2 x -> (forall y, In y l -> key1 y = key2 y) ->
insert lt key1 x l = insert lt key2 x l.
Proof.
intros Hx. induction l as [|y l IH]; intros H; simpl; [reflexivity|].
rewrite Hx, (H y) by now left.
destruct (lt (key2 y) (key2 x)); [|reflexivity].
f_equal. apply IH. intros z Hz. apply H. now right.
Qed.

Lemma sorted_key_ext {A K : Type} (lt : K -> K -> bool) (key1 key2 : A -> K)
  (l : list A) :
(forall x, In x l -> key1 x = key2 x) ->
sorted lt key1 l = sorted lt key2 l.
Proof.
induction l as [|x l IH]; intros H; simpl; [reflexivity|].
rewrite IH by (intros y Hy; apply H; now right).
apply insert_key_ext; [apply H; now left|].
intros y Hy. apply H. right. now apply (sorted_In lt key2 l y).
Qed.

Lemma parse_segment_agree (seg : string) :
int seg <> None -> CrearDetallado.parse_segment seg = CrearPdf.parse_segment seg.
Proof.
unfold CrearDetallado.parse_segment, CrearPdf.parse_segment.
destruct (int seg); [reflexivity|contradiction].
Qed.

Lemma parse_key_agree (code : string) :
Forall (fun seg => int seg <> None) (split dot code) ->
CrearDetallado._parse_key code = CrearPdf._parse_key code.
Proof.
unfold CrearDetallado._parse_key, CrearPdf._parse_key.
induction 1 as [|seg segs H _ IH]; simpl; [reflexivity|].
now rewrite IH, parse_segment_agree.
Qed.
End KeyAgreementFacts.

(** X2.  When [int] accepts every segment of every code, the two report
    generators give each code the same ordering key and put the items in
    the same order; when a segment is rejected the keys can differ only
    there, where [crear_detallado] has 0. *)
Theorem reports_order_items_alike (items : list string)
  (Hok : Forall (fun code => Forall (fun seg => PyStr.int seg <> None)
                                    (PyStr.split PyStr.dot code)) items) :
  (forall code, In code items ->
                CrearDetallado._parse_key code = CrearPdf._parse_key code)
  /\ PySort.sorted PySort.tuple_lt CrearDetallado._parse_key items
     = PySort.sorted PySort.tuple_lt CrearPdf._parse_key items
  /\ (forall seg, CrearDetallado.parse_segment seg <> CrearPdf.parse_segment seg ->
                  PyStr.int seg = None /\ CrearDetallado.parse_segment seg = 0%Z).
Proof.
  assert (forall code, In code items ->
            CrearDetallado._parse_key code = CrearPdf._parse_key code) as H.
  { intros code Hin. apply parse_key_agree.
    rewrite Forall_forall in Hok. now apply Hok. }
  split; [exact H|]. split; [now apply sorted_key_ext|].
  intros seg Hne. unfold CrearDetallado.parse_segment, CrearPdf.parse_segment in *.
  destruct (PyStr.int seg); [contradiction|]. now split.
Qed.

Lemma reports_order_items_alike_witness :
  PySort.sorted PySort.tuple_lt CrearDetallado._parse_key ["10"; "2.02"; "2"; "2.01"]
  = PySort.sorted PySort.tuple_lt CrearPdf._parse_key ["10"; "2.02"; "2"; "2.01"].
Proof.
  assert (Forall (fun code => Forall (fun seg => PyStr.int seg <> None)
                                     (PyStr.split PyStr.dot code))
                 ["10"; "2.02"; "2"; "2.01"]) as H.
  { repeat constructor; discriminate. }
  exact (proj1 (proj2 (reports_order_items_alike _ H))).
Defined.

(** ** More on the grand totals *)

Section TotalFacts.
Import PyStr PySort Tables.
Local Open Scope Q_scope.
Existing Instance feq_equiv.
Existing Instance fadd_proper.

Variable df_datos : list datos_row.
Variable precios_item : dict Q.

Lemma detallado_total_sum (factor : Q) :
NoDup (map Item df_datos) ->
exists t,
  CrearDetallado.total_presupuesto df_datos precios_item factor = Some t
  /\ feq t (fsum (map (CrearDetallado.total_child precios_item factor)
                      (filter (fun r => dotted (Item r)) df_datos))).
Proof.
intros Hnd. unfold CrearDetallado.total_presupuesto. cbv zeta.
destruct (detallado_outer_sum df_datos precios_item Hnd factor
            (sorted tuple_lt CrearDetallado._parse_key (map Item df_datos))
            (CrearDetallado._collect_parents
               (sorted tuple_lt CrearDetallado._parse_key (map Item df_datos)))
            (Some 0)) as (t & E & F).
exists t. split; [exact E|].
rewrite F, fadd_0_l.
rewrite (fsum_perm _ _ (Permutation_map _ (detallado_grouping _))).
apply (dotted_rows_sum df_datos Hnd).
Qed.

Lemma pdf_total_sum :
NoDup (map Item df_datos) ->
exists t,
  CrearPdf.total_presupuesto ObjectDtype df_datos precios_item = Some t
  /\ feq t (fsum (map (CrearPdf.total_child precios_item)
                      (filter (fun r => dotted (Item r)) df_datos))).
Proof.
intros Hnd. unfold CrearPdf.total_presupuesto. cbv zeta.
destruct (pdf_outer_sum df_datos precios_item Hnd
            (sorted tuple_lt CrearPdf._parse_key (map Item df_datos))
            (CrearPdf._collect_parents
               (sorted tuple_lt CrearPdf._parse_key (map Item df_datos)))
            (Some 0)) as (t & E & F).
exists t. split; [exact E|].
rewrite F, fadd_0_l.
rewrite (fsum_perm _ _ (Permutation_map _ (pdf_grouping _))).
apply (dotted_rows_sum df_datos Hnd).
Qed.

Lemma fsum_has_nan (l : list pyfloat) : In None l -> fsum l = None.
Proof.
induction l as [|x l IH]; [contradiction|]. intros [->|H]; rewrite fsum_cons.
- reflexivity.
- rewrite (IH H). now destruct x.
Qed.

Lemma feq_nan (t : pyfloat) : feq t None -> t = None.
Proof. now destruct t. Qed.

Lemma fsum_scale (f : Q) (l : list pyfloat) :
feq (fmul (fsum l) (Some f)) (fsum (map (fun x => fmul x (Some f)) l)).
Proof.
induction l as [|x l IH].
- simpl. apply Qmult_0_l.
- cbn [map]. rewrite !fsum_cons. rewrite <- IH.
  destruct x as [x|], (fsum l) as [s|]; simpl; auto. ring.
Qed.

Lemma fmul_feq_l (a b c : pyfloat) : feq a b -> feq (fmul a c) (fmul b c).
Proof. destruct a, b, c; simpl; auto. intros H. now rewrite H. Qed.
End TotalFacts.

(** X3.  In each report every item whose code has a dot is listed under
    exactly one parent, and an item without a dot under none: the
    children of all parents, taken together, are a rearrangement of the
    dotted codes of the item list, with their multiplicities. *)
Theorem sections_partition_dotted_items (items : list string) :
  Permutation (flat_map (CrearDetallado._children_of_parent items)
                        (CrearDetallado._collect_parents items))
              (filter PyStr.dotted items)
  /\ Permutation (flat_map (CrearPdf._children_of_parent items)
                           (CrearPdf._collect_parents items))
                 (filter PyStr.dotted items).
Proof. split; [apply detallado_grouping|apply pdf_grouping]. Qed.

Section NumericIndexFacts.
Import PyStr PySort Tables.
Local Open Scope Q_scope.
Existing Instance feq_equiv.
Existing Instance fadd_proper.

Variable item_dtype : dtype.
Variable df_datos : list datos_row.
Variable precios_item : dict Q.
Hypothesis Hnum : is_object item_dtype = false.

Lemma numeric_in_index (label : string) :
CrearPdf.in_index item_dtype df_datos label = false.
Proof. unfold CrearPdf.in_index. now rewrite Hnum. Qed.

Lemma numeric_total_parent (childs : list string) :
CrearPdf.total_parent item_dtype df_datos precios_item childs = Some (Some 0).
Proof.
unfold CrearPdf.total_parent. generalize (Some 0 : pyfloat).
induction childs as [|c cs IH]; intros t; cbn [fold_left]; [reflexivity|].
rewrite numeric_in_index. cbn [negb]. apply IH.
Qed.

Lemma numeric_first_child_ok (childs : list string) :
CrearPdf.first_child_ok item_dtype df_datos childs = true.
Proof.
destruct childs as [|c cs]; [reflexivity|]. simpl. now rewrite numeric_in_index.
Qed.
End NumericIndexFacts.

(** X4.  When pandas holds the [Item] column of [datos.csv] as numbers,
    [generar_pdf_presupuesto] finds no child in the index: whatever the
    items, quantities and prices are, it does not raise and its
    [TOTAL PRESUPUESTO] is 0. *)
Theorem pdf_total_zero_with_numeric_items (item_dtype : Tables.dtype)
  (df_datos : list Tables.datos_row) (precios_item : Tables.dict Q)
  (Hnum : Tables.is_object item_dtype = false) :
  exists t,
    CrearPdf.total_presupuesto item_dtype df_datos precios_item = Some t
    /\ Tables.feq t (Some 0%Q).
Proof.
  unfold CrearPdf.total_presupuesto. cbv zeta.
  generalize (CrearPdf._collect_parents
                (PySort.sorted PySort.tuple_lt CrearPdf._parse_key
                               (map Tables.Item df_datos))).
  intros parents.
  assert (forall t0, Tables.feq t0 (Some 0%Q) ->
            exists t,
              fold_left (fun acc parent =>
                match acc with
                | None => None
                | Some total =>
                    match CrearPdf._children_of_parent
                            (PySort.sorted PySort.tuple_lt CrearPdf._parse_key
                                           (map Tables.Item df_datos)) parent with
                    | [] => Some total
                    | c :: cs =>
                        if negb (CrearPdf.first_child_ok item_dtype df_datos
                                   (CrearPdf._children_of_parent
                                      (PySort.sorted PySort.tuple_lt CrearPdf._parse_key
                                                     (map Tables.Item df_datos)) parent))
                        then None
                        else match CrearPdf.total_parent item_dtype df_datos precios_item
                                     (CrearPdf._children_of_parent
                                        (PySort.sorted PySort.tuple_lt CrearPdf._parse_key
                                                       (map Tables.Item df_datos)) parent) with
                             | None => None
                             | Some tp => Some (Tables.fadd total tp)
                             end
                    end
                end) parents (Some t0) = Some t
              /\ Tables.feq t (Some 0%Q)) as H.
  { induction parents as [|p ps IH]; intros t0 H0.
    - exists t0. now split.
    - cbn [fold_left].
      rewrite (numeric_first_child_ok item_dtype df_datos Hnum),
              (numeric_total_parent item_dtype df_datos precios_item Hnum).
      cbn [negb].
      destruct (CrearPdf._children_of_parent _ p); apply IH; [exact H0|].
      eapply feq_trans; [apply fadd_0_r|exact H0]. }
  apply (H (Some 0%Q)). reflexivity.
Qed.

Lemma pdf_total_zero_with_numeric_items_witness :
  exists t,
    CrearPdf.total_presupuesto Tables.Float64Dtype
      [Tables.mk_datos "1.01" "Trazado" "GL" (Some 1%Q) "CLP";
       Tables.mk_datos "1.02" "Excavacion" "m3" (Some 1%Q) "CLP";
       Tables.mk_datos "2.01" "Hormigon" "m3" (Some 1%Q) "CLP"]
      [("1.01", 1000%Q); ("1.02", 2000%Q); ("2.01", 3000%Q)] = Some t
    /\ Tables.feq t (Some 0%Q).
Proof. apply pdf_total_zero_with_numeric_items. reflexivity. Defined.

Lemma detallado_child_unconverted (precios_item : Tables.dict Q) (factor : Q)
  (r : Tables.datos_row) :
  ((factor <= 0)%Q \/ (factor == 1)%Q) ->
  Tables.feq (CrearDetallado.total_child precios_item factor r)
             (CrearPdf.total_child precios_item r).
Proof.
  intros H. unfold CrearDetallado.total_child, CrearPdf.total_child.
  apply fmul_feq_l. unfold CrearDetallado.punit_of. simpl.
  destruct (Qle_bool factor 0) eqn:E; simpl; [reflexivity|].
  destruct H as [H|H]; [apply Qle_bool_iff in H; congruence|].
  rewrite H. field.
Qed.

(** X5.  In exact arithmetic: for a project whose conversion factor is
    1 (CLP) or not positive, and whose item codes are unique and held as
    strings, the Excel report and the PDF report end with the same grand
    total.  (The two reports add the same line totals in a different
    order, so in floating point the totals can differ in the last
    digit.) *)
Theorem excel_and_pdf_totals_agree (df_datos : list Tables.datos_row)
  (precios_item : Tables.dict Q) (factor_conversion : Q)
  (Hnd : NoDup (map Tables.Item df_datos))
  (Hfac : (factor_conversion <= 0)%Q \/ (factor_conversion == 1)%Q) :
  exists te tp,
    CrearDetallado.total_presupuesto df_datos precios_item factor_conversion = Some te
    /\ CrearPdf.total_presupuesto Tables.ObjectDtype df_datos precios_item = Some tp
    /\ Tables.feq te tp.
Proof.
  destruct (detallado_total_sum df_datos precios_item factor_conversion Hnd)
    as (te & Ee & Fe).
  destruct (pdf_total_sum df_datos precios_item Hnd) as (tp & Ep & Fp).
  exists te, tp. repeat split; try assumption.
  eapply feq_trans; [exact Fe|]. eapply feq_trans; [|apply feq_sym; exact Fp].
  apply fsum_map_ext. intros r _. now apply detallado_child_unconverted.
Qed.

Lemma excel_and_pdf_totals_agree_witness :
  exists te tp,
    CrearDetallado.total_presupuesto
      [Tables.mk_datos "1.01" "Trazado" "GL" (Some 2%Q) "CLP";
       Tables.mk_datos "1.01.01" "Estacas" "un" (Some 3%Q) "CLP"]
      [("1.01", 1000%Q); ("1.01.01", 10%Q)] 1 = Some te
    /\ CrearPdf.total_presupuesto Tables.ObjectDtype
         [Tables.mk_datos "1.01" "Trazado" "GL" (Some 2%Q) "CLP";
          Tables.mk_datos "1.01.01" "Estacas" "un" (Some 3%Q) "CLP"]
         [("1.01", 1000%Q); ("1.01.01", 10%Q)] = Some tp
    /\ Tables.feq te tp.
Proof.
  apply excel_and_pdf_totals_agree.
  - simpl. repeat constructor; simpl; intuition discriminate.
  - right. reflexivity.
Defined.

(** X6.  In exact arithmetic: the conversion of
    [generar_excel_detallado] acts on the grand total as a whole.  With
    unique item codes and a positive factor, the total times the factor
    is the total the same tables give with factor 1. *)
Theorem excel_total_scales_with_factor (df_datos : list Tables.datos_row)
  (precios_item : Tables.dict Q) (factor_conversion : Q)
  (Hnd : NoDup (map Tables.Item df_datos))
  (Hpos : (0 < factor_conversion)%Q) :
  exists tf t1,
    CrearDetallado.total_presupuesto df_datos precios_item factor_conversion = Some tf
    /\ CrearDetallado.total_presupuesto df_datos precios_item 1 = Some t1
    /\ Tables.feq (Tables.fmul tf (Some factor_conversion)) t1.
Proof.
  destruct (detallado_total_sum df_datos precios_item factor_conversion Hnd)
    as (tf & Ef & Ff).
  destruct (detallado_total_sum df_datos precios_item 1 Hnd) as (t1 & E1 & F1).
  exists tf, t1. repeat split; try assumption.
  eapply feq_trans; [apply fmul_feq_l; exact Ff|].
  eapply feq_trans; [apply fsum_scale|].
  eapply feq_trans; [|apply feq_sym; exact F1].
  rewrite map_map. apply fsum_map_ext. intros r _.
  unfold CrearDetallado.total_child, CrearDetallado.punit_of.
  assert (Qle_bool factor_conversion 0 = false) as ->.
  { apply not_true_is_false. intros H. apply Qle_bool_iff in H.
    now apply Qlt_not_le in Hpos. }
  simpl.
  destruct (Tables.or_float (Tables.cantidad_numero r) 0) as [c|]; simpl; [|exact I].
  field. intros H. rewrite H in Hpos. now apply Qlt_irrefl in Hpos.
Qed.

Lemma excel_total_scales_with_factor_witness :
  exists tf t1,
    CrearDetallado.total_presupuesto
      [Tables.mk_datos "1.01" "Trazado" "GL" (Some 2%Q) "UF"]
      [("1.01", 80000%Q)] 40000 = Some tf
    /\ CrearDetallado.total_presupuesto
         [Tables.mk_datos "1.01" "Trazado" "GL" (Some 2%Q) "UF"]
         [("1.01", 80000%Q)] 1 = Some t1
    /\ Tables.feq (Tables.fmul tf (Some 40000%Q)) t1.
Proof.
  apply excel_total_scales_with_factor.
  - simpl. repeat constructor; simpl; intuition discriminate.
  - reflexivity.
Defined.

(** X7.  A quantity that is not a number is not counted as 0 by the
    reports.  If the item codes are unique and an item with a dotted code
    has a missing or non-numeric [cantidad numero], the grand total of
    the Excel report is NaN, and so is the grand total of the PDF report
    when pandas holds its [Item] column as strings.  (When pandas holds
    that column as numbers the PDF report finds no item and totals
    0.) *)
Theorem nan_quantity_poisons_total (df_datos : list Tables.datos_row)
  (precios_item : Tables.dict Q) (factor_conversion : Q) (r : Tables.datos_row)
  (Hnd : NoDup (map Tables.Item df_datos))
  (Hin : In r df_datos)
  (Hdot : PyStr.dotted (Tables.Item r) = true)
  (Hnan : Tables.cantidad_numero r = None) :
  CrearDetallado.total_presupuesto df_datos precios_item factor_conversion
  = Some None
  /\ CrearPdf.total_presupuesto Tables.ObjectDtype df_datos precios_item
     = Some None.
Proof.
  destruct (detallado_total_sum df_datos precios_item factor_conversion Hnd)
    as (te & Ee & Fe).
  destruct (pdf_total_sum df_datos precios_item Hnd) as (tp & Ep & Fp).
  rewrite Ee, Ep.
  rewrite fsum_has_nan in Fe, Fp.
  - apply feq_nan in Fe, Fp. now subst.
  - apply in_map_iff. exists r. split.
    + unfold CrearPdf.total_child. now rewrite Hnan.
    + apply filter_In. now split.
  - apply in_map_iff. exists r. split.
    + unfold CrearDetallado.total_child. now rewrite Hnan.
    + apply filter_In. now split.
Qed.

Lemma nan_quantity_poisons_total_witness :
  CrearDetallado.total_presupuesto
    [Tables.mk_datos "1.01.01" "Trazado" "GL" (Some 2%Q) "CLP";
     Tables.mk_datos "1.01.02" "Cierre" "ml" None "CLP"]
    [("1.01.01", 1000%Q); ("1.01.02", 10%Q)] 1 = Some None
  /\ CrearPdf.total_presupuesto Tables.ObjectDtype
       [Tables.mk_datos "1.01.01" "Trazado" "GL" (Some 2%Q) "CLP";
        Tables.mk_datos "1.01.02" "Cierre" "ml" None "CLP"]
       [("1.01.01", 1000%Q); ("1.01.02", 10%Q)] = Some None.
Proof.
  apply (nan_quantity_poisons_total _ _ 1
           (Tables.mk_datos "1.01.02" "Cierre" "ml" None "CLP")).
  - simpl. repeat constructor; simpl; intuition discriminate.
  - simpl. auto.
  - reflexivity.
  - reflexivity.
Defined.

(** ** Item codes that occur twice *)

Section DuplicateFacts.
Import PyStr PySort Tables.

Variable df_datos : list datos_row.
Variable precios_item : dict Q.
Variable x : string.
Hypothesis Hdot : dotted x = true.
Hypothesis Hdup : (2 <= length (loc df_datos x))%nat.

Lemma fold_left_absorbing {A B : Type} (F : option A -> B -> option A)
  (l : list B) :
(forall b, F None b = None) -> fold_left F l None = None.
Proof.
intros H. induction l as [|b l IH]; simpl; [reflexivity|]. now rewrite H.
Qed.

Lemma fold_left_raises {A B : Type} (F : option A -> B -> option A)
  (l : list B) (p : B) (acc : option A) :
(forall b, F None b = None) -> (forall a, F a p = None) -> In p l ->
fold_left F l acc = None.
Proof.
intros Hn Hp. revert acc. induction l as [|b l IH]; intros acc Hin;
  [contradiction|].
destruct Hin as [<-|Hin]; simpl.
- rewrite Hp. now apply fold_left_absorbing.
- now apply IH.
Qed.

Lemma dup_in_items (key : string -> list Z) :
In x (sorted tuple_lt key (map Item df_datos)).
Proof.
apply sorted_In. destruct (loc df_datos x) as [|r l] eqn:E; [simpl in Hdup; lia|].
assert (In r (loc df_datos x)) as Hr by (rewrite E; now left).
apply filter_In in Hr. destruct Hr as [Hr Hx].
apply String.eqb_eq in Hx. rewrite <- Hx. now apply in_map.
Qed.

Lemma dup_in_index : CrearPdf.in_index ObjectDtype df_datos x = true.
Proof.
unfold CrearPdf.in_index. simpl. apply existsb_exists.
destruct (loc df_datos x) as [|r l] eqn:E; [simpl in Hdup; lia|].
assert (In r (loc df_datos x)) as Hr by (rewrite E; now left).
apply filter_In in Hr. now exists r.
Qed.

Lemma detallado_loop_raises (factor : Q) (childs : list string)
  (acc : option pyfloat) :
In x childs ->
CrearDetallado.loop_childs df_datos precios_item factor childs acc = None.
Proof.
unfold CrearDetallado.loop_childs. intros Hin.
apply (fold_left_raises _ childs x acc); [reflexivity| |exact Hin].
intros [t|]; [|reflexivity].
destruct (loc df_datos x) as [|r [|r' l]]; simpl in Hdup; try lia. reflexivity.
Qed.

Lemma pdf_block_raises (childs : list string) :
In x childs ->
CrearPdf.total_parent ObjectDtype df_datos precios_item childs = None.
Proof.
unfold CrearPdf.total_parent. intros Hin.
apply (fold_left_raises _ childs x (Some (Some 0%Q))); [reflexivity| |exact Hin].
intros [t|]; [|reflexivity]. rewrite dup_in_index. cbn [negb].
destruct (loc df_datos x) as [|r [|r' l]]; simpl in Hdup; try lia. reflexivity.
Qed.
End DuplicateFacts.

(** X8.  When two rows of [datos.csv] carry the same dotted item code,
    the Excel report does not count the item twice or pick one row: the
    lookup of the code gives both rows, the loop over the children
    raises on them (the truth value of a [Series] is ambiguous), and no
    report is produced.  The same holds of the PDF report when pandas
    holds its [Item] column as strings.  (When pandas holds that column
    as numbers the PDF report looks no item up and totals 0.) *)
Theorem duplicate_item_code_raises (df_datos : list Tables.datos_row)
  (precios_item : Tables.dict Q) (factor_conversion : Q) (code : string)
  (Hdot : PyStr.dotted code = true)
  (Hdup : (2 <= length (Tables.loc df_datos code))%nat) :
  CrearDetallado.total_presupuesto df_datos precios_item factor_conversion = None
  /\ CrearPdf.total_presupuesto Tables.ObjectDtype df_datos precios_item = None.
Proof.
  split.
  - unfold CrearDetallado.total_presupuesto. cbv zeta.
    set (items := PySort.sorted PySort.tuple_lt CrearDetallado._parse_key
                                (map Tables.Item df_datos)).
    assert (In code items) as Hit by now apply dup_in_items.
    apply (fold_left_raises _ _ (hd "" (PyStr.split PyStr.dot code))).
    + intros p. destruct (CrearDetallado._children_of_parent items p);
        [reflexivity|].
      unfold CrearDetallado.loop_childs. now apply fold_left_absorbing.
    + intros acc.
      assert (In code (CrearDetallado._children_of_parent items
                         (hd "" (PyStr.split PyStr.dot code)))) as Hc.
      { unfold CrearDetallado._children_of_parent. cbv zeta.
        apply sorted_In, filter_In. split; [exact Hit|].
        apply top_parent_iff; [apply hd_split_no_dot|].
        apply Nat.leb_le in Hdot. now split. }
      rewrite (detallado_loop_raises df_datos precios_item code Hdup
                 factor_conversion _ acc Hc).
      now destruct (CrearDetallado._children_of_parent items _).
    + apply detallado_parents_In. now exists code.
  - unfold CrearPdf.total_presupuesto. cbv zeta.
    set (items := PySort.sorted PySort.tuple_lt CrearPdf._parse_key
                                (map Tables.Item df_datos)).
    assert (In code items) as Hit by now apply dup_in_items.
    apply (fold_left_raises _ _
             (PyStr.join "." (removelast (PyStr.split PyStr.dot code)))).
    + reflexivity.
    + intros [total|]; [|reflexivity].
      assert (In code (CrearPdf._children_of_parent items
                (PyStr.join "." (removelast (PyStr.split PyStr.dot code))))) as Hc.
      { unfold CrearPdf._children_of_parent. cbv zeta.
        apply sorted_In, filter_In. split; [exact Hit|].
        apply Nat.leb_le in Hdot.
        destruct (proj2 (direct_parent_iff _ code) (conj Hdot eq_refl)) as [H1 H2].
        rewrite H1. now apply Nat.eqb_eq. }
      rewrite (pdf_block_raises df_datos precios_item code Hdup _ Hc).
      destruct (CrearPdf._children_of_parent items _); [contradiction|].
      now destruct (negb _).
    + apply pdf_parents_In. exists code. auto.
Qed.

Lemma duplicate_item_code_raises_witness :
  CrearDetallado.total_presupuesto
    [Tables.mk_datos "1.01.01" "Trazado" "GL" (Some 2%Q) "CLP";
     Tables.mk_datos "1.02" "Cierre" "ml" (Some 1%Q) "CLP";
     Tables.mk_datos "1.01.01" "Trazado (bis)" "GL" (Some 5%Q) "CLP"]
    [("1.01.01", 1000%Q); ("1.02", 10%Q)] 1 = None
  /\ CrearPdf.total_presupuesto Tables.ObjectDtype
       [Tables.mk_datos "1.01.01" "Trazado" "GL" (Some 2%Q) "CLP";
        Tables.mk_datos "1.02" "Cierre" "ml" (Some 1%Q) "CLP";
        Tables.mk_datos "1.01.01" "Trazado (bis)" "GL" (Some 5%Q) "CLP"]
       [("1.01.01", 1000%Q); ("1.02", 10%Q)] = None.
Proof.
  apply (duplicate_item_code_raises _ _ 1 "1.01.01"); [reflexivity|simpl; lia].
Defined.

(** ** Unit prices and the detail table *)

Section PrecioTableFacts.
Import Tables Precios Lineas ModificarPresupuesto.
Local Open Scope Q_scope.

Lemma Qsum_filter_indicator {A : Type} (p : A -> bool) (f : A -> Q) (l : list A) :
Qsum (map f (filter p l)) == Qsum (map (fun x => if p x then f x else 0) l).
Proof.
induction l as [|x l IH]; simpl; [reflexivity|].
destruct (p x); simpl; rewrite IH; [reflexivity|now rewrite Qplus_0_l].
Qed.

Lemma Qsum_flat_map_sums {A B : Type} (f : A -> list B) (g : B -> Q) (l : list A) :
Qsum (map g (flat_map f l)) == Qsum (map (fun x => Qsum (map g (f x))) l).
Proof.
induction l as [|x l IH]; simpl; [reflexivity|].
now rewrite map_app, Qsum_app, IH.
Qed.

Lemma Qsum_map_plus {A : Type} (f g : A -> Q) (l : list A) :
Qsum (map (fun x => f x + g x) l) == Qsum (map f l) + Qsum (map g l).
Proof.
induction l as [|x l IH]; simpl; [reflexivity|]. rewrite IH. ring.
Qed.

Lemma Qsum_map_zero {A : Type} (f : A -> Q) (l : list A) :
(forall x, In x l -> f x == 0) -> Qsum (map f l) == 0.
Proof.
induction l as [|x l IH]; intros H; simpl; [reflexivity|].
rewrite (H x) by now left. rewrite IH; [ring|].
intros y Hy. apply H. now right.
Qed.

(** The unit price of an item as a sum over the whole detail table. *)
Lemma precio_indicator (det : list detalle_row) (df_maestro : list maestro_row)
  (k : string) :
precio_de_tabla det df_maestro k
== Qsum (map (line_value_of df_maestro k) det).
Proof.
rewrite precio_de_tabla_sum.
apply (Qsum_filter_indicator (fun d => String.eqb (item_str d) k)
                             (line_value df_maestro)).
Qed.

Lemma precio_perm (det det' : list detalle_row) (df_maestro : list maestro_row)
  (k : string) :
Permutation det det' ->
precio_de_tabla det df_maestro k == precio_de_tabla det' df_maestro k.
Proof.
intros H. rewrite !precio_indicator. now apply Qsum_perm, Permutation_map.
Qed.

Lemma line_value_of_fill (df_maestro : list maestro_row) (k : string)
  (df : list detalle_row) :
map (line_value_of df_maestro k) (fill_cantidad df)
= map (line_value_of df_maestro k) df.
Proof. unfold fill_cantidad. rewrite map_map. reflexivity. Qed.

Lemma group_value (df : list detalle_row) (df_maestro : list maestro_row)
  (k : string) (p : cell * option string) :
line_value_of df_maestro k (mk_detalle (fst p) (snd p) (Some (cantidad_of df p)))
== Qsum (map (line_value_of df_maestro k)
             (filter (fun r => key_eqb (key_of r) p) df)).
Proof.
unfold line_value_of, line_value, cantidad_of, item_str, codigo_str.
cbn [item Codigo cantidad fillna].
induction df as [|d df IH]; cbn [filter map].
- unfold Qsum. cbn [fold_right]. destruct (String.eqb (astype_str (fst p)) k); ring.
- destruct (key_eqb (key_of d) p) eqn:E; [|exact IH].
  apply key_eqb_eq in E. cbn [map]. unfold Qsum in *. cbn [fold_right].
  rewrite <- IH. unfold key_of in E. rewrite <- E. cbn [fst snd].
  destruct (String.eqb (astype_str (item d)) k); ring.
Qed.

(** Consolidating keeps the unit prices of the rows [groupby] keeps. *)
Lemma precio_groupby (df : list detalle_row) (df_maestro : list maestro_row)
  (k : string) :
precio_de_tabla (groupby_sum df) df_maestro k
== precio_de_tabla (dropna df) df_maestro k.
Proof.
rewrite !precio_indicator. unfold groupby_sum. rewrite map_map.
set (ks := PySort.sorted key_lt (fun k => k)
             (PySort.dedup_by key_eqb (map key_of (dropna df)))).
rewrite (Qsum_map_ext _ _ ks (fun p _ => group_value (dropna df) df_maestro k p)).
rewrite <- (Qsum_flat_map_sums
              (fun p => filter (fun r => key_eqb (key_of r) p) (dropna df))).
apply Qsum_perm, Permutation_map.
rewrite (grouped_perm (fun p r => key_eqb (key_of r) p) (fun _ => true) key_of).
- generalize (dropna df). clear.
  induction l as [|d l IH]; simpl; [constructor|now constructor].
- apply sorted_NoDup, dedup_by_NoDup, key_eqb_eq.
- intros d Hd _. split.
  + apply sorted_In, dedup_by_In; [apply key_eqb_eq|now apply in_map].
  + now apply key_eqb_eq.
- intros p d _ _ E. apply key_eqb_eq in E. now split.
Qed.

Lemma precio_consolidated (df : list detalle_row) (df_maestro : list maestro_row)
  (k : string) :
precio_de_tabla (_sort_detalle_by_item (groupby_sum (fill_cantidad df)))
                df_maestro k
== precio_de_tabla (dropna df) df_maestro k.
Proof.
rewrite (precio_perm _ _ df_maestro k (sort_detalle_perm _)), precio_groupby.
rewrite dropna_fill_cantidad.
rewrite !precio_indicator. now rewrite line_value_of_fill.
Qed.

Lemma dropna_all (df : list detalle_row) :
Forall (fun r => present (key_of r)) df -> dropna df = df.
Proof.
intros H. apply filter_all. eapply Forall_impl; [|exact H].
intros r [H1 H2]. unfold key_of in H1, H2. cbn [fst snd] in *.
rewrite H1. now destruct (Codigo r).
Qed.
End PrecioTableFacts.

Lemma joined_not_nil (df_maestro : list Tables.maestro_row) (d : Tables.detalle_row) :
  Precios.joined df_maestro d <> [].
Proof.
  unfold Precios.joined.
  destruct (Precios.matches df_maestro (Tables.codigo_str d)); discriminate.
Qed.

Lemma merge_left_items (det : list Tables.detalle_row)
  (df_maestro : list Tables.maestro_row) (k : string) :
  In k (map (fun r => Tables.item_str (fst r)) (Precios.merge_left det df_maestro))
  <-> In k (map Tables.item_str det).
Proof.
  unfold Precios.merge_left. rewrite !in_map_iff. split.
  - intros (r & <- & Hr). apply in_flat_map in Hr. destruct Hr as (d & Hd & Hr).
    pose proof (joined_item df_maestro d) as H. rewrite Forall_forall in H.
    rewrite (H r Hr). now exists d.
  - intros (d & <- & Hd).
    destruct (Precios.joined df_maestro d) as [|r l] eqn:E;
      [now apply joined_not_nil in E|].
    exists r. split.
    + pose proof (joined_item df_maestro d) as H. rewrite E in H.
      now inversion H; subst.
    + apply in_flat_map. exists d. split; [exact Hd|]. rewrite E. now left.
Qed.

Lemma dict_get_absent {V : Type} (d : Tables.dict V) (k : string) (default : V) :
  ~ In k (map fst d) -> Tables.dict_get d k default = default.
Proof.
  induction d as [|[k' v] d IH]; intros H; [reflexivity|].
  simpl in *. destruct (String.eqb_spec k' k) as [->|N];
    [exfalso; apply H; now left|].
  apply IH. intros Hin. apply H. now right.
Qed.

(** The keys of the dictionary computed from a table. *)
Lemma precios_de_tabla_keys (det : list Tables.detalle_row)
  (df_maestro : list Tables.maestro_row) :
  NoDup (map fst (Precios.precios_de_tabla det df_maestro))
  /\ forall k, In k (map fst (Precios.precios_de_tabla det df_maestro))
               <-> In k (map Tables.item_str det).
Proof.
  assert (forall rows : list (Tables.detalle_row * Tables.pyfloat),
             map fst (Precios.groupby_item_sum rows)
             = PySort.dedup (map (fun r => Tables.item_str (fst r)) rows)) as Hk.
  { intros rows. unfold Precios.groupby_item_sum. rewrite map_map. apply map_id. }
  destruct det as [|d det]; [split; [constructor|reflexivity]|].
  unfold Precios.precios_de_tabla. rewrite Hk. split; [apply dedup_NoDup|].
  intros k. now rewrite dedup_In, merge_left_items.
Qed.

(** The codes of the table [pd.read_csv] returns are the values the
    inference gives for the [item] column. *)
Lemma read_csv_detalle_items (file : list Tables.detalle_csv_row)
  (dt : Tables.dtype) (values : list string) :
  PresupuestoUtils.read_csv_infer (map Tables.file_item file) = Some (dt, values) ->
  length values = length file ->
  exists df, PresupuestoUtils.read_csv_detalle file = Some (dt, df)
             /\ map Tables.item_str df = values.
Proof.
  intros E Hlen. unfold PresupuestoUtils.read_csv_detalle. rewrite E.
  eexists. split; [reflexivity|]. rewrite map_map.
  unfold Tables.item_str. cbn [Tables.item].
  assert (forall v, Tables.astype_str (PresupuestoUtils.cell_of dt v) = v) as Hv.
  { intros v. unfold PresupuestoUtils.cell_of. now destruct (Tables.is_object dt). }
  rewrite (map_ext _ (fun vr => fst vr)) by (intros vr; apply Hv).
  clear E. revert file Hlen.
  induction values as [|v values IH]; intros [|r file] Hlen;
    try discriminate; [reflexivity|].
  simpl. f_equal. apply IH. simpl in Hlen. congruence.
Qed.

Lemma read_csv_infer_length (cells values : list string) (dt : Tables.dtype) :
  PresupuestoUtils.read_csv_infer cells = Some (dt, values) ->
  length values = length cells.
Proof.
  unfold PresupuestoUtils.read_csv_infer.
  destruct (existsb _ _); [discriminate|].
  destruct (existsb _ _); [now intros [= <- <-]|].
  destruct cells as [|c cells]; [now intros [= <- <-]|].
  destruct (forallb _ _); intros [= <- <-]; simpl; now rewrite length_map.
Qed.

(** X9.  [_compute_precio_unitario_por_item] reads [detalle.csv] without
    a dtype, and the dictionary it returns has one entry for each
    distinct value of the [item] column as pandas holds it, printed by
    [astype(str)], and no other entry: the codes as they are written when
    the column is held as strings, and the numbers they read as
    otherwise (["1.10"] is keyed ["1.1"]).  The price read for any other
    code is the default 0, and a missing [detalle.csv] gives the empty
    dictionary. *)
Theorem precios_item_keys (file : list Tables.detalle_csv_row)
  (df_maestro : list Tables.maestro_row) (dt : Tables.dtype)
  (values : list string)
  (Hread : PresupuestoUtils.read_csv_infer (map Tables.file_item file)
           = Some (dt, values)) :
  (exists precios_item,
      Precios._compute_precio_unitario_por_item (Some file) df_maestro
      = Some precios_item
      /\ NoDup (map fst precios_item)
      /\ (forall k, In k (map fst precios_item) <-> In k values))
  /\ (forall k, ~ In k values ->
                Precios.precio_unitario (Some file) df_maestro k = Some 0%Q)
  /\ (Tables.is_object dt = true -> values = map Tables.file_item file)
  /\ Precios._compute_precio_unitario_por_item None df_maestro = Some []
  /\ option_map (map fst)
       (Precios._compute_precio_unitario_por_item
          (Some [Tables.mk_detalle_csv "1.10" "X" (Some 3%Q);
                 Tables.mk_detalle_csv "2.00" "X" (Some 1%Q)])
          [Tables.mk_maestro "X" (Some 100%Q)])
     = Some ["1.1"; "2.0"].
Proof.
  pose proof (read_csv_infer_length _ _ _ Hread) as Hlen.
  rewrite length_map in Hlen.
  destruct (read_csv_detalle_items file dt values Hread Hlen) as (df & Hdf & Hitems).
  destruct (precios_de_tabla_keys df df_maestro) as [Hnd Hin].
  rewrite Hitems in Hin.
  split; [|split; [|split; [|split; [reflexivity|]]]].
  - unfold Precios._compute_precio_unitario_por_item. rewrite Hdf.
    eexists. split; [reflexivity|]. now split.
  - intros k Hk. unfold Precios.precio_unitario,
      Precios._compute_precio_unitario_por_item. rewrite Hdf.
    f_equal. apply dict_get_absent. now rewrite Hin.
  - intros Hobj. now apply (read_csv_infer_object _ _ dt).
  - reflexivity.
Qed.

Lemma precios_item_keys_witness :
  Precios.precio_unitario
    (Some [Tables.mk_detalle_csv "1.10" "X" (Some 3%Q);
           Tables.mk_detalle_csv "2.00" "X" (Some 1%Q)])
    [Tables.mk_maestro "X" (Some 100%Q)] "1.10" = Some 0%Q.
Proof.
  refine (proj1 (proj2 (precios_item_keys _ _ Tables.Float64Dtype ["1.1"; "2.0"] _))
                "1.10" _).
  - reflexivity.
  - simpl. intuition discriminate.
Defined.

(** X10.  In exact arithmetic, the unit prices computed from a detail
    table do not depend on how the table is laid out: rearranging its
    rows leaves the unit price of every item unchanged, and so does
    consolidating the rows of each (item, catalog code) pair into one
    row with the summed quantity and sorting the result, as the editing
    operations do before they save, for a table in which no item or
    catalog code is missing.  Rows with a missing code are dropped by
    the consolidation, and the unit prices afterwards are those of the
    table without them. *)
Theorem unit_price_survives_consolidation (det det' : list Tables.detalle_row)
  (df_maestro : list Tables.maestro_row) (k : string)
  (Hperm : Permutation det det') :
  (Precios.precio_de_tabla det df_maestro k
   == Precios.precio_de_tabla det' df_maestro k)%Q
  /\ (Precios.precio_de_tabla
        (ModificarPresupuesto.groupby_sum
           (ModificarPresupuesto.fill_cantidad det)) df_maestro k
      == Precios.precio_de_tabla (ModificarPresupuesto.dropna det) df_maestro k)%Q
  /\ (Precios.precio_de_tabla
        (ModificarPresupuesto._sort_detalle_by_item
           (ModificarPresupuesto.groupby_sum
              (ModificarPresupuesto.fill_cantidad det))) df_maestro k
      == Precios.precio_de_tabla (ModificarPresupuesto.dropna det) df_maestro k)%Q
  /\ (Forall (fun r => ModificarPresupuesto.present (ModificarPresupuesto.key_of r))
             det ->
      ModificarPresupuesto.dropna det = det).
Proof.
  split; [now apply precio_perm|].
  split; [|split; [apply precio_consolidated|apply dropna_all]].
  rewrite precio_groupby, dropna_fill_cantidad, !precio_indicator.
  now rewrite line_value_of_fill.
Qed.

Lemma unit_price_survives_consolidation_witness :
  (Precios.precio_de_tabla
     (ModificarPresupuesto._sort_detalle_by_item
        (ModificarPresupuesto.groupby_sum
           (ModificarPresupuesto.fill_cantidad
              [Tables.mk_detalle (Tables.Num "1.02") (Some "B") (Some 4%Q);
               Tables.mk_detalle (Tables.Num "1.01") (Some "A") (Some 3%Q);
               Tables.mk_detalle (Tables.Num "1.01") (Some "A") (Some 2%Q)])))
     [Tables.mk_maestro "A" (Some 100%Q); Tables.mk_maestro "B" (Some 7%Q)] "1.01"
   == Precios.precio_de_tabla
        (ModificarPresupuesto.dropna
           [Tables.mk_detalle (Tables.Num "1.02") (Some "B") (Some 4%Q);
            Tables.mk_detalle (Tables.Num "1.01") (Some "A") (Some 3%Q);
            Tables.mk_detalle (Tables.Num "1.01") (Some "A") (Some 2%Q)])
        [Tables.mk_maestro "A" (Some 100%Q); Tables.mk_maestro "B" (Some 7%Q)] "1.01")%Q.
Proof.
  exact (proj1 (proj2 (proj2 (unit_price_survives_consolidation _ _ _ "1.01"
                                (Permutation_refl _))))).
Defined.

(** ** Unit prices after an edit *)

Section EditPriceFacts.
Import Tables Precios Lineas ModificarPresupuesto.
Local Open Scope Q_scope.

Variable df_maestro : list maestro_row.

(** The rows after the assignment of the new code. *)
Lemma renamed_rows (pd : pandas) (item_dtype : dtype) (det det' : list detalle_row)
  (old_item new_item : string) :
renamed pd item_dtype det old_item new_item = Some det' ->
det' = map (fun r => if String.eqb (item_str r) old_item
                     then mk_detalle (Str new_item) (Codigo r) (cantidad r)
                     else r) det.
Proof.
unfold renamed. destruct pd, (is_object item_dtype); now intros [= <-].
Qed.

Lemma renamed_returns (pd : pandas) (item_dtype : dtype) (det : list detalle_row)
  (old_item new_item : string) :
pd = Pandas2 \/ is_object item_dtype = true ->
exists det', renamed pd item_dtype det old_item new_item = Some det'.
Proof.
unfold renamed. intros [->| ->]; [|destruct pd]; eexists; reflexivity.
Qed.

Lemma rename_returns (pd : pandas) (item_dtype : dtype) (det : list detalle_row)
  (old_item new_item : string) :
pd = Pandas2 \/ is_object item_dtype = true ->
exists det', _rename_item_and_consolidate pd item_dtype det old_item new_item
             = Some det'.
Proof.
intros H. unfold _rename_item_and_consolidate. cbv zeta.
destruct (negb _ && negb _); [|eexists; reflexivity].
destruct (renamed_returns pd item_dtype det old_item new_item H) as (d & ->).
eexists; reflexivity.
Qed.

Lemma renamed_present (pd : pandas) (item_dtype : dtype) (det det' : list detalle_row)
  (old_item new_item : string) :
renamed pd item_dtype det old_item new_item = Some det' ->
Forall (fun r => present (key_of r)) det ->
Forall (fun r => present (key_of r)) det'.
Proof.
intros E H. rewrite (renamed_rows _ _ _ _ _ _ E). apply Forall_map.
eapply Forall_impl; [|exact H]. intros r [H1 H2].
destruct (String.eqb (item_str r) old_item); [|now split].
split; [reflexivity|exact H2].
Qed.

Lemma precio_after_rename (pd : pandas) (item_dtype : dtype)
  (det det' : list detalle_row) (old_item new_item k : string) :
new_item <> old_item ->
Forall (fun r => present (key_of r)) det ->
_rename_item_and_consolidate pd item_dtype det old_item new_item = Some det' ->
precio_de_tabla det' df_maestro k
== Qsum (map (fun d =>
                if String.eqb (if String.eqb (item_str d) old_item
                               then new_item else item_str d) k
                then line_value df_maestro d else 0) det).
Proof.
intros Hne Hna. unfold _rename_item_and_consolidate. cbv zeta.
apply String.eqb_neq in Hne. rewrite Hne. cbn [negb andb].
destruct det as [|d0 det0]; cbn [is_empty negb].
- intros [= <-]. reflexivity.
- set (det := d0 :: det0) in *.
  destruct (renamed pd item_dtype det old_item new_item) as [S|] eqn:E;
    [|discriminate].
  intros [= <-]. rewrite precio_consolidated.
  rewrite (dropna_all S) by (eapply renamed_present; eassumption).
  rewrite precio_indicator, (renamed_rows _ _ _ _ _ _ E), map_map.
  apply Qsum_map_ext. intros d _. unfold line_value_of, line_value.
  destruct (String.eqb (item_str d) old_item); reflexivity.
Qed.

Lemma dropna_filter (p : detalle_row -> bool) (det : list detalle_row) :
dropna (filter p det) = filter p (dropna det).
Proof.
unfold dropna. induction det as [|d det IH]; [reflexivity|]. cbn [filter].
destruct (p d) eqn:Ep; cbn [filter];
  destruct (negb (isna (item d)) && _) eqn:Ed; cbn [filter];
  rewrite ?Ep, ?Ed, IH; reflexivity.
Qed.

Lemma precio_after_delete (det : list detalle_row) (item_code k : string) :
precio_de_tabla (_delete_item det item_code) df_maestro k
== precio_de_tabla
     (filter (fun r => negb (String.eqb (item_str r) item_code)) (dropna det))
     df_maestro k.
Proof.
unfold _delete_item. cbv zeta. rewrite <- dropna_filter.
destruct (negb (is_empty _)) eqn:E.
- apply precio_consolidated.
- apply negb_false_iff, is_empty_true_nil in E. rewrite E. reflexivity.
Qed.

Lemma precio_filter_others (det : list detalle_row) (item_code k : string) :
precio_de_tabla
  (filter (fun r => negb (String.eqb (item_str r) item_code)) det)
  df_maestro k
== if String.eqb item_code k then 0
   else precio_de_tabla det df_maestro k.
Proof.
destruct (String.eqb_spec item_code k) as [E|N];
  rewrite !precio_indicator;
  rewrite (Qsum_filter_indicator (fun r => negb (String.eqb (item_str r) item_code))
                                 (line_value_of df_maestro k)).
- apply Qsum_map_zero. intros d _. unfold line_value_of.
  destruct (String.eqb_spec (item_str d) item_code) as [E2|E2]; [reflexivity|].
  simpl. destruct (String.eqb_spec (item_str d) k); [congruence|reflexivity].
- apply Qsum_map_ext. intros d _. unfold line_value_of.
  destruct (String.eqb_spec (item_str d) item_code) as [E|E]; [|reflexivity].
  simpl. destruct (String.eqb_spec (item_str d) k); [congruence|reflexivity].
Qed.

(** The rows of a consolidated table carry pairs of the table. *)
Lemma result_keys (df : list detalle_row) (r : detalle_row) :
In r (_sort_detalle_by_item (groupby_sum (fill_cantidad df))) ->
exists d, In d df /\ key_of d = key_of r.
Proof.
intros Hr. apply (Permutation_in _ (sort_detalle_perm _)) in Hr.
apply (in_map key_of) in Hr. apply groupby_sum_key_In in Hr.
rewrite dropna_fill_cantidad in Hr.
unfold fill_cantidad in Hr. rewrite map_map in Hr.
apply in_map_iff in Hr. destruct Hr as (d & E & Hd).
apply dropna_In in Hd. exists d. split; [tauto|exact E].
Qed.
End EditPriceFacts.

(** X11.  In exact arithmetic, and for a table in which no item or
    catalog code is missing: renaming an item to a different code moves
    its detail with it.  Whenever [_rename_item_and_consolidate]
    returns, the unit price computed from its table for the new code is
    what the old and the new code had together, the old code has unit
    price 0, and the unit price of every other item is unchanged.  The
    call returns under pandas 2, and under pandas 3 when the [item]
    column is held as strings; under pandas 3 a column of numbers makes
    it raise. *)
Theorem rename_moves_unit_price (pd : Tables.pandas) (item_dtype : Tables.dtype)
  (det : list Tables.detalle_row)
  (df_maestro : list Tables.maestro_row) (old_item new_item : string)
  (Hne : new_item <> old_item)
  (Hna : Forall (fun r => ModificarPresupuesto.present (ModificarPresupuesto.key_of r))
                det) :
  (pd = Tables.Pandas2 \/ Tables.is_object item_dtype = true ->
   exists det_updated,
     ModificarPresupuesto._rename_item_and_consolidate
       pd item_dtype det old_item new_item = Some det_updated)
  /\ (forall det_updated,
        ModificarPresupuesto._rename_item_and_consolidate
          pd item_dtype det old_item new_item = Some det_updated ->
        (Precios.precio_de_tabla det_updated df_maestro new_item
         == Precios.precio_de_tabla det df_maestro old_item
            + Precios.precio_de_tabla det df_maestro new_item)%Q
        /\ (Precios.precio_de_tabla det_updated df_maestro old_item == 0)%Q
        /\ (forall k, k <> old_item -> k <> new_item ->
              (Precios.precio_de_tabla det_updated df_maestro k
               == Precios.precio_de_tabla det df_maestro k)%Q))
  /\ (ModificarPresupuesto.is_empty det = false ->
      Tables.is_object item_dtype = false ->
      ModificarPresupuesto._rename_item_and_consolidate
        Tables.Pandas3 item_dtype det old_item new_item = None).
Proof.
  split; [apply rename_returns|]. split.
  - intros det' E. split; [|split].
    + rewrite (precio_after_rename df_maestro _ _ _ _ _ _ new_item Hne Hna E).
      rewrite !precio_indicator.
      rewrite <- Qsum_map_plus. apply Qsum_map_ext. intros d _.
      unfold Lineas.line_value_of.
      destruct (String.eqb_spec (Tables.item_str d) old_item) as [E1|E1].
      * rewrite String.eqb_refl.
        destruct (String.eqb_spec (Tables.item_str d) new_item); [congruence|ring].
      * destruct (String.eqb (Tables.item_str d) new_item); ring.
    + rewrite (precio_after_rename df_maestro _ _ _ _ _ _ old_item Hne Hna E).
      apply Qsum_map_zero. intros d _.
      destruct (String.eqb_spec (Tables.item_str d) old_item) as [E1|E1].
      * destruct (String.eqb_spec new_item old_item); [contradiction|reflexivity].
      * destruct (String.eqb_spec (Tables.item_str d) old_item);
          [contradiction|reflexivity].
    + intros k Hk1 Hk2.
      rewrite (precio_after_rename df_maestro _ _ _ _ _ _ k Hne Hna E).
      rewrite precio_indicator.
      apply Qsum_map_ext. intros d _. unfold Lineas.line_value_of.
      destruct (String.eqb_spec (Tables.item_str d) old_item) as [E1|E1];
        [|reflexivity].
      destruct (String.eqb_spec new_item k); [congruence|].
      destruct (String.eqb_spec (Tables.item_str d) k); [congruence|reflexivity].
  - intros Hemp Hobj. unfold ModificarPresupuesto._rename_item_and_consolidate.
    cbv zeta. apply String.eqb_neq in Hne. rewrite Hne, Hemp. cbn [negb andb].
    unfold ModificarPresupuesto.renamed. now rewrite Hobj.
Qed.

Lemma rename_moves_unit_price_witness :
  exists det_updated,
    ModificarPresupuesto._rename_item_and_consolidate
      Tables.Pandas3 Tables.ObjectDtype
      [Tables.mk_detalle (Tables.Str "1.01") (Some "A") (Some 1%Q);
       Tables.mk_detalle (Tables.Str "1.02") (Some "A") (Some 2%Q);
       Tables.mk_detalle (Tables.Str "1.02.01") (Some "B") (Some 5%Q)]
      "1.02" "1.01" = Some det_updated.
Proof.
  refine (proj1 (rename_moves_unit_price Tables.Pandas3 Tables.ObjectDtype _ []
                   "1.02" "1.01" _ _) (or_intror eq_refl)).
  - discriminate.
  - repeat constructor; discriminate.
Defined.

(** X12.  In exact arithmetic: deleting an item removes its detail and
    nothing else.  In the table [_delete_item] returns no row carries
    the deleted code, the unit price computed for it is 0, and the unit
    price of every other item is the one computed from the table before
    (from its rows without a missing item or catalog code, which the
    consolidation drops). *)
Theorem delete_item_unit_prices (det : list Tables.detalle_row)
  (df_maestro : list Tables.maestro_row) (item_code : string) :
  (Precios.precio_de_tabla
     (ModificarPresupuesto._delete_item det item_code) df_maestro item_code
   == 0)%Q
  /\ (forall k, k <> item_code ->
        (Precios.precio_de_tabla
           (ModificarPresupuesto._delete_item det item_code) df_maestro k
         == Precios.precio_de_tabla (ModificarPresupuesto.dropna det) df_maestro k)%Q)
  /\ (forall r, In r (ModificarPresupuesto._delete_item det item_code) ->
                Tables.item_str r <> item_code)
  /\ (Forall (fun r => ModificarPresupuesto.present (ModificarPresupuesto.key_of r))
             det ->
      ModificarPresupuesto.dropna det = det).
Proof.
  split; [|split; [|split; [|apply dropna_all]]].
  - rewrite precio_after_delete, precio_filter_others.
    now rewrite String.eqb_refl.
  - intros k Hk. rewrite precio_after_delete, precio_filter_others.
    destruct (String.eqb_spec item_code k); [congruence|reflexivity].
  - intros r Hr. unfold ModificarPresupuesto._delete_item in Hr. cbv zeta in Hr.
    assert (exists d,
               In d (filter (fun r => negb (String.eqb (Tables.item_str r) item_code))
                            det)
               /\ ModificarPresupuesto.key_of d = ModificarPresupuesto.key_of r)
      as (d & Hd & Ek).
    { destruct (negb (ModificarPresupuesto.is_empty _)).
      - now apply result_keys.
      - apply (Permutation_in _ (sort_detalle_perm _)) in Hr. now exists r. }
    apply filter_In in Hd. destruct Hd as [_ Hd].
    apply negb_true_iff, String.eqb_neq in Hd.
    unfold ModificarPresupuesto.key_of in Ek. injection Ek as Ei _.
    unfold Tables.item_str in *. congruence.
Qed.

Section SavePriceFacts.
Import Tables Precios Lineas ModificarPresupuesto.
Local Open Scope Q_scope.

Variable df_maestro : list maestro_row.

Lemma precio_app (a b : list detalle_row) (k : string) :
precio_de_tabla (a ++ b) df_maestro k
== precio_de_tabla a df_maestro k + precio_de_tabla b df_maestro k.
Proof. rewrite !precio_indicator, map_app. apply Qsum_app. Qed.

Lemma dropna_app (a b : list detalle_row) :
dropna (a ++ b) = dropna a ++ dropna b.
Proof. apply filter_app. Qed.

Lemma dropna_new_det (active_item : string) (rows : dict Q) :
dropna (map (fun cq => mk_detalle (Str active_item) (Some (fst cq)) (Some (snd cq)))
            rows)
= map (fun cq => mk_detalle (Str active_item) (Some (fst cq)) (Some (snd cq))) rows.
Proof.
apply dropna_all, Forall_map, Forall_forall. intros cq _. now split.
Qed.

Lemma precio_after_save (det : list detalle_row) (active_item : string)
  (qty_map : dict Q) (k : string) :
precio_de_tabla (guardar_cambios det active_item qty_map) df_maestro k
== precio_de_tabla
     (filter (fun r => negb (String.eqb (item_str r) active_item)) (dropna det)
      ++ map (fun cq => mk_detalle (Str active_item) (Some (fst cq)) (Some (snd cq)))
             (filter (fun cq => negb (Qeq_bool (snd cq) 0)
                                && negb (Qle_bool (snd cq) 0)) qty_map))
     df_maestro k.
Proof.
unfold guardar_cambios. cbv zeta.
assert ((if negb (is_empty det)
         then filter (fun r => negb (String.eqb (item_str r) active_item)) det
         else [])
        = filter (fun r => negb (String.eqb (item_str r) active_item)) det) as ->.
{ destruct det; reflexivity. }
set (S := filter _ det ++ map _ _).
assert (dropna S
        = filter (fun r => negb (String.eqb (item_str r) active_item)) (dropna det)
          ++ map (fun cq => mk_detalle (Str active_item) (Some (fst cq)) (Some (snd cq)))
                 (filter (fun cq => negb (Qeq_bool (snd cq) 0)
                                    && negb (Qle_bool (snd cq) 0)) qty_map)) as Hd.
{ unfold S. now rewrite dropna_app, dropna_filter, dropna_new_det. }
rewrite <- Hd.
destruct (negb (is_empty S)) eqn:E.
- apply precio_consolidated.
- apply negb_false_iff, is_empty_true_nil in E. rewrite E. reflexivity.
Qed.

Lemma precio_new_det (active_item : string) (rows : dict Q) (k : string) :
precio_de_tabla
  (map (fun cq => mk_detalle (Str active_item) (Some (fst cq)) (Some (snd cq))) rows)
  df_maestro k
== if String.eqb active_item k
   then Qsum (map (fun cq => snd cq * joined_price df_maestro (fst cq)) rows)
   else 0.
Proof.
destruct (String.eqb active_item k) eqn:E; rewrite precio_indicator, map_map.
- apply Qsum_map_ext. intros cq _. unfold line_value_of, line_value, item_str, codigo_str.
  cbn [item Codigo cantidad fillna astype_str]. now rewrite E.
- apply Qsum_map_zero. intros cq _. unfold line_value_of, item_str.
  cbn [item astype_str]. now rewrite E.
Qed.
End SavePriceFacts.

(** X13.  In exact arithmetic: saving the detail of an item replaces
    that item's detail and nothing else.  After "Guardar cambios" the
    unit price computed for the active item is the sum of quantity times
    price over the entries of the quantity map with a positive quantity,
    the unit price of every other item is the one computed from the
    table before (from its rows without a missing item or catalog code,
    which the consolidation drops), and each row left for the active
    item comes from an entry with a positive quantity. *)
Theorem save_detail_unit_prices (det : list Tables.detalle_row)
  (df_maestro : list Tables.maestro_row) (active_item : string)
  (qty_map : Tables.dict Q) :
  (Precios.precio_de_tabla
     (ModificarPresupuesto.guardar_cambios det active_item qty_map)
     df_maestro active_item
   == Tables.Qsum
        (map (fun cq => snd cq * Precios.joined_price df_maestro (fst cq))
             (filter (fun cq => negb (Qeq_bool (snd cq) 0)
                                && negb (Qle_bool (snd cq) 0)) qty_map)))%Q
  /\ (forall k, k <> active_item ->
        (Precios.precio_de_tabla
           (ModificarPresupuesto.guardar_cambios det active_item qty_map)
           df_maestro k
         == Precios.precio_de_tabla (ModificarPresupuesto.dropna det) df_maestro k)%Q)
  /\ (forall r,
        In r (ModificarPresupuesto.guardar_cambios det active_item qty_map) ->
        Tables.item_str r = active_item ->
        exists q, In (Tables.codigo_str r, q) qty_map /\ (0 < q)%Q)
  /\ (Forall (fun r => ModificarPresupuesto.present (ModificarPresupuesto.key_of r))
             det ->
      ModificarPresupuesto.dropna det = det).
Proof.
  split; [|split; [|split; [|apply dropna_all]]].
  - rewrite precio_after_save, precio_app, precio_filter_others, precio_new_det.
    rewrite String.eqb_refl. ring.
  - intros k Hk.
    rewrite precio_after_save, precio_app, precio_filter_others, precio_new_det.
    destruct (String.eqb_spec active_item k); [congruence|ring].
  - intros r Hr Hitem.
    unfold ModificarPresupuesto.guardar_cambios in Hr. cbv zeta in Hr.
    assert (exists d,
               In d ((if negb (ModificarPresupuesto.is_empty det)
                      then filter (fun r => negb (String.eqb (Tables.item_str r)
                                                             active_item)) det
                      else [])
                     ++ map (fun cq => Tables.mk_detalle (Tables.Str active_item)
                                         (Some (fst cq)) (Some (snd cq)))
                            (filter (fun cq => negb (Qeq_bool (snd cq) 0)
                                               && negb (Qle_bool (snd cq) 0)) qty_map))
               /\ ModificarPresupuesto.key_of d = ModificarPresupuesto.key_of r)
      as (d & Hd & Ek).
    { destruct (negb (ModificarPresupuesto.is_empty (_ ++ _))).
      - now apply result_keys.
      - now exists r. }
    unfold ModificarPresupuesto.key_of in Ek. injection Ek as Ei Ec.
    apply in_app_or in Hd. destruct Hd as [Hd|Hd].
    + exfalso. destruct (negb (ModificarPresupuesto.is_empty det)); [|contradiction].
      apply filter_In in Hd. destruct Hd as [_ Hd].
      apply negb_true_iff, String.eqb_neq in Hd.
      unfold Tables.item_str in *. congruence.
    + apply in_map_iff in Hd. destruct Hd as ([c q] & <- & Hcq).
      apply filter_In in Hcq. destruct Hcq as [Hin Hpos].
      unfold Tables.codigo_str. simpl in *. rewrite <- Ec. exists q.
      split; [exact Hin|].
      apply andb_true_iff in Hpos. destruct Hpos as [_ Hpos].
      apply negb_true_iff in Hpos. apply Qnot_le_lt. intros H.
      apply Qle_bool_iff in H. congruence.
Qed.

(** ** Currency tables *)

Section CurrencyTableFacts.
Import PyStr Tables Monedas ActualizarMonedas.
Local Open Scope Q_scope.

Lemma load_save_monedas (df : list moneda_row) :
load_monedas (Some (save_monedas df)) = df.
Proof.
unfold load_monedas, save_monedas. rewrite map_map.
rewrite <- (map_id df) at 2. apply map_ext. now intros [c n v].
Qed.

(** Looking a code up in a table whose rows were rewritten by [f],
    when [f] keeps the codes. *)
Lemma valor_after_map (f : moneda_row -> moneda_row) (df : list moneda_row)
  (codigo : string) :
(forall x, mo_Codigo (f x) = mo_Codigo x) ->
match filter (fun x => String.eqb (upper (mo_Codigo x)) (upper codigo)) (map f df) with
| [] => 1
| x :: _ => ValorCLP x
end
= match filter (fun x => String.eqb (upper (mo_Codigo x)) (upper codigo)) df with
  | [] => 1
  | x :: _ => ValorCLP (f x)
  end.
Proof.
intros Hf.
rewrite (filter_map_swap _ (fun x => String.eqb (upper (mo_Codigo x)) (upper codigo)))
  by (intros x; now rewrite Hf).
now destruct (filter _ df).
Qed.

End CurrencyTableFacts.

(** X14.  [get_moneda_value] answers with the first row of the table
    whose code equals the requested one up to case; a value of that row
    that is not a number counts as 1.0, so such a currency converts
    amounts unchanged. *)
Theorem get_moneda_value_first_match (l1 l2 : list Monedas.moneda_csv_row)
  (r : Monedas.moneda_csv_row) (codigo : string) (monto : Q)
  (Hbefore : Forall (fun x => PyStr.upper (Monedas.csv_Codigo x) <> PyStr.upper codigo)
                    l1)
  (Hrow : PyStr.upper (Monedas.csv_Codigo r) = PyStr.upper codigo) :
  Monedas.get_moneda_value (Some (l1 ++ r :: l2)) codigo
  = Tables.fillna 1 (Monedas.csv_ValorCLP r)
  /\ (Monedas.csv_ValorCLP r = None ->
      exists v, Monedas.convert_clp_to (Some (l1 ++ r :: l2)) monto codigo = Some v
                /\ (v == monto)%Q).
Proof.
  pose proof (get_moneda_value_row l1 l2 r codigo Hbefore Hrow) as H.
  split; [exact H|].
  intros Hnan. rewrite convert_clp_to_value, H, Hnan. simpl.
  eexists. split; [reflexivity|]. field.
Qed.

Lemma get_moneda_value_first_match_witness :
  Monedas.get_moneda_value
    (Some ([Monedas.mk_moneda_csv "CLP" "Peso Chileno" (Some 1%Q)]
           ++ Monedas.mk_moneda_csv "Eur" "Euro" None
           :: [Monedas.mk_moneda_csv "EUR" "Euro (nuevo)" (Some 1000%Q)])) "EUR"
  = 1%Q.
Proof.
  refine (proj1 (get_moneda_value_first_match
                   [Monedas.mk_moneda_csv "CLP" "Peso Chileno" (Some 1%Q)]
                   [Monedas.mk_moneda_csv "EUR" "Euro (nuevo)" (Some 1000%Q)]
                   (Monedas.mk_moneda_csv "Eur" "Euro" None) "EUR" 5 _ eq_refl)).
  repeat constructor. discriminate.
Defined.

Section CurrencyUpdateFacts.
Import PyStr Tables Monedas ActualizarMonedas.
Local Open Scope Q_scope.

Lemma filter_head_In {A : Type} (p : A -> bool) (l : list A) (x : A) (rest : list A) :
filter p l = x :: rest -> In x l /\ p x = true.
Proof.
intros E. assert (In x (filter p l)) as H by (rewrite E; now left).
now apply filter_In in H.
Qed.

Lemma valor_after_map_keep (f : moneda_row -> moneda_row) (df : list moneda_row)
  (codigo : string) :
(forall x, mo_Codigo (f x) = mo_Codigo x) ->
(forall x, In x df -> upper (mo_Codigo x) = upper codigo ->
           ValorCLP (f x) = ValorCLP x) ->
match filter (fun x => String.eqb (upper (mo_Codigo x)) (upper codigo)) (map f df) with
| [] => 1
| x :: _ => ValorCLP x
end
= match filter (fun x => String.eqb (upper (mo_Codigo x)) (upper codigo)) df with
  | [] => 1
  | x :: _ => ValorCLP x
  end.
Proof.
intros Hf Hk. rewrite valor_after_map by exact Hf.
destruct (filter _ df) as [|x rest] eqn:E; [reflexivity|].
apply filter_head_In in E. destruct E as [Hin Hp].
apply Hk; [exact Hin|now apply String.eqb_eq].
Qed.

Lemma valor_after_map_set (f : moneda_row -> moneda_row) (df : list moneda_row)
  (codigo : string) (v : Q) :
(forall x, mo_Codigo (f x) = mo_Codigo x) ->
(forall x, In x df -> upper (mo_Codigo x) = upper codigo -> ValorCLP (f x) = v) ->
(exists x, In x df /\ upper (mo_Codigo x) = upper codigo) ->
match filter (fun x => String.eqb (upper (mo_Codigo x)) (upper codigo)) (map f df) with
| [] => 1
| x :: _ => ValorCLP x
end = v.
Proof.
intros Hf Hs (y & Hy & Ey). rewrite valor_after_map by exact Hf.
destruct (filter _ df) as [|x rest] eqn:E.
- exfalso. assert (In y (filter (fun x => String.eqb (upper (mo_Codigo x))
                                                      (upper codigo)) df)) as H.
  { apply filter_In. split; [exact Hy|now apply String.eqb_eq]. }
  now rewrite E in H.
- apply filter_head_In in E. destruct E as [Hin Hp].
  apply Hs; [exact Hin|now apply String.eqb_eq].
Qed.

Lemma set_valor_no_row (code : string) (valor : Q) (rows : list moneda_row) :
existsb (fun r => String.eqb (mo_Codigo r) code) rows = false ->
set_valor code valor rows = rows.
Proof.
intros H. unfold set_valor. rewrite <- (map_id rows) at 2.
apply map_ext_in. intros r Hr.
destruct (String.eqb (mo_Codigo r) code) eqn:E; [|reflexivity].
exfalso. rewrite <- not_true_iff_false in H. apply H.
apply existsb_exists. now exists r.
Qed.

Lemma update_valor_rows (pd : pandas) (code : string) (valor : Q)
  (df df' : dtype * list moneda_row) :
update_valor pd code valor df = Some df' ->
snd df' = set_valor code valor (snd df).
Proof.
destruct df as [dt rows]. unfold update_valor.
destruct (existsb _ rows) eqn:E.
- destruct (holds_number dt valor); [now intros [= <-]|].
  destruct pd; [now intros [= <-]|discriminate].
- intros [= <-]. cbn [snd]. now rewrite set_valor_no_row.
Qed.

Lemma update_valor_returns (pd : pandas) (code : string) (valor : Q)
  (df : dtype * list moneda_row) :
pd = Pandas2 \/ holds_number (fst df) valor = true ->
exists df', update_valor pd code valor df = Some df'
            /\ (holds_number (fst df) valor = true -> fst df' = fst df).
Proof.
destruct df as [dt rows]. unfold update_valor. cbn [fst].
intros H. destruct (existsb _ rows); [|eexists; split; reflexivity].
destruct (holds_number dt valor) eqn:E; [eexists; split; reflexivity|].
destruct H as [->|H]; [|discriminate].
eexists. split; [reflexivity|discriminate].
Qed.

Lemma actualizar_rows (pd : pandas) (valor_dtype : dtype)
  (file : option (list moneda_csv_row)) (valor_uf valor_dolar : Q)
  (saved : list moneda_csv_row) :
actualizar_indicadores pd valor_dtype file valor_uf valor_dolar = Some saved ->
load_monedas (Some saved)
= map (fun r =>
         let r1 := if String.eqb (mo_Codigo r) "UF"
                   then mk_moneda (mo_Codigo r) (mo_Nombre r) valor_uf else r in
         if String.eqb (mo_Codigo r1) "USD"
         then mk_moneda (mo_Codigo r1) (mo_Nombre r1) valor_dolar else r1)
      (load_monedas file).
Proof.
unfold actualizar_indicadores. cbv zeta.
destruct (update_valor pd "UF" valor_uf _) as [df1|] eqn:E1; [|discriminate].
destruct (update_valor pd "USD" valor_dolar df1) as [df2|] eqn:E2; [|discriminate].
intros [= <-]. rewrite load_save_monedas.
rewrite (update_valor_rows _ _ _ _ _ E2), (update_valor_rows _ _ _ _ _ E1).
cbn [snd]. unfold set_valor. now rewrite map_map.
Qed.
End CurrencyUpdateFacts.

(** X15.  [actualizar_indicadores] saves its table under pandas 2, and
    under pandas 3 when the [ValorCLP] column can hold the two fetched
    values as it is.  What it saves then differs from the table before
    in the rows whose code is written exactly "UF" or "USD" and in no
    other: every other currency keeps its value; when the rows that
    answer to "UF" up to case are all written "UF", the value read for
    "UF" afterwards is the one fetched; and when no row is written
    exactly "UF" (say the table has "uf"), the update leaves the UF
    value as it was without signalling it.  The same holds for "USD".
    Under pandas 3, when the file writes every value as an integer and
    has a row "UF", a fetched UF value with a fractional part makes the
    assignment raise: the function returns [False] and saves
    nothing. *)
Theorem actualizar_indicadores_values (pd : Tables.pandas)
  (valor_dtype : Tables.dtype) (file : option (list Monedas.moneda_csv_row))
  (valor_uf valor_dolar : Q) :
  (pd = Tables.Pandas2
   \/ (Tables.holds_number
         (match file with Some _ => valor_dtype | None => Tables.Float64Dtype end)
         valor_uf = true
       /\ Tables.holds_number
            (match file with Some _ => valor_dtype | None => Tables.Float64Dtype end)
            valor_dolar = true) ->
   exists saved,
     ActualizarMonedas.actualizar_indicadores pd valor_dtype file valor_uf valor_dolar
     = Some saved)
  /\ (forall saved,
        ActualizarMonedas.actualizar_indicadores pd valor_dtype file valor_uf valor_dolar
        = Some saved ->
        (forall c, PyStr.upper c <> "UF" -> PyStr.upper c <> "USD" ->
           Monedas.get_moneda_value (Some saved) c = Monedas.get_moneda_value file c)
        /\ (forall code valor,
              (code = "UF" /\ valor = valor_uf) \/ (code = "USD" /\ valor = valor_dolar) ->
              (forall x, In x (Monedas.load_monedas file) ->
                         PyStr.upper (Monedas.mo_Codigo x) = code ->
                         Monedas.mo_Codigo x = code) ->
              (exists x, In x (Monedas.load_monedas file) /\ Monedas.mo_Codigo x = code) ->
              Monedas.get_moneda_value (Some saved) code = valor)
        /\ (forall code,
              code = "UF" \/ code = "USD" ->
              Forall (fun x => Monedas.mo_Codigo x <> code) (Monedas.load_monedas file) ->
              Monedas.get_moneda_value (Some saved) code
              = Monedas.get_moneda_value file code))
  /\ (forall rows,
        file = Some rows ->
        (exists x, In x rows /\ Monedas.csv_Codigo x = "UF") ->
        Tables.int64_holds valor_uf = false ->
        ActualizarMonedas.actualizar_indicadores
          Tables.Pandas3 Tables.Int64Dtype file valor_uf valor_dolar = None)
  /\ ActualizarMonedas.actualizar_indicadores Tables.Pandas3 Tables.Int64Dtype
       (Some [Monedas.mk_moneda_csv "CLP" "Peso Chileno" (Some 1%Q);
              Monedas.mk_moneda_csv "UF" "Unidad de Fomento" (Some 39000%Q)])
       (3964359 # 100) 950 = None
  /\ ActualizarMonedas.actualizar_indicadores Tables.Pandas2 Tables.Int64Dtype
       (Some [Monedas.mk_moneda_csv "CLP" "Peso Chileno" (Some 1%Q);
              Monedas.mk_moneda_csv "UF" "Unidad de Fomento" (Some 39000%Q)])
       (3964359 # 100) 950
     = Some [Monedas.mk_moneda_csv "CLP" "Peso Chileno" (Some 1%Q);
             Monedas.mk_moneda_csv "UF" "Unidad de Fomento" (Some (3964359 # 100)%Q)].
Proof.
  split; [|split; [|split; [|split; reflexivity]]].
  - intros H. unfold ActualizarMonedas.actualizar_indicadores. cbv zeta.
    set (dt0 := match file with Some _ => valor_dtype | None => Tables.Float64Dtype end)
      in *.
    destruct (update_valor_returns pd "UF" valor_uf (dt0, Monedas.load_monedas file))
      as (df1 & E1 & Hdt1); [cbn [fst]; tauto|].
    rewrite E1.
    destruct (update_valor_returns pd "USD" valor_dolar df1) as (df2 & E2 & _).
    { destruct H as [H|[H1 H2]]; [now left|right].
      cbn [fst] in Hdt1. now rewrite (Hdt1 H1). }
    rewrite E2. eexists. reflexivity.
  - intros saved Hs. pose proof (actualizar_rows _ _ _ _ _ _ Hs) as Hrows.
    split; [|split].
    + intros c H1 H2. unfold Monedas.get_moneda_value at 1. cbv zeta.
      rewrite Hrows. apply valor_after_map_keep.
      * intros x. destruct (String.eqb (Monedas.mo_Codigo x) "UF");
          cbn [Monedas.mo_Codigo];
          destruct (String.eqb (Monedas.mo_Codigo x) "USD"); reflexivity.
      * intros x _ E. cbv zeta.
        destruct (String.eqb_spec (Monedas.mo_Codigo x) "UF") as [E1|E1];
          [rewrite E1 in E; now elim H1|].
        destruct (String.eqb_spec (Monedas.mo_Codigo x) "USD") as [E2|E2];
          [rewrite E2 in E; now elim H2|].
        reflexivity.
    + intros code valor Hc Hexact (y & Hy & Ey).
      unfold Monedas.get_moneda_value. cbv zeta.
      rewrite Hrows. apply valor_after_map_set.
      * intros x. destruct (String.eqb (Monedas.mo_Codigo x) "UF");
          cbn [Monedas.mo_Codigo];
          destruct (String.eqb (Monedas.mo_Codigo x) "USD"); reflexivity.
      * intros x Hx E.
        assert (PyStr.upper code = code) as Hup
          by (destruct Hc as [[-> _]|[-> _]]; reflexivity).
        rewrite Hup in E. apply (Hexact x Hx) in E. cbv zeta.
        destruct Hc as [[-> ->]|[-> ->]]; rewrite E; simpl; rewrite ?E; reflexivity.
      * exists y. split; [exact Hy|]. now rewrite Ey.
    + intros code Hc Hnone. unfold Monedas.get_moneda_value at 1. cbv zeta.
      rewrite Hrows. apply valor_after_map_keep.
      * intros x. destruct (String.eqb (Monedas.mo_Codigo x) "UF");
          cbn [Monedas.mo_Codigo];
          destruct (String.eqb (Monedas.mo_Codigo x) "USD"); reflexivity.
      * intros x Hx E. rewrite Forall_forall in Hnone. specialize (Hnone x Hx).
        cbv zeta.
        destruct (String.eqb_spec (Monedas.mo_Codigo x) "UF") as [E1|E1].
        -- destruct Hc as [->| ->]; [contradiction|].
           rewrite E1 in E. discriminate E.
        -- destruct (String.eqb_spec (Monedas.mo_Codigo x) "USD") as [E2|E2];
             [|reflexivity].
           destruct Hc as [->| ->]; [|contradiction].
           rewrite E2 in E. discriminate E.
  - intros rows -> (x & Hx & Ex) Hfrac.
    unfold ActualizarMonedas.actualizar_indicadores, ActualizarMonedas.update_valor.
    cbv zeta.
    assert (existsb (fun r => String.eqb (Monedas.mo_Codigo r) "UF")
                    (Monedas.load_monedas (Some rows)) = true) as ->.
    { apply existsb_exists.
      exists (Monedas.mk_moneda (Monedas.csv_Codigo x) (Monedas.csv_Nombre x)
                (Tables.fillna 1 (Monedas.csv_ValorCLP x))).
      split; [|cbn [Monedas.mo_Codigo]; now rewrite Ex].
      unfold Monedas.load_monedas. cbv zeta.
      apply in_map_iff. now exists x. }
    cbn [Tables.holds_number]. now rewrite Hfrac.
Qed.

(** X16.  Whatever the editor returns, the table
    [render_gestionar_monedas] saves gives CLP the value 1.0 under every
    spelling of its code, so amounts convert into CLP unchanged; the
    other currencies are saved as edited. *)
Theorem guardar_monedas_keeps_clp_at_one (edited_df : list Monedas.moneda_csv_row)
  (monto : Q) :
  (forall c, PyStr.upper c = "CLP" ->
     Monedas.get_moneda_value (Some (ActualizarMonedas.guardar_monedas edited_df)) c = 1%Q
     /\ exists v,
          Monedas.convert_clp_to (Some (ActualizarMonedas.guardar_monedas edited_df))
                                 monto c = Some v
          /\ (v == monto)%Q)
  /\ (forall c, PyStr.upper c <> "CLP" ->
        Monedas.get_moneda_value (Some (ActualizarMonedas.guardar_monedas edited_df)) c
        = Monedas.get_moneda_value (Some edited_df) c).
Proof.
  assert (forall c, PyStr.upper c = "CLP" ->
            Monedas.get_moneda_value
              (Some (ActualizarMonedas.guardar_monedas edited_df)) c = 1%Q) as H1.
  { intros c Hc. unfold Monedas.get_moneda_value, Monedas.load_monedas,
      ActualizarMonedas.guardar_monedas. cbv zeta. rewrite map_map, Hc.
    induction edited_df as [|r df IH]; [reflexivity|]. cbn [map filter].
    destruct (String.eqb_spec (PyStr.upper (Monedas.csv_Codigo r)) "CLP") as [E|E];
      cbn [Monedas.mo_Codigo Monedas.csv_Codigo].
    - rewrite E. simpl. reflexivity.
    - destruct (String.eqb_spec (PyStr.upper (Monedas.csv_Codigo r)) "CLP");
        [contradiction|exact IH]. }
  split.
  - intros c Hc. split; [now apply H1|].
    rewrite convert_clp_to_value, (H1 c Hc). simpl.
    eexists. split; [reflexivity|]. field.
  - intros c Hc. clear H1. unfold Monedas.get_moneda_value, Monedas.load_monedas,
      ActualizarMonedas.guardar_monedas. cbv zeta. rewrite map_map.
    induction edited_df as [|r df IH]; [reflexivity|]. cbn [map filter].
    destruct (String.eqb_spec (PyStr.upper (Monedas.csv_Codigo r)) "CLP") as [E|E];
      cbn [Monedas.mo_Codigo Monedas.csv_Codigo].
    + destruct (String.eqb_spec (PyStr.upper (Monedas.csv_Codigo r)) (PyStr.upper c))
        as [E2|E2]; [|exact IH].
      exfalso. apply Hc. rewrite <- E2. exact E.
    + destruct (String.eqb (PyStr.upper (Monedas.csv_Codigo r)) (PyStr.upper c));
        [reflexivity|exact IH].
Qed.

(** ** The order of strings *)

Section StringOrderFacts.

Lemma ascii_compare_refl (c : ascii) : Ascii.compare c c = Eq.
Proof. unfold Ascii.compare. apply N.compare_refl. Qed.

Lemma string_compare_refl (s : string) : String.compare s s = Eq.
Proof.
induction s as [|c s IH]; simpl; [reflexivity|]. now rewrite ascii_compare_refl.
Qed.

Lemma ascii_compare_lt_trans (a b c : ascii) :
Ascii.compare a b = Lt -> Ascii.compare b c = Lt -> Ascii.compare a c = Lt.
Proof.
unfold Ascii.compare. rewrite !N.compare_lt_iff. apply N.lt_trans.
Qed.

Lemma string_compare_lt_trans (a b c : string) :
String.compare a b = Lt -> String.compare b c = Lt -> String.compare a c = Lt.
Proof.
revert b c. induction a as [|x a IH]; intros [|y b] [|z c]; simpl; try easy.
destruct (Ascii.compare x y) eqn:E1; try easy;
  destruct (Ascii.compare y z) eqn:E2; try easy.
- apply Ascii.compare_eq_iff in E1, E2. subst. rewrite ascii_compare_refl.
  apply IH.
- apply Ascii.compare_eq_iff in E1. subst. now rewrite E2.
- apply Ascii.compare_eq_iff in E2. subst. now rewrite E1.
- now rewrite (ascii_compare_lt_trans x y z E1 E2).
Qed.

Lemma ltb_irrefl (s : string) : String.ltb s s = false.
Proof. unfold String.ltb. now rewrite string_compare_refl. Qed.

Lemma ltb_trans (a b c : string) :
String.ltb a b = true -> String.ltb b c = true -> String.ltb a c = true.
Proof.
unfold String.ltb.
destruct (String.compare a b) eqn:E1; try discriminate.
destruct (String.compare b c) eqn:E2; try discriminate.
now rewrite (string_compare_lt_trans a b c E1 E2).
Qed.

Lemma ltb_total (a b : string) :
String.ltb a b = false -> String.ltb b a = false -> a = b.
Proof.
unfold String.ltb. rewrite (String.compare_antisym b a).
destruct (String.compare a b) eqn:E; simpl; try discriminate.
intros _ _. now apply String.compare_eq_iff.
Qed.

Lemma ltb_asym (a b : string) : String.ltb a b = true -> String.ltb b a = false.
Proof.
unfold String.ltb. rewrite (String.compare_antisym b a).
now destruct (String.compare a b).
Qed.

Lemma ltb_le_trans (a b c : string) :
String.ltb b a = false -> String.ltb c b = false -> String.ltb c a = false.
Proof.
intros H1 H2. apply not_true_is_false. intros H3.
destruct (String.ltb a b) eqn:E.
- rewrite (ltb_trans c a b H3 E) in H2. discriminate.
- rewrite (ltb_total a b E H1) in H3. congruence.
Qed.

Lemma codigo_lt_asym (a b : option string) :
ModificarPresupuesto.codigo_lt a b = true -> ModificarPresupuesto.codigo_lt b a = false.
Proof.
destruct a as [x|], b as [y|]; simpl; try easy. apply ltb_asym.
Qed.

Lemma codigo_le_trans (a b c : option string) :
ModificarPresupuesto.codigo_lt b a = false ->
ModificarPresupuesto.codigo_lt c b = false ->
ModificarPresupuesto.codigo_lt c a = false.
Proof.
destruct a as [x|], b as [y|], c as [z|]; simpl; try easy. apply ltb_le_trans.
Qed.

Lemma pair_lt_asym (a b : string * option string) :
ModificarPresupuesto.pair_lt a b = true -> ModificarPresupuesto.pair_lt b a = false.
Proof.
destruct a as [a1 a2], b as [b1 b2]. unfold ModificarPresupuesto.pair_lt. simpl.
intros H. apply orb_true_iff in H. apply orb_false_iff.
destruct H as [H|H].
- split; [now apply ltb_asym|].
  apply andb_false_iff. left. apply String.eqb_neq. intros ->.
  now rewrite ltb_irrefl in H.
- apply andb_true_iff in H. destruct H as [E H]. apply String.eqb_eq in E. subst.
  split; [apply ltb_irrefl|]. rewrite String.eqb_refl. now apply codigo_lt_asym.
Qed.

Lemma pair_lt_false (a b : string * option string) :
ModificarPresupuesto.pair_lt b a = false <->
String.ltb (fst b) (fst a) = false
/\ (fst b = fst a -> ModificarPresupuesto.codigo_lt (snd b) (snd a) = false).
Proof.
unfold ModificarPresupuesto.pair_lt. rewrite orb_false_iff, andb_false_iff.
rewrite String.eqb_neq. split.
- intros [H1 [H2|H2]]; split; auto. intros E. contradiction.
- intros [H1 H2]. split; [exact H1|].
  destruct (string_dec (fst b) (fst a)); auto.
Qed.

Lemma pair_le_trans (a b c : string * option string) :
ModificarPresupuesto.pair_lt b a = false ->
ModificarPresupuesto.pair_lt c b = false ->
ModificarPresupuesto.pair_lt c a = false.
Proof.
rewrite !pair_lt_false. intros [H1 H2] [H3 H4]. split.
- now apply (ltb_le_trans (fst a) (fst b) (fst c)).
- intros E.
  assert (fst b = fst a) as Eb.
  { apply ltb_total; [exact H1|]. rewrite <- E. exact H3. }
  assert (fst c = fst b) as Ec by congruence.
  now apply (codigo_le_trans (snd a) (snd b) (snd c)); auto.
Qed.
End StringOrderFacts.

(** X17.  [_sort_datos_by_item] and [_sort_detalle_by_item] return the
    rows they are given, none lost or added, in the order of the
    normalised item code (and then of [Codigo] for the detail table, a
    missing [Codigo] last); both leave an empty table empty. *)
Theorem sort_by_item_sorted (datos_df : list ModificarDatos.datos_fila)
  (detalle_df : list Tables.detalle_row) :
  Permutation (ModificarDatos._sort_datos_by_item datos_df) datos_df
  /\ StronglySorted
       (PySort.key_le String.ltb
          (fun r => ModificarPresupuesto._norm_item_code (ModificarDatos.f_Item_str r)))
       (ModificarDatos._sort_datos_by_item datos_df)
  /\ Permutation (ModificarPresupuesto._sort_detalle_by_item detalle_df) detalle_df
  /\ StronglySorted
       (PySort.key_le ModificarPresupuesto.pair_lt
          (fun r => (ModificarPresupuesto._norm_item_code (Tables.item_str r),
                     Tables.Codigo r)))
       (ModificarPresupuesto._sort_detalle_by_item detalle_df)
  /\ ModificarDatos._sort_datos_by_item [] = []
  /\ ModificarPresupuesto._sort_detalle_by_item [] = [].
Proof.
  split; [|split; [|split; [|split; [|split; reflexivity]]]].
  - unfold ModificarDatos._sort_datos_by_item.
    destruct datos_df; [constructor|apply sorted_perm].
  - unfold ModificarDatos._sort_datos_by_item.
    destruct datos_df; [constructor|].
    apply sorted_sorted; [apply ltb_asym|apply ltb_le_trans].
  - apply sort_detalle_perm.
  - unfold ModificarPresupuesto._sort_detalle_by_item.
    destruct detalle_df; [constructor|].
    apply sorted_sorted; [apply pair_lt_asym|apply pair_le_trans].
Qed.

(** ** [strip] *)

Section StripFacts.
Import PyStrip.

Lemma lstrip_head (s : string) :
lstrip s = EmptyString
\/ exists c s', lstrip s = String c s' /\ is_str_space c = false.
Proof.
induction s as [|c s IH]; [now left|]. simpl.
destruct (is_str_space c) eqn:E; [exact IH|].
right. now exists c, s.
Qed.

Lemma rstrip_head (c : ascii) (s : string) :
is_str_space c = false -> exists r, rstrip (String c s) = String c r.
Proof.
intros H. simpl. destruct (rstrip s) as [|d r].
- rewrite H. now exists EmptyString.
- now exists (String d r).
Qed.

Lemma rstrip_idempotent (s : string) : rstrip (rstrip s) = rstrip s.
Proof.
induction s as [|c s IH]; [reflexivity|]. simpl.
destruct (rstrip s) as [|d r] eqn:E.
- destruct (is_str_space c) eqn:Hc; [reflexivity|]. simpl. now rewrite Hc.
- change (rstrip (String c (String d r))) with
    (match rstrip (String d r) with
     | EmptyString => if is_str_space c then EmptyString else String c EmptyString
     | r0 => String c r0
     end).
  now rewrite IH.
Qed.

Lemma strip_idempotent (s : string) : strip (strip s) = strip s.
Proof.
unfold strip. destruct (lstrip_head s) as [->|(c & s' & -> & Hc)]; [reflexivity|].
destruct (rstrip_head c s' Hc) as [r Er]. rewrite Er.
cbn [lstrip]. rewrite Hc, <- Er. apply rstrip_idempotent.
Qed.
End StripFacts.

(** ** Writes of the item table *)

Section DatosFacts.
Import PySort Tables ModificarDatos.

Lemma sort_datos_perm (df : list datos_fila) :
Permutation (_sort_datos_by_item df) df.
Proof.
unfold _sort_datos_by_item. destruct df; [constructor|apply sorted_perm].
Qed.

Lemma replace_first_items (code : string) (row : datos_fila) (df : list datos_fila) :
f_Item_str row = code ->
map f_Item_str (replace_first (fun r => String.eqb (f_Item_str r) code) row df)
= map f_Item_str df.
Proof.
intros H. induction df as [|x df IH]; simpl; [reflexivity|].
destruct (String.eqb_spec (f_Item_str x) code) as [E|E]; simpl.
- now rewrite H, E.
- now rewrite IH.
Qed.

Lemma replace_first_other (code : string) (row r : datos_fila) (df : list datos_fila) :
f_Item_str row = code -> f_Item_str r <> code ->
(In r (replace_first (fun x => String.eqb (f_Item_str x) code) row df) <-> In r df).
Proof.
intros H Hr. induction df as [|x df IH]; simpl; [tauto|].
destruct (String.eqb_spec (f_Item_str x) code) as [E|E]; simpl.
- split; intros [<-|Hin]; auto; congruence.
- rewrite IH. tauto.
Qed.

Lemma replace_first_row (code : string) (row : datos_fila) (df : list datos_fila) :
existsb (fun x => String.eqb (f_Item_str x) code) df = true ->
In row (replace_first (fun x => String.eqb (f_Item_str x) code) row df).
Proof.
induction df as [|x df IH]; simpl; [discriminate|].
destruct (String.eqb (f_Item_str x) code); simpl; [now left|]. intros H. right. auto.
Qed.

Lemma existsb_item (code : string) (df : list datos_fila) :
existsb (fun x => String.eqb (f_Item_str x) code) df = true
<-> In code (map f_Item_str df).
Proof.
rewrite existsb_exists, in_map_iff. split.
- intros (x & Hx & E). apply String.eqb_eq in E. now exists x.
- intros (x & E & Hx). exists x. split; [exact Hx|now apply String.eqb_eq].
Qed.

Variable pd : pandas.
Variable dtypes : datos_dtypes.
Variable datos_df : list datos_fila.
Variable item_code partida fecha cant_tipo : string.
Variable cant_num moneda : Q.
Hypothesis Hstrip : PyStrip.strip item_code = item_code.

(** The table [_upsert_item] returns when it returns. *)
Lemma upsert_rows (up : list datos_fila) :
_upsert_item pd dtypes datos_df item_code partida fecha cant_tipo cant_num moneda
= Some up ->
up = if existsb (fun r => String.eqb (f_Item_str r) item_code) datos_df
     then replace_first (fun r => String.eqb (f_Item_str r) item_code)
            (mk_fila (Str item_code) (PyStrip.strip partida) (PyStrip.strip fecha)
                     cant_tipo (Some cant_num) (Some moneda)) datos_df
     else datos_df ++ [mk_fila (Str item_code) (PyStrip.strip partida)
                               (PyStrip.strip fecha) cant_tipo (Some cant_num)
                               (Some moneda)].
Proof.
unfold _upsert_item. cbv zeta. rewrite Hstrip.
destruct (existsb _ datos_df); [|now intros [= <-]].
destruct pd; [now intros [= <-]|].
destruct (at_compatible dtypes cant_num moneda); [now intros [= <-]|discriminate].
Qed.

Lemma upsert_returns :
pd = Pandas2 \/ at_compatible dtypes cant_num moneda = true ->
exists up,
  _upsert_item pd dtypes datos_df item_code partida fecha cant_tipo cant_num moneda
  = Some up.
Proof.
unfold _upsert_item. cbv zeta. intros H.
destruct (existsb _ datos_df); [|eexists; reflexivity].
destruct H as [->| ->]; [|destruct pd]; eexists; reflexivity.
Qed.

Variable up : list datos_fila.
Hypothesis Hup :
  _upsert_item pd dtypes datos_df item_code partida fecha cant_tipo cant_num moneda
  = Some up.

Lemma upsert_items (c : string) :
In c (map f_Item_str up) <-> c = item_code \/ In c (map f_Item_str datos_df).
Proof.
rewrite (upsert_rows up Hup).
destruct (existsb _ datos_df) eqn:E.
- rewrite replace_first_items by reflexivity.
  apply existsb_item in E. split; [auto|]. intros [->|H]; auto.
- rewrite map_app, in_app_iff. cbn. intuition.
Qed.

Lemma upsert_NoDup :
NoDup (map f_Item_str datos_df) -> NoDup (map f_Item_str up).
Proof.
intros Hnd. rewrite (upsert_rows up Hup).
destruct (existsb _ datos_df) eqn:E.
- now rewrite replace_first_items by reflexivity.
- rewrite map_app. cbn.
  apply NoDup_app; [exact Hnd|repeat constructor; auto|].
  intros a Ha [<-|[]]. apply existsb_item in Ha. congruence.
Qed.

Lemma upsert_other (r : datos_fila) :
f_Item_str r <> item_code -> (In r up <-> In r datos_df).
Proof.
intros Hr. rewrite (upsert_rows up Hup).
destruct (existsb _ datos_df) eqn:E.
- apply replace_first_other; [reflexivity|exact Hr].
- rewrite in_app_iff. split; [|auto]. intros [H|[<-|[]]]; [exact H|].
  cbn in Hr. congruence.
Qed.

Lemma upsert_row :
In (mk_fila (Str item_code) (PyStrip.strip partida) (PyStrip.strip fecha) cant_tipo
            (Some cant_num) (Some moneda)) up.
Proof.
rewrite (upsert_rows up Hup).
destruct (existsb _ datos_df) eqn:E.
- now apply replace_first_row.
- apply in_app_iff. right. now left.
Qed.
End DatosFacts.

Section EditRowsFacts.
Import Tables ModificarPresupuesto.

Lemma rename_rows (pd : pandas) (item_dtype : dtype) (det det' : list detalle_row)
  (old_item new_item : string) (r : detalle_row) :
_rename_item_and_consolidate pd item_dtype det old_item new_item = Some det' ->
In r det' ->
exists d, In d det
          /\ item_str r = if String.eqb (item_str d) old_item
                          then new_item else item_str d.
Proof.
unfold _rename_item_and_consolidate. cbv zeta.
destruct (negb (String.eqb new_item old_item) && negb (is_empty det)) eqn:E.
- destruct (renamed pd item_dtype det old_item new_item) as [S|] eqn:ES;
    [|discriminate].
  intros [= <-] Hr. apply result_keys in Hr. destruct Hr as (d' & Hd' & Ek).
  rewrite (renamed_rows _ _ _ _ _ _ ES) in Hd'.
  apply in_map_iff in Hd'. destruct Hd' as (d & <- & Hd).
  exists d. split; [exact Hd|]. unfold key_of in Ek. injection Ek as Ei _.
  unfold item_str at 1. rewrite <- Ei.
  now destruct (String.eqb (item_str d) old_item).
- intros [= <-] Hr. apply (Permutation_in _ (sort_detalle_perm _)) in Hr.
  exists r. split; [exact Hr|].
  apply andb_false_iff in E. destruct E as [E|E].
  + apply negb_false_iff, String.eqb_eq in E. subst.
    now destruct (String.eqb_spec (item_str r) old_item).
  + apply negb_false_iff, is_empty_true_nil in E. now subst.
Qed.

Lemma delete_rows (det : list detalle_row) (item_code : string) (r : detalle_row) :
In r (_delete_item det item_code) ->
exists d, In d det /\ item_str d <> item_code /\ item r = item d.
Proof.
unfold _delete_item. cbv zeta. intros Hr.
assert (exists d', In d' (filter (fun r => negb (String.eqb (item_str r) item_code)) det)
                   /\ key_of d' = key_of r) as (d & Hd & Ek).
{ destruct (negb (is_empty _)) eqn:E.
  - now apply result_keys.
  - apply (Permutation_in _ (sort_detalle_perm _)) in Hr. now exists r. }
apply filter_In in Hd. destruct Hd as [Hd Hne].
apply negb_true_iff, String.eqb_neq in Hne.
exists d. repeat split; auto. unfold key_of in Ek. now injection Ek as <- _.
Qed.
End EditRowsFacts.

Lemma NoDup_map_filter_items (p : ModificarDatos.datos_fila -> bool)
  (l : list ModificarDatos.datos_fila) :
  NoDup (map ModificarDatos.f_Item_str l) ->
  NoDup (map ModificarDatos.f_Item_str (filter p l)).
Proof.
  induction l as [|x l IH]; intros H; simpl; [constructor|].
  inversion H as [|? ? Hnot Hnd]; subst.
  destruct (p x); simpl; [|now apply IH].
  constructor; [|now apply IH].
  intros Hin. apply Hnot. apply in_map_iff in Hin. destruct Hin as (y & Ey & Hy).
  apply filter_In in Hy. rewrite <- Ey. apply in_map. tauto.
Qed.

(** The item table a rename returns, when it returns. *)
Lemma rename_datos (pd : Tables.pandas) (dtypes : ModificarDatos.datos_dtypes)
  (item_dtype : Tables.dtype) (datos_df : list ModificarDatos.datos_fila)
  (detalle_df : list Tables.detalle_row)
  (old_item new_item partida fecha_str cant_tipo : string) (cant_num moneda : Q)
  (res : list ModificarDatos.datos_fila * list Tables.detalle_row) :
  ModificarDatos._rename_item_and_consolidate pd dtypes item_dtype datos_df detalle_df
    old_item new_item partida fecha_str cant_tipo cant_num moneda = Some res ->
  exists up,
    ModificarDatos._upsert_item pd dtypes datos_df new_item partida fecha_str
      cant_tipo cant_num moneda = Some up
    /\ fst res
       = ModificarDatos._sort_datos_by_item
           (if negb (String.eqb new_item old_item)
            then filter (fun r => negb (String.eqb (ModificarDatos.f_Item_str r)
                                                   old_item)) up
            else up)
    /\ ModificarPresupuesto._rename_item_and_consolidate
         pd item_dtype detalle_df old_item new_item = Some (snd res).
Proof.
  unfold ModificarDatos._rename_item_and_consolidate.
  destruct (ModificarDatos._upsert_item _ _ _ _ _ _ _ _ _) as [up|]; [|discriminate].
  cbv zeta.
  destruct (ModificarPresupuesto._rename_item_and_consolidate _ _ _ _ _) as [det|];
    [|discriminate].
  intros [= <-]. exists up. repeat split.
Qed.

Lemma rename_both_returns (pd : Tables.pandas) (dtypes : ModificarDatos.datos_dtypes)
  (item_dtype : Tables.dtype) (datos_df : list ModificarDatos.datos_fila)
  (detalle_df : list Tables.detalle_row)
  (old_item new_item partida fecha_str cant_tipo : string) (cant_num moneda : Q) :
  pd = Tables.Pandas2
  \/ (ModificarDatos.at_compatible dtypes cant_num moneda = true
      /\ Tables.is_object item_dtype = true) ->
  exists res,
    ModificarDatos._rename_item_and_consolidate pd dtypes item_dtype datos_df
      detalle_df old_item new_item partida fecha_str cant_tipo cant_num moneda
    = Some res.
Proof.
  intros H. unfold ModificarDatos._rename_item_and_consolidate.
  destruct (upsert_returns pd dtypes datos_df new_item partida fecha_str cant_tipo
              cant_num moneda) as (up & ->); [tauto|].
  cbv zeta.
  destruct (rename_returns pd item_dtype detalle_df old_item new_item) as (det & ->);
    [tauto|].
  eexists. reflexivity.
Qed.

(** X18.  Renaming or re-saving an item keeps the item codes of the
    item table unique.  [_rename_item_and_consolidate] returns under
    pandas 2, and under pandas 3 when every column can hold the value
    assigned to it (the columns of text are held as strings, an [int64]
    column is not given a fractional number).  Whenever it returns, and
    with the new code stripped as the caller strips it, the item table
    it returns has one row for the new code, holding it as a string and
    carrying the edited fields; the old code is gone when it differs
    from the new one; and every other item's row is there exactly as
    before.  Under pandas 3 the call raises when the [Item] column holds
    numbers and the new code is the code of a row. *)
Theorem rename_keeps_item_codes_unique (pd : Tables.pandas)
  (dtypes : ModificarDatos.datos_dtypes) (item_dtype : Tables.dtype)
  (datos_df : list ModificarDatos.datos_fila)
  (detalle_df : list Tables.detalle_row)
  (old_item raw_code partida fecha_str cant_tipo : string) (cant_num moneda : Q)
  (Hnd : NoDup (map ModificarDatos.f_Item_str datos_df)) :
  let new_item := PyStrip.strip raw_code in
  (pd = Tables.Pandas2
   \/ (ModificarDatos.at_compatible dtypes cant_num moneda = true
       /\ Tables.is_object item_dtype = true) ->
   exists res,
     ModificarDatos._rename_item_and_consolidate pd dtypes item_dtype datos_df
       detalle_df old_item new_item partida fecha_str cant_tipo cant_num moneda
     = Some res)
  /\ (forall res,
        ModificarDatos._rename_item_and_consolidate pd dtypes item_dtype datos_df
          detalle_df old_item new_item partida fecha_str cant_tipo cant_num moneda
        = Some res ->
        NoDup (map ModificarDatos.f_Item_str (fst res))
        /\ In (ModificarDatos.mk_fila (Tables.Str new_item) (PyStrip.strip partida)
                 (PyStrip.strip fecha_str) cant_tipo (Some cant_num) (Some moneda))
              (fst res)
        /\ (new_item <> old_item ->
            ~ In old_item (map ModificarDatos.f_Item_str (fst res)))
        /\ (forall r, ModificarDatos.f_Item_str r <> old_item ->
                      ModificarDatos.f_Item_str r <> new_item ->
                      (In r (fst res) <-> In r datos_df)))
  /\ (Tables.is_object (ModificarDatos.dt_Item dtypes) = false ->
      In new_item (map ModificarDatos.f_Item_str datos_df) ->
      ModificarDatos._rename_item_and_consolidate Tables.Pandas3 dtypes item_dtype
        datos_df detalle_df old_item new_item partida fecha_str cant_tipo
        cant_num moneda = None).
Proof.
  intros new_item.
  assert (PyStrip.strip new_item = new_item) as Hs by apply strip_idempotent.
  split; [apply rename_both_returns|]. split.
  - intros res Hres.
    destruct (rename_datos _ _ _ _ _ _ _ _ _ _ _ _ _ Hres) as (up & Hup & -> & _).
    pose proof (upsert_NoDup pd dtypes datos_df new_item partida fecha_str cant_tipo
                  cant_num moneda Hs up Hup Hnd) as Hupnd.
    pose proof (upsert_row pd dtypes datos_df new_item partida fecha_str cant_tipo
                  cant_num moneda Hs up Hup) as Hrow.
    assert (forall l, Permutation (map ModificarDatos.f_Item_str
                                       (ModificarDatos._sort_datos_by_item l))
                                  (map ModificarDatos.f_Item_str l)) as Hpm
      by (intros l; apply Permutation_map, sort_datos_perm).
    assert (forall l r, In r (ModificarDatos._sort_datos_by_item l) <-> In r l) as Hpi.
    { intros l r. split; apply Permutation_in;
        [|symmetry]; apply sort_datos_perm. }
    destruct (String.eqb_spec new_item old_item) as [E|E]; cbn [negb].
    + split; [eapply Permutation_NoDup; [symmetry; apply Hpm|exact Hupnd]|].
      split; [now apply Hpi|]. split; [contradiction|].
      intros r H1 H2. rewrite Hpi.
      now apply (upsert_other pd dtypes datos_df new_item partida fecha_str
                   cant_tipo cant_num moneda Hs up Hup).
    + split.
      { eapply Permutation_NoDup; [symmetry; apply Hpm|].
        apply NoDup_map_filter_items. exact Hupnd. }
      split.
      { apply Hpi, filter_In. split; [exact Hrow|].
        cbn. now apply negb_true_iff, String.eqb_neq. }
      split.
      { intros _ Hin. apply (Permutation_in _ (Hpm _)) in Hin.
        apply in_map_iff in Hin. destruct Hin as (x & Ex & Hx).
        apply filter_In in Hx. destruct Hx as [_ Hx].
        apply negb_true_iff, String.eqb_neq in Hx. contradiction. }
      intros r H1 H2. rewrite Hpi, filter_In.
      rewrite (upsert_other pd dtypes datos_df new_item partida fecha_str cant_tipo
                 cant_num moneda Hs up Hup r H2).
      split; [tauto|]. intros H. split; [exact H|].
      now apply negb_true_iff, String.eqb_neq.
  - intros Hnum Hin. unfold ModificarDatos._rename_item_and_consolidate,
      ModificarDatos._upsert_item. cbv zeta.
    apply existsb_item in Hin. rewrite Hin.
    unfold ModificarDatos.at_compatible. now rewrite Hnum.
Qed.

Lemma rename_keeps_item_codes_unique_witness :
  exists res,
    ModificarDatos._rename_item_and_consolidate Tables.Pandas3
      (ModificarDatos.mk_dtypes Tables.ObjectDtype Tables.ObjectDtype
         Tables.ObjectDtype Tables.Int64Dtype Tables.Float64Dtype)
      Tables.ObjectDtype
      [ModificarDatos.mk_fila (Tables.Str "1.01") "Trazado" "01/02/2026" "GL"
         (Some 1%Q) (Some 1%Q);
       ModificarDatos.mk_fila (Tables.Str "1.02") "Cierre" "01/02/2026" "ml"
         (Some 20%Q) (Some 1%Q);
       ModificarDatos.mk_fila (Tables.Str "1.02.01") "Malla" "01/02/2026" "ml"
         (Some 20%Q) (Some 1%Q)]
      [Tables.mk_detalle (Tables.Str "1.02") (Some "A") (Some 2%Q)]
      "1.02" (PyStrip.strip " 1.01 ") " Cierre perimetral" "02/02/2026" "ml" 25 1
    = Some res.
Proof.
  eapply (fun Hnd => proj1 (rename_keeps_item_codes_unique Tables.Pandas3 _ _ _ _
                              "1.02" " 1.01 " _ _ _ 25 1 Hnd)).
  - simpl. repeat constructor; simpl; intuition discriminate.
  - right. split; reflexivity.
Defined.

(** X19.  Deleting an item with [_delete_item] removes its row from
    [datos.csv] and its detail from [detalle.csv] together: the code is
    gone from both tables, every other item's row is kept, unique item
    codes stay unique, and if every detail row belonged to an item of
    the item table before, that is still so afterwards. *)
Theorem delete_item_keeps_tables_consistent
  (datos_df : list ModificarDatos.datos_fila)
  (detalle_df : list Tables.detalle_row) (item_code : string)
  (Href : ModificarDatos.detalle_referenced datos_df detalle_df) :
  let res := ModificarDatos._delete_item datos_df detalle_df item_code in
  ~ In item_code (map ModificarDatos.f_Item_str (fst res))
  /\ (forall d, In d (snd res) -> Tables.item_str d <> item_code)
  /\ (forall r, ModificarDatos.f_Item_str r <> item_code ->
                (In r (fst res) <-> In r datos_df))
  /\ (NoDup (map ModificarDatos.f_Item_str datos_df) ->
      NoDup (map ModificarDatos.f_Item_str (fst res)))
  /\ ModificarDatos.detalle_referenced (fst res) (snd res).
Proof.
  intros res. unfold res, ModificarDatos._delete_item. cbv zeta. cbn [fst snd].
  assert (forall r,
            In r (ModificarDatos._sort_datos_by_item
                    (filter (fun r => negb (String.eqb (ModificarDatos.f_Item_str r)
                                                       item_code))
                            datos_df))
            <-> In r datos_df /\ ModificarDatos.f_Item_str r <> item_code) as Hin.
  { intros r. split.
    - intros H. apply (Permutation_in _ (sort_datos_perm _)) in H.
      apply filter_In in H. destruct H as [H1 H2].
      apply negb_true_iff, String.eqb_neq in H2. now split.
    - intros [H1 H2].
      apply (Permutation_in _ (Permutation_sym (sort_datos_perm _))).
      apply filter_In. split; [exact H1|].
      now apply negb_true_iff, String.eqb_neq. }
  split; [|split; [|split; [|split]]].
  - intros H. apply in_map_iff in H. destruct H as (r & E & Hr).
    apply Hin in Hr. tauto.
  - intros d Hd. apply delete_rows in Hd. destruct Hd as (d0 & _ & Hne & E).
    unfold Tables.item_str in *. congruence.
  - intros r Hr. rewrite Hin. tauto.
  - intros Hnd. eapply Permutation_NoDup.
    + symmetry. apply Permutation_map, sort_datos_perm.
    + now apply NoDup_map_filter_items.
  - intros d Hd. apply delete_rows in Hd. destruct Hd as (d0 & Hd0 & Hne & E).
    apply Href in Hd0. apply in_map_iff in Hd0. destruct Hd0 as (r & Er & Hr).
    apply in_map_iff. exists r.
    assert (Tables.item_str d = Tables.item_str d0) as Es
      by (unfold Tables.item_str; congruence).
    split; [congruence|].
    apply Hin. split; [exact Hr|congruence].
Qed.

Lemma delete_item_keeps_tables_consistent_witness :
  ModificarDatos.detalle_referenced
    (fst (ModificarDatos._delete_item
            [ModificarDatos.mk_fila (Tables.Num "1.01") "Trazado" "01/02/2026" "GL"
               (Some 1%Q) (Some 1%Q);
             ModificarDatos.mk_fila (Tables.Num "1.02") "Cierre" "01/02/2026" "ml"
               (Some 20%Q) (Some 1%Q)]
            [Tables.mk_detalle (Tables.Num "1.01") (Some "A") (Some 2%Q);
             Tables.mk_detalle (Tables.Num "1.02") (Some "A") (Some 3%Q)] "1.01"))
    (snd (ModificarDatos._delete_item
            [ModificarDatos.mk_fila (Tables.Num "1.01") "Trazado" "01/02/2026" "GL"
               (Some 1%Q) (Some 1%Q);
             ModificarDatos.mk_fila (Tables.Num "1.02") "Cierre" "01/02/2026" "ml"
               (Some 20%Q) (Some 1%Q)]
            [Tables.mk_detalle (Tables.Num "1.01") (Some "A") (Some 2%Q);
             Tables.mk_detalle (Tables.Num "1.02") (Some "A") (Some 3%Q)] "1.01")).
Proof.
  refine (proj2 (proj2 (proj2 (proj2
            (delete_item_keeps_tables_consistent _ _ "1.01" _))))).
  intros d [<-|[<-|[]]]; simpl; auto.
Defined.

(** X20.  A rename keeps the two tables consistent.
    [_rename_item_and_consolidate] returns under pandas 2, and under
    pandas 3 when every column can hold the value assigned to it.  If
    every detail row belonged to an item of the item table before, then
    whenever the call returns, every detail row of the result belongs
    to an item of the resulting item table, the rows of the renamed item
    under its new code. *)
Theorem rename_keeps_detalle_referenced (pd : Tables.pandas)
  (dtypes : ModificarDatos.datos_dtypes) (item_dtype : Tables.dtype)
  (datos_df : list ModificarDatos.datos_fila)
  (detalle_df : list Tables.detalle_row)
  (old_item raw_code partida fecha_str cant_tipo : string) (cant_num moneda : Q)
  (Href : ModificarDatos.detalle_referenced datos_df detalle_df) :
  (pd = Tables.Pandas2
   \/ (ModificarDatos.at_compatible dtypes cant_num moneda = true
       /\ Tables.is_object item_dtype = true) ->
   exists res,
     ModificarDatos._rename_item_and_consolidate pd dtypes item_dtype datos_df
       detalle_df old_item (PyStrip.strip raw_code) partida fecha_str cant_tipo
       cant_num moneda = Some res)
  /\ (forall res,
        ModificarDatos._rename_item_and_consolidate pd dtypes item_dtype datos_df
          detalle_df old_item (PyStrip.strip raw_code) partida fecha_str cant_tipo
          cant_num moneda = Some res ->
        ModificarDatos.detalle_referenced (fst res) (snd res)).
Proof.
  split; [apply rename_both_returns|].
  intros res Hres d Hd.
  set (new_item := PyStrip.strip raw_code) in *.
  assert (PyStrip.strip new_item = new_item) as Hs by apply strip_idempotent.
  destruct (rename_datos _ _ _ _ _ _ _ _ _ _ _ _ _ Hres) as (up & Hup & -> & Hdet).
  destruct (rename_rows _ _ _ _ _ _ d Hdet Hd) as (d0 & Hd0 & E).
  apply (Permutation_in _ (Permutation_sym
           (Permutation_map _ (sort_datos_perm _)))).
  assert (forall c, c = new_item
                    \/ (c <> old_item /\ In c (map ModificarDatos.f_Item_str datos_df)) ->
            In c (map ModificarDatos.f_Item_str
                    (if negb (String.eqb new_item old_item)
                     then filter (fun r => negb (String.eqb (ModificarDatos.f_Item_str r)
                                                            old_item)) up
                     else up))) as Hkeep.
  { intros c Hc.
    assert (In c (map ModificarDatos.f_Item_str up)) as Hinup.
    { apply (upsert_items pd dtypes datos_df new_item partida fecha_str cant_tipo
               cant_num moneda Hs up Hup). tauto. }
    destruct (String.eqb_spec new_item old_item) as [En|En]; cbn [negb];
      [exact Hinup|].
    apply in_map_iff in Hinup. destruct Hinup as (r & Er & Hr).
    apply in_map_iff. exists r. split; [exact Er|].
    apply filter_In. split; [exact Hr|].
    apply negb_true_iff, String.eqb_neq. rewrite Er.
    destruct Hc as [->|[Hc _]]; auto. }
  apply Hkeep. rewrite E.
  destruct (String.eqb_spec (Tables.item_str d0) old_item) as [Eo|Eo]; [now left|].
  right. split; [exact Eo|]. now apply Href.
Qed.

Lemma rename_keeps_detalle_referenced_witness :
  exists res,
    ModificarDatos._rename_item_and_consolidate Tables.Pandas2
      (ModificarDatos.mk_dtypes Tables.Float64Dtype Tables.ObjectDtype
         Tables.ObjectDtype Tables.Int64Dtype Tables.Int64Dtype)
      Tables.Float64Dtype
      [ModificarDatos.mk_fila (Tables.Num "1.01") "Trazado" "01/02/2026" "GL"
         (Some 1%Q) (Some 1%Q)]
      [Tables.mk_detalle (Tables.Num "1.01") (Some "A") (Some 2%Q)]
      "1.01" (PyStrip.strip "2.01 ") "Trazado" "01/02/2026" "GL" 1 1
    = Some res.
Proof.
  eapply (fun Href => proj1 (rename_keeps_detalle_referenced Tables.Pandas2 _ _ _ _
                               "1.01" "2.01 " _ _ _ 1 1 Href)).
  - intros d [<-|[]]; simpl; auto.
  - left. reflexivity.
Defined.

(** X21.  [convert_clp_to] undoes the currency's value: whenever the
    value [get_moneda_value] finds for the target currency is not zero,
    the call returns an amount which, multiplied by that value, is the
    amount in pesos it was given (in exact arithmetic).  The example of
    the docstring, [convert_clp_to(39718.89, "UF")] with the default
    table, is the witness. *)
Theorem convert_clp_to_round_trip
  (file : option (list Monedas.moneda_csv_row)) (monto_clp : Q)
  (moneda_destino : string)
  (Hne : ~ Monedas.get_moneda_value file moneda_destino == 0) :
  exists v,
    Monedas.convert_clp_to file monto_clp moneda_destino = Some v
    /\ v * Monedas.get_moneda_value file moneda_destino == monto_clp.
Proof.
  rewrite convert_clp_to_value.
  destruct (Qeq_bool (Monedas.get_moneda_value file moneda_destino) 0) eqn:E.
  - apply Qeq_bool_iff in E. contradiction.
  - eexists. split; [reflexivity|]. field. exact Hne.
Qed.

Lemma convert_clp_to_round_trip_witness :
  exists v,
    Monedas.convert_clp_to None (3971889 # 100) "UF" = Some v
    /\ v * Monedas.get_moneda_value None "UF" == 3971889 # 100.
Proof.
  apply (convert_clp_to_round_trip None (3971889 # 100) "UF").
  vm_compute. discriminate.
Defined.

(** ** The detail file when pandas holds its codes as text *)

Section TextCodeFacts.
Import Tables Precios ModificarPresupuesto.
Local Open Scope Q_scope.







End TextCodeFacts.

(** X22.  In exact arithmetic, and for a [detalle.csv] whose [item]
    column pandas holds as strings (the file has no row, or some item
    code of it has two dots or more) and whose [Codigo] column it holds
    as strings too: the unit price the reports read for an item code is
    the sum, over the rows of the file written with that code, of
    quantity times catalog price, a missing or non-numeric quantity or
    price counting as 0.  The catalog has one row per code, and no
    [Codigo] cell of the file is read as a missing value. *)
Theorem unit_price_of_text_codes (file : list Tables.detalle_csv_row)
  (df_maestro : list Tables.maestro_row) (item_code : string)
  (df_detalle : list Tables.detalle_row)
  (Hread : PresupuestoUtils.read_csv_detalle file
           = Some (Tables.ObjectDtype, df_detalle))
  (Hcat : NoDup (map Tables.m_Codigo df_maestro))
  (Hcod : Forall (fun d => PresupuestoUtils.codigo_of (Tables.file_Codigo d)
                           = Some (Tables.file_Codigo d)) file) :
  exists v,
    Precios.precio_unitario (Some file) df_maestro item_code = Some v
    /\ (v == Spec.unit_price item_code file df_maestro)%Q.
Proof.
  unfold Precios.precio_unitario, Precios._compute_precio_unitario_por_item.
  rewrite Hread. eexists. split; [reflexivity|].
  change (Precios.precio_de_tabla df_detalle df_maestro item_code
          == Spec.unit_price item_code file df_maestro)%Q.
  rewrite precio_de_tabla_sum.
  rewrite (read_csv_detalle_object file _ _ Hread eq_refl).
  unfold Spec.unit_price.
  rewrite (filter_map_swap _ (fun d => String.eqb (Tables.file_item d) item_code))
    by reflexivity.
  rewrite map_map. apply Qsum_map_ext. intros d Hd.
  apply filter_In in Hd. destruct Hd as [Hd _].
  rewrite Forall_forall in Hcod.
  unfold Tables.codigo_str. cbn [Tables.Codigo Tables.cantidad].
  rewrite (Hcod d Hd), (matches_NoDup df_maestro _ Hcat). reflexivity.
Qed.

Lemma unit_price_of_text_codes_witness :
  exists v,
    Precios.precio_unitario
      (Some [Tables.mk_detalle_csv "1.10" "X" (Some 3%Q);
             Tables.mk_detalle_csv "1.01.01" "Y" (Some 1%Q);
             Tables.mk_detalle_csv "1.10" "X" (Some 2%Q)])
      [Tables.mk_maestro "X" (Some 100%Q); Tables.mk_maestro "Y" (Some 7%Q)]
      "1.10" = Some v
    /\ (v == Spec.unit_price "1.10"
              [Tables.mk_detalle_csv "1.10" "X" (Some 3%Q);
               Tables.mk_detalle_csv "1.01.01" "Y" (Some 1%Q);
               Tables.mk_detalle_csv "1.10" "X" (Some 2%Q)]
              [Tables.mk_maestro "X" (Some 100%Q); Tables.mk_maestro "Y" (Some 7%Q)])%Q.
Proof.
  eapply unit_price_of_text_codes.
  - reflexivity.
  - simpl. repeat constructor; simpl; intuition discriminate.
  - repeat constructor.
Defined.


